(** * Console automation of the GNS3 testbed: a shallow embedding

  This development embeds the console-automation part of
  [gns3/gns3utils.py] and [gns3/scenario.py] (the VyOS install and
  configure dialogues, the MD5 helper and the console endpoint
  resolution) and proves properties of the transcripts they produce.

  Python [bytes] are Rocq strings (one [ascii] per byte), Python [str]
  values are lists of code points, effects are events appended to a
  transcript, and the outside world (console, file system, HTTP server,
  process table) is a record of oracles indexed by a logical clock. *)

From Stdlib Require Import ZArith NArith Ascii String Lia.
From stdpp Require Import gmap strings list pretty.

Open Scope string_scope.

(** ** Bytes *)

(** A Python [bytes] object: a finite sequence of 8-bit values. *)
Abbreviation bytes := string.

(** The byte [b"\n"]. *)
Definition LF : bytes := String "010"%char EmptyString.

Definition byte_val (c : ascii) : N := N_of_ascii c.

(** [all(p(c) for c in s)] *)
Fixpoint all_bytes (p : ascii -> bool) (s : bytes) : bool :=
  match s with
  | EmptyString => true
  | String c rest => p c && all_bytes p rest
  end.

Definition bytes_to_list (s : bytes) : list N := map byte_val (list_ascii_of_string s).

(** ** Base64 (RFC 4648, standard alphabet, with padding)

  [base64.b64encode] on the local side, and the decoder run on the
  router by the command [base64 --decode config.b64 > config.sh]. *)
Module Base64.

Definition alphabet : bytes :=
  "ABCDEFGHIJKLMNOPQRSTUVWXYZabcdefghijklmnopqrstuvwxyz0123456789+/".

Definition pad : ascii := "="%char.

(** The character of a 6-bit value. *)
Definition char_of (i : N) : ascii :=
  match String.get (N.to_nat i) alphabet with
  | Some c => c
  | None => pad
  end.

(** The 6-bit value of an alphabet character. *)
Definition index_of (c : ascii) : option N :=
  let n := byte_val c in
  if (65 <=? n)%N && (n <=? 90)%N then Some (n - 65)%N
  else if (97 <=? n)%N && (n <=? 122)%N then Some (n - 71)%N
  else if (48 <=? n)%N && (n <=? 57)%N then Some (n + 4)%N
  else if (n =? 43)%N then Some 62%N
  else if (n =? 47)%N then Some 63%N
  else None.

Definition is_b64_char (c : ascii) : bool :=
  match index_of c with Some _ => true | None => Ascii.eqb c pad end.

(** Three input bytes give four characters; a tail of one or two bytes is
    zero-extended and padded with [=]. *)
Fixpoint b64encode (s : bytes) : bytes :=
  match s with
  | EmptyString => EmptyString
  | String a EmptyString =>
      let x := byte_val a in
      String (char_of (x / 4))
        (String (char_of ((x mod 4) * 16))
           (String pad (String pad EmptyString)))
  | String a (String b EmptyString) =>
      let x := byte_val a in
      let y := byte_val b in
      String (char_of (x / 4))
        (String (char_of ((x mod 4) * 16 + y / 16))
           (String (char_of ((y mod 16) * 4))
              (String pad EmptyString)))
  | String a (String b (String c rest)) =>
      let x := byte_val a in
      let y := byte_val b in
      let z := byte_val c in
      String (char_of (x / 4))
        (String (char_of ((x mod 4) * 16 + y / 16))
           (String (char_of ((y mod 16) * 4 + z / 64))
              (String (char_of (z mod 64)) (b64encode rest))))
  end.

(** Decoding of the quanta, four characters at a time; padding is only
    accepted in the last quantum. *)
Fixpoint decode_quanta (s : bytes) : option bytes :=
  match s with
  | EmptyString => Some EmptyString
  | String c1 (String c2 (String c3 (String c4 rest))) =>
      match index_of c1, index_of c2 with
      | Some i1, Some i2 =>
          let b1 := ascii_of_N (i1 * 4 + i2 / 16) in
          if Ascii.eqb c4 pad then
            match rest with
            | EmptyString =>
                if Ascii.eqb c3 pad then Some (String b1 EmptyString)
                else
                  match index_of c3 with
                  | Some i3 =>
                      let b2 := ascii_of_N ((i2 mod 16) * 16 + i3 / 4) in
                      Some (String b1 (String b2 EmptyString))
                  | None => None
                  end
            | String _ _ => None
            end
          else
            match index_of c3, index_of c4, decode_quanta rest with
            | Some i3, Some i4, Some tl =>
                let b2 := ascii_of_N ((i2 mod 16) * 16 + i3 / 4) in
                let b3 := ascii_of_N ((i3 mod 4) * 64 + i4) in
                Some (String b1 (String b2 (String b3 tl)))
            | _, _, _ => None
            end
      | _, _ => None
      end
  | _ => None
  end.

(** Line feeds are not part of the encoding and are skipped. *)
Fixpoint drop_newlines (s : bytes) : bytes :=
  match s with
  | EmptyString => EmptyString
  | String c rest =>
      if Ascii.eqb c "010"%char then drop_newlines rest
      else String c (drop_newlines rest)
  end.

Definition b64decode (s : bytes) : option bytes :=
  decode_quanta (drop_newlines s).

End Base64.

(** ** MD5 (RFC 1321)

    [hashlib.md5(data).hexdigest()]: the digest of a byte string, as 32
    lowercase hexadecimal digits.  Words are 32-bit, kept in [Z] with the
    wrap-around written out. *)
Module MD5.

Definition wrap32 (x : Z) : Z := x mod 4294967296.

Definition add32 (x y : Z) : Z := wrap32 (x + y).

Definition not32 (x : Z) : Z := Z.lxor x 4294967295.

Definition rotl32 (x : Z) (c : Z) : Z :=
  wrap32 (Z.lor (Z.shiftl x c) (Z.shiftr x (32 - c))).

Definition shifts : list Z :=
  [7; 12; 17; 22; 7; 12; 17; 22; 7; 12; 17; 22; 7; 12; 17; 22;
   5; 9; 14; 20; 5; 9; 14; 20; 5; 9; 14; 20; 5; 9; 14; 20;
   4; 11; 16; 23; 4; 11; 16; 23; 4; 11; 16; 23; 4; 11; 16; 23;
   6; 10; 15; 21; 6; 10; 15; 21; 6; 10; 15; 21; 6; 10; 15; 21]%Z.

(** [floor (2^32 * abs (sin (i + 1)))] for [i] from 0 to 63. *)
Definition sines : list Z :=
  [3614090360; 3905402710; 606105819; 3250441966;
   4118548399; 1200080426; 2821735955; 4249261313;
   1770035416; 2336552879; 4294925233; 2304563134;
   1804603682; 4254626195; 2792965006; 1236535329;
   4129170786; 3225465664; 643717713; 3921069994;
   3593408605; 38016083; 3634488961; 3889429448;
   568446438; 3275163606; 4107603335; 1163531501;
   2850285829; 4243563512; 1735328473; 2368359562;
   4294588738; 2272392833; 1839030562; 4259657740;
   2763975236; 1272893353; 4139469664; 3200236656;
   681279174; 3936430074; 3572445317; 76029189;
   3654602809; 3873151461; 530742520; 3299628645;
   4096336452; 1126891415; 2878612391; 4237533241;
   1700485571; 2399980690; 4293915773; 2240044497;
   1873313359; 4264355552; 2734768916; 1309151649;
   4149444226; 3174756917; 718787259; 3951481745]%Z.

Record digest_state := { reg_a : Z; reg_b : Z; reg_c : Z; reg_d : Z }.

Definition initial_state : digest_state :=
  {| reg_a := 1732584193; reg_b := 4023233417;
     reg_c := 2562383102; reg_d := 271733878 |}.

(** The message with the [0x80] byte, the zero fill up to 56 modulo 64 and
    the bit length as a 64-bit little-endian integer. *)
Definition le_bytes (count : nat) (x : Z) : list Z :=
  map (fun k => (Z.shiftr x (8 * Z.of_nat k)) mod 256)%Z (seq 0 count).

Definition padding (len : nat) : list Z :=
  let fill := ((55 + 64 - len mod 64) mod 64)%nat in
  (128 :: repeat 0 fill ++ le_bytes 8 ((8 * Z.of_nat len) mod 2 ^ 64))%Z%list.

Definition le_word (b0 b1 b2 b3 : Z) : Z :=
  (b0 + 256 * b1 + 65536 * b2 + 16777216 * b3)%Z.

Fixpoint words_of (fuel : nat) (l : list Z) : list Z :=
  match fuel, l with
  | S fuel', b0 :: b1 :: b2 :: b3 :: rest => le_word b0 b1 b2 b3 :: words_of fuel' rest
  | _, _ => []
  end.

Definition round (m : list Z) (st : digest_state) (i : nat) : digest_state :=
  let a := reg_a st in
  let b := reg_b st in
  let c := reg_c st in
  let d := reg_d st in
  let '(f, g) :=
    if (i <? 16)%nat then (Z.lor (Z.land b c) (Z.land (not32 b) d), i)
    else if (i <? 32)%nat then
      (Z.lor (Z.land d b) (Z.land (not32 d) c), ((5 * i + 1) mod 16)%nat)
    else if (i <? 48)%nat then (Z.lxor (Z.lxor b c) d, ((3 * i + 5) mod 16)%nat)
    else (Z.lxor c (Z.lor b (not32 d)), ((7 * i) mod 16)%nat) in
  let f' := add32 (add32 (add32 f a) (nth i sines 0%Z)) (nth g m 0%Z) in
  {| reg_a := d; reg_b := add32 b (rotl32 f' (nth i shifts 0%Z));
     reg_c := b; reg_d := c |}.

Definition compress (st : digest_state) (block : list Z) : digest_state :=
  let m := words_of 16 block in
  let st' := fold_left (round m) (seq 0 64) st in
  {| reg_a := add32 (reg_a st) (reg_a st'); reg_b := add32 (reg_b st) (reg_b st');
     reg_c := add32 (reg_c st) (reg_c st'); reg_d := add32 (reg_d st) (reg_d st') |}.

Fixpoint blocks (fuel : nat) (st : digest_state) (l : list Z) : digest_state :=
  match fuel with
  | O => st
  | S fuel' =>
      match l with
      | [] => st
      | _ => blocks fuel' (compress st (firstn 64 l)) (skipn 64 l)
      end
  end.

Definition digest (data : bytes) : list Z :=
  let msg := map Z.of_N (bytes_to_list data) in
  let padded := (msg ++ padding (length msg))%list in
  let st := blocks (length padded) initial_state padded in
  (le_bytes 4 (reg_a st) ++ le_bytes 4 (reg_b st) ++
   le_bytes 4 (reg_c st) ++ le_bytes 4 (reg_d st))%list.

Definition hex_digit (x : Z) : ascii :=
  match String.get (Z.to_nat x) "0123456789abcdef" with
  | Some c => c
  | None => "0"%char
  end.

Fixpoint hex_of (l : list Z) : bytes :=
  match l with
  | [] => EmptyString
  | x :: rest => String (hex_digit (x / 16)) (String (hex_digit (x mod 16)) (hex_of rest))
  end.

(** [hashlib.md5(data).hexdigest()] *)
Definition hexdigest (data : bytes) : bytes := hex_of (digest data).

End MD5.

(** ** Python [str] and the UTF-8 codec *)

(** A Python [str]: a sequence of Unicode code points. *)
Abbreviation pystr := (list N).

(** A [str] literal of the source (ASCII only). *)
Definition literal (s : string) : pystr := bytes_to_list s.

(** [str(i)] for an [int]. *)
Definition str_of_int (i : Z) : pystr := literal (pretty i).

Module Utf8.

Definition continuation (y : N) : bool := (128 <=? y)%N && (y <=? 191)%N.

(** The second byte of a three-byte form: no overlong forms ([E0]) and no
    surrogates ([ED]). *)
Definition second_of_three (x y : N) : bool :=
  if (x =? 224)%N then (160 <=? y)%N && (y <=? 191)%N
  else if (x =? 237)%N then (128 <=? y)%N && (y <=? 159)%N
  else continuation y.

(** The second byte of a four-byte form: no overlong forms ([F0]) and
    nothing above [U+10FFFF] ([F4]). *)
Definition second_of_four (x y : N) : bool :=
  if (x =? 240)%N then (144 <=? y)%N && (y <=? 191)%N
  else if (x =? 244)%N then (128 <=? y)%N && (y <=? 143)%N
  else continuation y.

(** [data.decode("utf-8")] with the default strict error handler: [None]
    stands for [UnicodeDecodeError]. *)
Fixpoint decode (s : bytes) : option pystr :=
  match s with
  | EmptyString => Some []
  | String a r1 =>
      let x := byte_val a in
      if (x <? 128)%N then cons x <$> decode r1
      else if (194 <=? x)%N && (x <=? 223)%N then
        match r1 with
        | String b r2 =>
            let y := byte_val b in
            if continuation y
            then cons ((x - 192) * 64 + (y - 128))%N <$> decode r2
            else None
        | EmptyString => None
        end
      else if (224 <=? x)%N && (x <=? 239)%N then
        match r1 with
        | String b (String c r3) =>
            let y := byte_val b in
            let z := byte_val c in
            if second_of_three x y && continuation z
            then cons ((x - 224) * 4096 + (y - 128) * 64 + (z - 128))%N <$> decode r3
            else None
        | _ => None
        end
      else if (240 <=? x)%N && (x <=? 244)%N then
        match r1 with
        | String b (String c (String d r4)) =>
            let y := byte_val b in
            let z := byte_val c in
            let u := byte_val d in
            if second_of_four x y && continuation z && continuation u
            then cons ((x - 240) * 262144 + (y - 128) * 4096
                       + (z - 128) * 64 + (u - 128))%N <$> decode r4
            else None
        | _ => None
        end
      else None
  end.

End Utf8.

(** [s.split("\n")[-1]]: what follows the last line feed. *)
Fixpoint last_line_from (acc : pystr) (s : pystr) : pystr :=
  match s with
  | [] => rev acc
  | c :: rest =>
      if (c =? 10)%N then last_line_from [] rest
      else last_line_from (c :: acc) rest
  end.

Definition last_line (s : pystr) : pystr := last_line_from [] s.

(** [c.isspace()] *)
Definition isspace (c : N) : bool :=
  ((9 <=? c) && (c <=? 13) || (28 <=? c) && (c <=? 32) || (c =? 133) || (c =? 160)
   || (c =? 5760) || (8192 <=? c) && (c <=? 8202) || (c =? 8232) || (c =? 8233)
   || (c =? 8239) || (c =? 8287) || (c =? 12288))%N.

Fixpoint take_token (s : pystr) : pystr :=
  match s with
  | [] => []
  | c :: rest => if isspace c then [] else c :: take_token rest
  end.

(** [s.split()[0]]: the first run of characters that are not white space;
    [None] stands for the [IndexError] raised when there is none. *)
Fixpoint first_token (s : pystr) : option pystr :=
  match s with
  | [] => None
  | c :: rest => if isspace c then first_token rest else Some (c :: take_token rest)
  end.

(** [a == b] on [str] values. *)
Definition str_eqb (a b : pystr) : bool := bool_decide (a = b).

(** ** Exceptions, values and events *)

Inductive exn :=
| EOFError
| OSError (what : string)
| ValueError
| UnicodeDecodeError
| AttributeError
| IndexError
| TypeError
| KeyError (key : string)
| AssertionError
| HTTPError (status : Z).

(** What [r.json()] returns. *)
#[warnings="-register-all"]
Inductive json :=
| JNull
| JBool (b : bool)
| JInt (i : Z)
| JStr (s : string)
| JList (items : list json)
| JDict (fields : gmap string json).

(** An HTTP response: the status code and the parsed body ([None] when the
    body is not JSON). *)
Record response := { status_code : Z; body : option json }.

(** What [Telnet.expect] returns: the index of the first pattern that
    matched (or [-1]), the text of the match (or [None]) and the bytes read
    up to the end of the match. *)
Record expect_tuple := {
  out_index : Z;
  out_match : option bytes;
  out_text : bytes
}.

(** One entry of the transcript for every call that reaches outside the
    program, with its arguments and what came back. *)
Inductive event :=
| EvSpawn (cmd : string) (err : option exn)
| EvKill
| EvFileOpen (path : string) (err : option exn)
| EvFileRead (path : string) (res : exn + bytes)
| EvFileClose (path : string)
| EvTelnetOpen (host : string) (port : Z) (err : option exn)
| EvReadUntil (expected : bytes) (res : exn + bytes)
| EvWrite (data : bytes) (err : option exn)
| EvExpect (patterns : list bytes) (timeout : Z) (res : exn + expect_tuple)
| EvTelnetClose
| EvPrint (text : pystr)
| EvWarn (message : string)
| EvSleep (seconds : Z)
| EvHttpGet (url : string) (res : exn + response).

(** ** The outside world

    Every oracle takes the logical time of the call: the number of events
    of the run so far.  A world is thus any deterministic environment: its
    answers may differ from call to call. *)
Record World := {
  (** [subprocess.Popen(shlex.split(cmd))] *)
  spawn : nat -> string -> option exn;
  (** [open(path, "rb")] *)
  file_open : nat -> string -> option exn;
  (** [f.read()] *)
  file_read : nat -> string -> exn + bytes;
  (** [Telnet(host, port)] *)
  telnet_open : nat -> string -> Z -> option exn;
  (** [tn.read_until(expected)], without a timeout *)
  telnet_read_until : nat -> bytes -> exn + bytes;
  (** [tn.write(data)] *)
  telnet_write : nat -> bytes -> option exn;
  (** [tn.expect(patterns, timeout)] *)
  telnet_expect : nat -> list bytes -> Z -> exn + expect_tuple;
  (** [requests.get(url, auth=(user, password))] *)
  http_get : nat -> string -> string * string -> exn + response
}.

(** ** Programs

    How a block of statements ends: it runs to its end with a value, it
    executes [return] (the functions below return [None]), or it raises. *)
Inductive flow (A : Type) :=
| Next (a : A)
| ReturnNone
| Raise (e : exn).

Arguments Next {A} a.
Arguments ReturnNone {A}.
Arguments Raise {A} e.

(** A program reads the world and the clock, and gives its flow and the
    events it appended to the transcript. *)
Definition M (A : Type) : Type := World -> nat -> flow A * list event.

Definition ret {A} (a : A) : M A := fun _ _ => (Next a, []).

Definition bind {A B} (m : M A) (k : A -> M B) : M B :=
  fun w t =>
    match m w t with
    | (Next a, es) =>
        let '(r, es') := k a w (t + length es)%nat in (r, (es ++ es')%list)
    | (ReturnNone, es) => (ReturnNone, es)
    | (Raise e, es) => (Raise e, es)
    end.

Declare Scope py_scope.
Delimit Scope py_scope with py.
Bind Scope py_scope with M.
Notation "x <- m ;; k" := (bind m (fun x => k))
  (at level 100, m at next level, k at level 200, right associativity) : py_scope.
Notation "m ;; k" := (bind m (fun _ => k))
  (at level 100, k at level 200, right associativity) : py_scope.
Open Scope py_scope.

Definition raise {A} (e : exn) : M A := fun _ _ => (Raise e, []).

(** [return] *)
Definition return_none {A} : M A := fun _ _ => (ReturnNone, []).

Definition emit (e : event) : M unit := fun _ _ => (Next tt, [e]).

(** A call whose only answer is whether it raised. *)
Definition call_unit (ask : World -> nat -> option exn) (ev : option exn -> event) : M unit :=
  fun w t =>
    match ask w t with
    | None => (Next tt, [ev None])
    | Some e => (Raise e, [ev (Some e)])
    end.

(** A call that gives a value or raises. *)
Definition call_value {A} (ask : World -> nat -> exn + A) (ev : exn + A -> event) : M A :=
  fun w t =>
    match ask w t with
    | inr a => (Next a, [ev (inr a)])
    | inl e => (Raise e, [ev (inl e)])
    end.

(** [with acquire as x: body], for a context manager whose [__exit__]
    releases the resource and lets [return] and exceptions through. *)
Definition with_resource {A} (acquire : M unit) (release : event) (body : M A) : M A :=
  fun w t =>
    match acquire w t with
    | (Next _, es) =>
        let '(r, es') := body w (t + length es)%nat in
        (r, (es ++ es' ++ [release])%list)
    | (ReturnNone, es) => (ReturnNone, es)
    | (Raise e, es) => (Raise e, es)
    end.

(** The body of a [def]: [return] ends the function, not the caller. *)
Definition def (body : M unit) : M unit :=
  fun w t =>
    match body w t with
    | (ReturnNone, es) => (Next tt, es)
    | other => other
    end.

(** ** The library calls of the source *)

Definition print (text : pystr) : M unit := emit (EvPrint text).

Definition warn (message : string) : M unit := emit (EvWarn message).

Definition sleep (seconds : Z) : M unit := emit (EvSleep seconds).

(** [data.decode("utf-8")] *)
Definition decode_utf8 (data : bytes) : M pystr :=
  match Utf8.decode data with
  | Some s => ret s
  | None => raise UnicodeDecodeError
  end.

(** [if pre_exec:] on an [Optional[str]] *)
Definition truthy (pre_exec : option string) : bool :=
  match pre_exec with
  | Some s => negb (String.eqb s EmptyString)
  | None => false
  end.

Definition popen (cmd : string) : M unit :=
  call_unit (fun w t => spawn w t cmd) (EvSpawn cmd).

Definition kill : M unit := emit EvKill.

(** [with open(path, "rb") as f: body] *)
Definition with_open {A} (path : string) (body : M A) : M A :=
  with_resource (call_unit (fun w t => file_open w t path) (EvFileOpen path))
    (EvFileClose path) body.

Definition read (path : string) : M bytes :=
  call_value (fun w t => file_read w t path) (EvFileRead path).

(** [with Telnet(host, port) as tn: body] *)
Definition with_telnet {A} (host : string) (port : Z) (body : M A) : M A :=
  with_resource (call_unit (fun w t => telnet_open w t host port) (EvTelnetOpen host port))
    EvTelnetClose body.

Definition tn_read_until (expected : bytes) : M bytes :=
  call_value (fun w t => telnet_read_until w t expected) (EvReadUntil expected).

Definition tn_write (data : bytes) : M unit :=
  call_unit (fun w t => telnet_write w t data) (EvWrite data).

Definition tn_expect (patterns : list bytes) (timeout : Z) : M expect_tuple :=
  call_value (fun w t => telnet_expect w t patterns timeout) (EvExpect patterns timeout).

(** [print(out[0])] *)
Definition print_index (out : expect_tuple) : M unit :=
  print (str_of_int (out_index out)).

(** [print(out[2].decode("utf-8"))] *)
Definition print_text (out : expect_tuple) : M unit :=
  s <- decode_utf8 (out_text out) ;; print s.

(** [out[1].group()]: [out[1]] is [None] when nothing matched. *)
Definition group (out : expect_tuple) : M bytes :=
  match out_match out with
  | Some g => ret g
  | None => raise AttributeError
  end.

(** [s.split()[0]] *)
Definition split_first (s : pystr) : M pystr :=
  match first_token s with
  | Some tok => ret tok
  | None => raise IndexError
  end.

(** [if c: m] *)
Definition when (c : bool) (m : M unit) : M unit := if c then m else ret tt.

(** ** [md5sum_file] *)

(** Get file MD5 checksum. *)
Definition md5sum_file (fname : string) : M pystr :=
  data <- with_open fname (read fname) ;;
  ret (literal (MD5.hexdigest data)).

(** ** The install dialogue: the body of the [with Telnet(...)] block of
    [install_vyos_image_on_node], statement by statement. *)
Definition install_dialogue : M unit :=
  out <- tn_read_until "vyos login:" ;;
  s <- decode_utf8 out ;;
  print (last_line s) ;;

  tn_write ("vyos" ++ LF) ;;
  out <- tn_expect ["Password:"] 10 ;;
  print_text out ;;

  tn_write ("vyos" ++ LF) ;;
  out <- tn_expect ["vyos@vyos:~\$"] 10 ;;
  print_index out ;;
  print_text out ;;

  tn_write ("install image" ++ LF) ;;
  out <- tn_expect ["Would you like to continue\? \(Yes/No\)"] 10 ;;
  print_index out ;;
  print_text out ;;

  tn_write ("Yes" ++ LF) ;;
  out <- tn_expect ["Partition \(Auto/Parted/Skip\)"] 10 ;;
  print_index out ;;
  print_text out ;;

  tn_write ("Auto" ++ LF) ;;
  out <- tn_expect ["Install the image on"] 10 ;;
  print_index out ;;
  print_text out ;;

  tn_write LF ;;
  out <- tn_expect ["Continue\? \(Yes/No\)"] 10 ;;
  print_index out ;;
  print_text out ;;

  tn_write ("Yes" ++ LF) ;;
  out <- tn_expect ["How big of a root partition should I create"] 30 ;;
  print_index out ;;
  print_text out ;;

  tn_write LF ;;
  out <- tn_expect ["What would you like to name this image"] 30 ;;
  print_index out ;;
  print_text out ;;

  tn_write LF ;;
  out <- tn_expect ["Which one should I copy to"] 30 ;;
  print_index out ;;
  print_text out ;;

  tn_write LF ;;
  out <- tn_expect ["Enter password for user 'vyos':"] 10 ;;
  print_index out ;;
  print_text out ;;

  tn_write ("vyos" ++ LF) ;;
  out <- tn_expect ["Retype password for user 'vyos':"] 10 ;;
  print_index out ;;
  print_text out ;;

  tn_write ("vyos" ++ LF) ;;
  out <- tn_expect ["Which drive should GRUB modify the boot partition on"] 10 ;;
  print_index out ;;
  print_text out ;;

  tn_write LF ;;
  out <- tn_expect ["vyos@vyos:~\$"] 30 ;;
  print_index out ;;
  print_text out ;;

  sleep 2 ;;
  tn_write ("poweroff" ++ LF) ;;
  out <- tn_expect ["Are you sure you want to poweroff this system"] 10 ;;
  print_index out ;;
  print_text out ;;

  tn_write ("y" ++ LF) ;;
  sleep 2.

(** ** The configure dialogue *)

(** [b"echo '" + config + b"' >> config.b64\n"] *)
Definition upload_command (config : bytes) : bytes :=
  "echo '" ++ config ++ "' >> config.b64" ++ LF.

(** [r"[0-9a-f]{32}  config.sh".encode("utf-8")], compiled as a regular
    expression. *)
Definition digest_pattern : bytes := "[0-9a-f]{32}  config.sh".

(** [patterns == [digest_pattern]] *)
Definition is_digest_wait (patterns : list bytes) : bool :=
  match patterns with
  | [p] => String.eqb p digest_pattern
  | _ => false
  end.

(** The body of the [with Telnet(...)] block of
    [configure_vyos_image_on_node]. *)
Definition configure_dialogue (local_checksum : pystr) (config : bytes) : M unit :=
  out <- tn_read_until "vyos login:" ;;
  s <- decode_utf8 out ;;
  print (last_line s) ;;

  tn_write ("vyos" ++ LF) ;;
  out <- tn_expect ["Password:"] 10 ;;
  print_text out ;;

  tn_write ("vyos" ++ LF) ;;
  out <- tn_expect ["vyos@vyos:~\$"] 10 ;;
  print_index out ;;
  print_text out ;;

  let payload := upload_command config in
  tn_write payload ;;
  out <- tn_expect ["vyos@vyos:~\$"] 10 ;;
  print_index out ;;
  print_text out ;;

  tn_write ("base64 --decode config.b64 > config.sh" ++ LF) ;;
  out <- tn_expect ["vyos@vyos:~\$"] 10 ;;
  print_index out ;;
  print_text out ;;

  tn_write ("md5sum config.sh" ++ LF) ;;
  out <- tn_expect [digest_pattern] 5 ;;
  when (out_index out =? -1)%Z
    (warn "Error generating file MD5 checksum." ;;
     return_none) ;;
  matched <- group out ;;
  s <- decode_utf8 matched ;;
  uploaded_checksum <- split_first s ;;

  (if negb (str_eqb uploaded_checksum local_checksum)
   then warn "Checksums do not match."
   else print (literal "Checksums match.")) ;;

  tn_write ("chmod +x config.sh" ++ LF) ;;
  out <- tn_expect ["vyos@vyos:~\$"] 10 ;;
  print_index out ;;
  print_text out ;;

  tn_write ("./config.sh" ++ LF) ;;
  out <- tn_expect ["Done"] 60 ;;
  print_index out ;;
  print_text out ;;
  out <- tn_expect ["vyos@vyos:~\$"] 10 ;;
  print_index out ;;
  print_text out ;;

  tn_write ("poweroff" ++ LF) ;;
  out <- tn_expect ["Are you sure you want to poweroff this system"] 10 ;;
  print_index out ;;
  print_text out ;;

  tn_write ("y" ++ LF) ;;
  sleep 2.

(** ** [gns3/gns3utils.py] *)
Module gns3utils.

(** Perform VyOS installation steps. *)
Definition install_vyos_image_on_node
    (node_id hostname : string) (telnet_port : Z) (pre_exec : option string) : M unit :=
  def (
    when (truthy pre_exec) (popen (default EmptyString pre_exec)) ;;
    with_telnet hostname telnet_port install_dialogue ;;
    when (truthy pre_exec) kill).

(** Configure VyOS router. *)
Definition configure_vyos_image_on_node
    (node_id hostname : string) (telnet_port : Z) (path_script : string)
    (pre_exec : option string) : M unit :=
  def (
    when (truthy pre_exec) (popen (default EmptyString pre_exec)) ;;
    local_checksum <- md5sum_file path_script ;;
    config <- with_open path_script
                (data <- read path_script ;; ret (Base64.b64encode data)) ;;
    with_telnet hostname telnet_port (configure_dialogue local_checksum config) ;;
    when (truthy pre_exec) kill).

End gns3utils.

(** ** [gns3/scenario.py]: the same dialogues, without the helper process *)
Module scenario.

Definition install_vyos_image_on_node
    (node_id hostname : string) (telnet_port : Z) : M unit :=
  def (with_telnet hostname telnet_port install_dialogue).

Definition configure_vyos_image_on_node
    (node_id hostname : string) (telnet_port : Z) (path_script : string) : M unit :=
  def (
    local_checksum <- md5sum_file path_script ;;
    config <- with_open path_script
                (data <- read path_script ;; ret (Base64.b64encode data)) ;;
    with_telnet hostname telnet_port (configure_dialogue local_checksum config)).

End scenario.

(** ** The console endpoint of a node *)

Record Server := {
  addr : string;
  port : Z;
  auth : bool;
  user : string;
  password : string
}.

Record Project := { name : string; id : string; grid_unit : Z }.

Definition requests_get (url : string) (credentials : string * string) : M response :=
  call_value (fun w t => http_get w t url credentials) (EvHttpGet url).

(** [r.raise_for_status()] *)
Definition raise_for_status (r : response) : M unit :=
  if (400 <=? status_code r)%Z && (status_code r <? 600)%Z
  then raise (HTTPError (status_code r))
  else ret tt.

(** [r.json()] *)
Definition r_json (r : response) : M json :=
  match body r with
  | Some j => ret j
  | None => raise ValueError
  end.

(** [j[key]] with a [str] key *)
Definition subscript (j : json) (key : string) : M json :=
  match j with
  | JDict fields =>
      match fields !! key with
      | Some v => ret v
      | None => raise (KeyError key)
      end
  | _ => raise TypeError
  end.

(** [j == s] for a [str] literal [s] *)
Definition json_eq_str (j : json) (s : string) : bool :=
  match j with
  | JStr s' => String.eqb s' s
  | _ => false
  end.

(** [assert c] *)
Definition assert (c : bool) : M unit :=
  if c then ret tt else raise AssertionError.

Definition node_url (server : Server) (project : Project) (node_id : string) : string :=
  "http://" ++ addr server ++ ":" ++ pretty (port server)
  ++ "/v2/projects/" ++ id project ++ "/nodes/" ++ node_id.

(** Get the telnet hostname and port of a node; the same text in
    [gns3utils.py] and [scenario.py]. *)
Definition get_node_telnet_host_port
    (server : Server) (project : Project) (node_id : string) : M (json * json) :=
  req <- requests_get (node_url server project node_id) (user server, password server) ;;
  raise_for_status req ;;
  j <- r_json req ;;
  console_type <- subscript j "console_type" ;;
  assert (json_eq_str console_type "telnet") ;;
  j <- r_json req ;;
  console_host <- subscript j "console_host" ;;
  host <- (if json_eq_str console_host "0.0.0.0" || json_eq_str console_host "::"
           then ret (JStr (addr server))
           else (j <- r_json req ;; subscript j "console_host")) ;;
  j <- r_json req ;;
  console <- subscript j "console" ;;
  ret (host, console).

(** ** Reading a transcript *)

(** The bytes written to the console, in order. *)
Definition writes (es : list event) : list bytes :=
  omap (fun e => match e with EvWrite data _ => Some data | _ => None end) es.

Definition is_close (e : event) : bool :=
  match e with EvTelnetClose => true | _ => false end.

Definition is_open (e : event) : bool :=
  match e with EvTelnetOpen _ _ None => true | _ => false end.

(** A call on the open connection. *)
Definition is_console_call (e : event) : bool :=
  match e with
  | EvReadUntil _ _ | EvWrite _ _ | EvExpect _ _ _ => true
  | _ => false
  end.

Definition is_kill (e : event) : bool :=
  match e with EvKill => true | _ => false end.

Definition is_spawn (e : event) : bool :=
  match e with EvSpawn _ None => true | _ => false end.

Definition is_file_read (path : string) (e : event) : bool :=
  match e with EvFileRead p _ => String.eqb p path | _ => false end.

Definition count (p : event -> bool) (es : list event) : nat :=
  length (List.filter p es).

(** The run of a program from the start of a transcript. *)
Definition run {A} (m : M A) (w : World) : flow A * list event := m w 0%nat.

(** The two source files that define the procedures. *)
Inductive source_file :=
| Gns3utils (pre_exec : option string)
| Scenario.

Definition install_procedure (src : source_file) (node_id hostname : string)
    (telnet_port : Z) : M unit :=
  match src with
  | Gns3utils pre_exec =>
      gns3utils.install_vyos_image_on_node node_id hostname telnet_port pre_exec
  | Scenario => scenario.install_vyos_image_on_node node_id hostname telnet_port
  end.

Definition configure_procedure (src : source_file) (node_id hostname : string)
    (telnet_port : Z) (path_script : string) : M unit :=
  match src with
  | Gns3utils pre_exec =>
      gns3utils.configure_vyos_image_on_node node_id hostname telnet_port path_script pre_exec
  | Scenario =>
      scenario.configure_vyos_image_on_node node_id hostname telnet_port path_script
  end.

(** ** Console doubles

    Concrete worlds, used to run the programs on explicit inputs. *)

(** [expect] found pattern 0 and read [text]. *)
Definition matched (text : bytes) : expect_tuple :=
  {| out_index := 0; out_match := Some text; out_text := text |}.

(** [expect] ran into its deadline with nothing read: [(-1, None, b"")]. *)
Definition timed_out : expect_tuple :=
  {| out_index := -1; out_match := None; out_text := EmptyString |}.

(** A world with the given files, a console that accepts the connection and
    every write, shows the login banner, and answers [expect] as [answer]
    says; helper processes start; there is no HTTP server. *)
Definition console_world (files : gmap string bytes)
    (answer : nat -> list bytes -> Z -> exn + expect_tuple) : World :=
  {| spawn := fun _ _ => None;
     file_open := fun _ path =>
       match files !! path with
       | Some _ => None
       | None => Some (OSError "ENOENT")
       end;
     file_read := fun _ path =>
       match files !! path with
       | Some content => inr content
       | None => inl (OSError "EBADF")
       end;
     telnet_open := fun _ _ _ => None;
     telnet_read_until := fun _ _ => inr "Welcome to VyOS - vyos ttyS0 vyos login:";
     telnet_write := fun _ _ => None;
     telnet_expect := answer;
     http_get := fun _ _ _ => inl (OSError "ECONNREFUSED") |}.

(** The console never shows an expected prompt. *)
Definition silent : nat -> list bytes -> Z -> exn + expect_tuple :=
  fun _ _ _ => inr timed_out.

(** What the console shows when a prompt is found. *)
Definition shell_prompt : bytes := "vyos@vyos:~$ ".

(** The console shows every expected prompt; at the digest step it prints
    [remote_digest] and the file name. *)
Definition prompting (remote_digest : bytes) : nat -> list bytes -> Z -> exn + expect_tuple :=
  fun _ patterns _ =>
    if is_digest_wait patterns
    then inr (matched (remote_digest ++ "  config.sh"))
    else inr (matched shell_prompt).

(** As [prompting], but nothing like a digest line ever appears. *)
Definition no_digest : nat -> list bytes -> Z -> exn + expect_tuple :=
  fun _ patterns _ =>
    if is_digest_wait patterns
    then inr timed_out
    else inr (matched shell_prompt).

(** Prompts appear until time 8; every wait from then on finds the
    connection closed by the router. *)
Definition dropping : nat -> list bytes -> Z -> exn + expect_tuple :=
  fun t patterns _ =>
    if (8 <=? t)%nat then inl EOFError
    else inr (matched shell_prompt).

Definition script_path : string := "router.sh".

Definition script_files (content : bytes) : gmap string bytes :=
  {[ script_path := content ]}.

Definition viewer : option string := Some "konsole -e telnet localhost 5000".


(** A world with a GNS3 server that answers every request with [answer],
    and nothing else. *)
Definition api_world (answer : response) : World :=
  {| spawn := fun _ _ => Some (OSError "ENOENT");
     file_open := fun _ _ => Some (OSError "ENOENT");
     file_read := fun _ _ => inl (OSError "EBADF");
     telnet_open := fun _ _ _ => Some (OSError "ECONNREFUSED");
     telnet_read_until := fun _ _ => inl EOFError;
     telnet_write := fun _ _ => Some (OSError "EPIPE");
     telnet_expect := fun _ _ _ => inl EOFError;
     http_get := fun _ _ _ => inr answer |}.

Definition local_server : Server :=
  {| addr := "192.168.56.1"; port := 3080; auth := false;
     user := "admin"; password := "admin" |}.

Definition iot_project : Project :=
  {| name := "iot_sim"; id := "a1b2"; grid_unit := 75 |}.

(** A node whose console listens on every address of the server. *)
Definition router_node : gmap string json :=
  {[ "console_type" := JStr "telnet";
     "console_host" := JStr "0.0.0.0";
     "console" := JInt 5000 ]}.

(** The script file of the examples, [b"echo hi"], and its MD5 digest. *)
Definition script_content : bytes := "echo hi".

Definition script_digest : bytes := "d28b1973427f736bce1d09e6babe5ec8".

(** No prompt ever appears. *)
Definition silent_world : World := console_world ∅ silent.

(** Every prompt appears and the router reports the digest of the file. *)
Definition prompting_world : World :=
  console_world (script_files script_content) (prompting script_digest).

(** Every prompt appears and the router reports another digest. *)
Definition mismatch_world : World :=
  console_world (script_files script_content)
    (prompting "00000000000000000000000000000000").


(** Every prompt appears, but no digest line. *)
Definition no_digest_world : World :=
  console_world (script_files script_content) no_digest.

(** The connection is lost during the dialogue. *)
Definition dropping_world : World :=
  console_world (script_files script_content) dropping.

(** The GNS3 server answers with [router_node]. *)
Definition router_api_world : World :=
  api_world {| status_code := 200; body := Some (JDict router_node) |}.

(** ** Monitors

    A monitor reads a transcript event by event; [None] means that it
    rejects the transcript.  Safety properties of the programs are stated
    as a monitor that accepts every transcript. *)
Section Monitors.

Context {S : Type}.
Variable step : S -> event -> option S.

Fixpoint observe (s : S) (es : list event) : option S :=
  match es with
  | [] => Some s
  | e :: rest =>
      match step s e with
      | Some s' => observe s' rest
      | None => None
      end
  end.

(** [wp w m Q s]: started at any time in world [w], with the monitor in
    state [s], the events of [m] are accepted and [Q] holds of the way [m]
    ends and of the state the monitor is left in. *)
Definition wp {A} (w : World) (m : M A) (Q : flow A -> S -> Prop) (s : S) : Prop :=
  forall t, exists s', observe s (snd (m w t)) = Some s' /\ Q (fst (m w t)) s'.

End Monitors.

(** *** The connection

    [Telnet(...)] opens it, the calls on [tn] need it open, and leaving
    the [with] block closes it; nothing is allowed on a closed connection,
    not even a second close. *)
Inductive connection := NotOpen | Open | Closed.

Definition connection_step (s : connection) (e : event) : option connection :=
  match e with
  | EvTelnetOpen _ _ None =>
      match s with NotOpen => Some Open | _ => None end
  | EvTelnetOpen _ _ (Some _) =>
      match s with NotOpen => Some NotOpen | _ => None end
  | EvTelnetClose =>
      match s with Open => Some Closed | _ => None end
  | EvReadUntil _ _ | EvWrite _ _ | EvExpect _ _ _ =>
      match s with Open => Some Open | _ => None end
  | _ => Some s
  end.

(** The connection is closed exactly once if it was opened, after every
    call on it, and never opened twice. *)
Definition closed_once (es : list event) : Prop :=
  (exists s, observe connection_step NotOpen es = Some s /\ s <> Open) /\
  count is_close es = count is_open es /\
  (count is_open es <= 1)%nat.

(** *** The local file and the console

    The script file may be read until the program tries to reach the
    console; the state counts the reads. *)
Record file_state := { reads : nat; dialled : bool }.

Definition file_step (path : string) (s : file_state) (e : event) : option file_state :=
  match e with
  | EvFileRead p _ =>
      if String.eqb p path && negb (dialled s)
      then Some {| reads := Datatypes.S (reads s); dialled := false |}
      else None
  | EvTelnetOpen _ _ _ => Some {| reads := reads s; dialled := true |}
  | _ => Some s
  end.

(** *** The digest step of the configure dialogue

    Once the wait for the digest line has come back with index [-1], the
    warning is the next event and the console is not used any more. *)
Inductive digest_state := Waiting | Missed | Aborted.

Definition digest_warning : string := "Error generating file MD5 checksum.".

Definition digest_step (s : digest_state) (e : event) : option digest_state :=
  match s with
  | Waiting =>
      match e with
      | EvExpect patterns _ (inr out) =>
          if is_digest_wait patterns && (out_index out =? -1)%Z
          then Some Missed
          else Some Waiting
      | _ => Some Waiting
      end
  | Missed =>
      match e with
      | EvWarn message => if String.eqb message digest_warning then Some Aborted else None
      | _ => None
      end
  | Aborted => if is_console_call e then None else Some Aborted
  end.

(** *** The exchanges of a dialogue

    Every write, with the wait that came before it: the patterns that were
    awaited and the deadline ([None] for [read_until], which has none). *)
Record exchange := {
  awaited : list bytes;
  deadline : option Z;
  reply : bytes
}.

Record exchange_state := {
  pending : list bytes * option Z;
  done : list exchange;
  warned : list string
}.

Definition exchange_step (s : exchange_state) (e : event) : exchange_state :=
  match e with
  | EvReadUntil expected _ =>
      {| pending := ([expected], None); done := done s; warned := warned s |}
  | EvExpect patterns timeout _ =>
      {| pending := (patterns, Some timeout); done := done s; warned := warned s |}
  | EvWrite data _ =>
      {| pending := ([], None);
         done := (done s ++ [{| awaited := fst (pending s);
                                deadline := snd (pending s);
                                reply := data |}])%list;
         warned := warned s |}
  | EvWarn message =>
      {| pending := pending s; done := done s; warned := (warned s ++ [message])%list |}
  | _ => s
  end.

Definition no_exchange : exchange_state :=
  {| pending := ([], None); done := []; warned := [] |}.

Definition exchanges (es : list event) : list exchange :=
  done (fold_left exchange_step es no_exchange).

(** The messages of [warnings.warn], in order. *)
Definition warnings (es : list event) : list string :=
  warned (fold_left exchange_step es no_exchange).

Definition exchange_monitor (s : exchange_state) (e : event) : option exchange_state :=
  Some (exchange_step s e).

(** A wait that found what it was waiting for. *)
Definition wait_succeeded (e : event) : bool :=
  match e with
  | EvReadUntil _ (inl _) => false
  | EvExpect _ _ (inl _) => false
  | EvExpect _ _ (inr out) => (out_index out =? 0)%Z
  | _ => true
  end.

(** The exchanges of a dialogue in which no wait may fail. *)
Definition prompted_monitor (s : exchange_state) (e : event) : option exchange_state :=
  if wait_succeeded e then Some (exchange_step s e) else None.

(** ** Consoles that keep the dialogue going

    No call raises and what the console sends is UTF-8; whether a wait
    finds its pattern is left open. *)
Record responsive (w : World) : Prop := {
  responsive_spawn : forall t cmd, spawn w t cmd = None;
  responsive_open : forall t host port, telnet_open w t host port = None;
  responsive_banner : forall t expected,
    exists data s, telnet_read_until w t expected = inr data /\ Utf8.decode data = Some s;
  responsive_write : forall t data, telnet_write w t data = None;
  responsive_expect : forall t patterns timeout,
    exists out s, telnet_expect w t patterns timeout = inr out /\
                  Utf8.decode (out_text out) = Some s
}.

(** Every wait finds its pattern before the deadline. *)
Definition prompts_in_time (w : World) : Prop :=
  forall t patterns timeout out,
    telnet_expect w t patterns timeout = inr out ->
    out_index out = 0%Z /\ is_Some (out_match out).

(** The digest line shown by the console carries the digest [remote]. *)
Definition shows_digest (w : World) (remote : pystr) : Prop :=
  forall t timeout out,
    telnet_expect w t [digest_pattern] timeout = inr out ->
    out_index out <> (-1)%Z /\
    exists matched s,
      out_match out = Some matched /\ Utf8.decode matched = Some s /\
      first_token s = Some remote.

(** The file [path] can be opened and holds [content]. *)
Definition holds_file (w : World) (path : string) (content : bytes) : Prop :=
  (forall t, file_open w t path = None) /\
  (forall t, file_read w t path = inr content).

(** ** The scripts as tables *)

Definition install_script : list exchange :=
  [ {| awaited := ["vyos login:"]; deadline := None; reply := "vyos" ++ LF |};
    {| awaited := ["Password:"]; deadline := Some 10%Z; reply := "vyos" ++ LF |};
    {| awaited := ["vyos@vyos:~\$"]; deadline := Some 10%Z; reply := "install image" ++ LF |};
    {| awaited := ["Would you like to continue\? \(Yes/No\)"]; deadline := Some 10%Z;
       reply := "Yes" ++ LF |};
    {| awaited := ["Partition \(Auto/Parted/Skip\)"]; deadline := Some 10%Z;
       reply := "Auto" ++ LF |};
    {| awaited := ["Install the image on"]; deadline := Some 10%Z; reply := LF |};
    {| awaited := ["Continue\? \(Yes/No\)"]; deadline := Some 10%Z; reply := "Yes" ++ LF |};
    {| awaited := ["How big of a root partition should I create"]; deadline := Some 30%Z;
       reply := LF |};
    {| awaited := ["What would you like to name this image"]; deadline := Some 30%Z;
       reply := LF |};
    {| awaited := ["Which one should I copy to"]; deadline := Some 30%Z; reply := LF |};
    {| awaited := ["Enter password for user 'vyos':"]; deadline := Some 10%Z;
       reply := "vyos" ++ LF |};
    {| awaited := ["Retype password for user 'vyos':"]; deadline := Some 10%Z;
       reply := "vyos" ++ LF |};
    {| awaited := ["Which drive should GRUB modify the boot partition on"];
       deadline := Some 10%Z; reply := LF |};
    {| awaited := ["vyos@vyos:~\$"]; deadline := Some 30%Z; reply := "poweroff" ++ LF |};
    {| awaited := ["Are you sure you want to poweroff this system"]; deadline := Some 10%Z;
       reply := "y" ++ LF |} ].

(** The commands of the configure dialogue up to the digest step, and the
    ones after it. *)
Definition configure_upload (config : bytes) : list bytes :=
  [ "vyos" ++ LF; "vyos" ++ LF; upload_command config;
    "base64 --decode config.b64 > config.sh" ++ LF; "md5sum config.sh" ++ LF ].

Definition configure_execute : list bytes :=
  [ "chmod +x config.sh" ++ LF; "./config.sh" ++ LF; "poweroff" ++ LF; "y" ++ LF ].

Definition mismatch_warning : string := "Checksums do not match.".

(** The reply that follows the wait for [prompt]. *)
Definition reply_to (prompt : bytes) (script : list exchange) : option bytes :=
  reply <$> List.find (fun x => bool_decide (awaited x = [prompt])) script.

(** ** The upload on the router

    What the router's shell does with the upload command: the text between
    the single quotes is taken as it is, and [echo] appends it and a line
    feed to [config.b64]. *)

(** [s] after the prefix [p], when [s] starts with [p]. *)
Fixpoint strip_prefix (p s : bytes) : option bytes :=
  match p, s with
  | EmptyString, _ => Some s
  | String a p', String b s' => if Ascii.eqb a b then strip_prefix p' s' else None
  | String _ _, EmptyString => None
  end.

(** The text up to the next single quote, and what follows the quote. *)
Fixpoint until_quote (s : bytes) : option (bytes * bytes) :=
  match s with
  | EmptyString => None
  | String c rest =>
      if Ascii.eqb c "'"%char then Some (EmptyString, rest)
      else
        match until_quote rest with
        | Some (text, tail) => Some (String c text, tail)
        | None => None
        end
  end.

(** The line that [echo 'text' >> config.b64] appends to [config.b64]. *)
Definition echo_appended (command : bytes) : option bytes :=
  match strip_prefix "echo '" command with
  | Some rest =>
      match until_quote rest with
      | Some (text, tail) =>
          if String.eqb tail (" >> config.b64" ++ LF) then Some (text ++ LF) else None
      | None => None
      end
  | None => None
  end.

(** *** The upload command and the file

    A write that starts with [echo '] is the upload command for the bytes
    that the last read of the script file gave. *)
Definition upload_step (path : string) (s : option bytes) (e : event) : option (option bytes) :=
  match e with
  | EvFileRead p (inr content) => if String.eqb p path then Some (Some content) else None
  | EvWrite data _ =>
      match strip_prefix "echo '" data with
      | Some _ =>
          match s with
          | Some content =>
              if String.eqb data (upload_command (Base64.b64encode content))
              then Some s else None
          | None => None
          end
      | None => Some s
      end
  | _ => Some s
  end.

(** ** Statements about the procedures *)


(** The script file is read once. *)
Definition reads_file_once (path : string) (m : M unit) : Prop :=
  forall w, (count (is_file_read path) (snd (run m w)) <= 1)%nat.

(** A helper process that was started is killed before the procedure ends. *)
Definition helper_killed (m : M unit) : Prop :=
  forall w, count is_kill (snd (run m w)) = count is_spawn (snd (run m w)).

(** The helper process starts when one is asked for, and the console
    accepts the connection. *)
Definition dials (w : World) : Prop :=
  (forall t cmd, spawn w t cmd = None) /\
  (forall t host port, telnet_open w t host port = None).

(** The wait before the write has a deadline of 10 or of 30 seconds. *)
Definition has_deadline (x : exchange) : Prop :=
  deadline x = Some 10%Z \/ deadline x = Some 30%Z.

(** Every step of the dialogue has a deadline of 10 or of 30 seconds, on
    a console that shows every prompt in time. *)
Definition every_step_has_deadline (m : M unit) : Prop :=
  forall w, responsive w -> prompts_in_time w ->
    Forall has_deadline (exchanges (snd (run m w))).

(** The console host that stands for every address of the server. *)
Definition is_wildcard (host : json) : Prop :=
  host = JStr "0.0.0.0" \/ host = JStr "::".

(** ** More monitors for the console procedures *)

(** *** The helper process

    How many helpers were started and killed, and whether the procedure
    gave up at the digest step. *)
Record helper_state := { started : nat; stopped : nat; gave_up : bool }.

Definition no_helper : helper_state := {| started := 0; stopped := 0; gave_up := false |}.

Definition helper_step (s : helper_state) (e : event) : option helper_state :=
  match e with
  | EvSpawn _ None =>
      Some {| started := Datatypes.S (started s); stopped := stopped s; gave_up := gave_up s |}
  | EvKill =>
      Some {| started := started s; stopped := Datatypes.S (stopped s); gave_up := gave_up s |}
  | EvWarn message =>
      if String.eqb message digest_warning
      then Some {| started := started s; stopped := stopped s; gave_up := true |}
      else Some s
  | _ => Some s
  end.

Definition is_digest_warning (e : event) : bool :=
  match e with EvWarn message => String.eqb message digest_warning | _ => false end.

(** *** The login banner

    Nothing is asked of the console, after the wait for the banner, until
    the banner has arrived and has been decoded. *)
Inductive banner_state := NoBanner | Garbled | Greeted.

Definition banner_step (s : banner_state) (e : event) : option banner_state :=
  match e with
  | EvReadUntil expected res =>
      match s with
      | NoBanner =>
          if String.eqb expected "vyos login:" then
            match res with
            | inr data =>
                match Utf8.decode data with
                | Some _ => Some Greeted
                | None => Some Garbled
                end
            | inl _ => Some Garbled
            end
          else None
      | _ => None
      end
  | EvWrite _ _ | EvExpect _ _ _ =>
      match s with Greeted => Some Greeted | _ => None end
  | _ => Some s
  end.

(** *** Running the uploaded script

    The commands that make the uploaded file executable and run it are
    only written once a digest line has been found and the digest has been
    read off it. *)
Inductive script_state := Unchecked | Found (out : expect_tuple) | Checked.

Definition is_execution (data : bytes) : bool :=
  String.eqb data ("chmod +x config.sh" ++ LF) || String.eqb data ("./config.sh" ++ LF).

(** [out[1].group().decode("utf-8").split()[0]], when it does not raise. *)
Definition digest_of (out : expect_tuple) : option pystr :=
  match out_match out with
  | Some g =>
      match Utf8.decode g with
      | Some s => first_token s
      | None => None
      end
  | None => None
  end.

Definition script_step (s : script_state) (e : event) : option script_state :=
  match e with
  | EvExpect patterns _ (inr out) =>
      if is_digest_wait patterns
      then (if (out_index out =? -1)%Z then Some s else Some (Found out))
      else Some s
  | EvWarn message =>
      match s with
      | Found out =>
          if String.eqb message mismatch_warning
          then match digest_of out with Some _ => Some Checked | None => None end
          else Some s
      | _ => Some s
      end
  | EvPrint _ =>
      match s with
      | Found out => match digest_of out with Some _ => Some Checked | None => None end
      | _ => Some s
      end
  | EvWrite data _ =>
      if is_execution data
      then match s with Checked => Some s | _ => None end
      else Some s
  | _ => Some s
  end.

(** ** Digest lines

    A line that the digest pattern matches in full: 32 lowercase
    hexadecimal digits, two spaces, [config], one byte that is not a line
    feed, and [sh]. *)
Definition is_hex_digit (c : ascii) : bool :=
  let n := byte_val c in
  ((48 <=? n) && (n <=? 57) || (97 <=? n) && (n <=? 102))%N.

Definition digest_line (digits : bytes) (dot : ascii) : bytes :=
  digits ++ "  config" ++ String dot "sh".

Definition is_digest_line (line digits : bytes) (dot : ascii) : Prop :=
  line = digest_line digits dot /\
  String.length digits = 32%nat /\
  all_bytes is_hex_digit digits = true /\
  Ascii.eqb dot "010"%char = false.

(** The wait for the digest line finds a line with the digits [digits]
    and the byte [dot] where the pattern has its dot. *)
Definition shows_digest_line (w : World) (digits : bytes) (dot : ascii) : Prop :=
  forall t timeout out,
    telnet_expect w t [digest_pattern] timeout = inr out ->
    out_index out = 0%Z /\
    exists line, out_match out = Some line /\ is_digest_line line digits dot.

(** A byte of 7 bits. *)
Definition is_ascii (c : ascii) : bool := (byte_val c <? 128)%N.

(** A byte other than the line feed. *)
Definition not_line_feed (c : ascii) : bool := negb (Ascii.eqb c "010"%char).

(** The wait for the login banner. *)
Definition is_banner_wait (e : event) : bool :=
  match e with
  | EvReadUntil expected _ => String.eqb expected "vyos login:"
  | _ => false
  end.

(** The banner was received and decoded in [pre]. *)
Definition greeted (pre : list event) : Prop :=
  exists data s,
    In (EvReadUntil "vyos login:" (inr data)) pre /\ Utf8.decode data = Some s.

(** Every call on the console is the first one and the wait for the
    banner, or comes after a banner that was received and decoded. *)
Definition banner_first (es : list event) : Prop :=
  forall pre e post,
    es = (pre ++ e :: post)%list -> is_console_call e = true ->
    is_banner_wait e = true /\ Forall (fun e' => is_console_call e' = false) pre \/
    greeted pre.

(** A digest line was found in [pre], and a digest was read off it. *)
Definition verified (pre : list event) : Prop :=
  exists timeout out,
    In (EvExpect [digest_pattern] timeout (inr out)) pre /\
    out_index out <> (-1)%Z /\ is_Some (digest_of out).

(** The commands that make the uploaded file executable and run it are
    written only after a digest was read. *)
Definition run_after_digest (es : list event) : Prop :=
  forall pre data err post,
    es = (pre ++ EvWrite data err :: post)%list -> is_execution data = true ->
    verified pre.

(** * The functions that build a project through the GNS3 API

    [create_node], [create_link], [set_node_network_interfaces],
    [create_cluster_of_devices] and the functions around them send
    requests to the GNS3 server with [requests.get] and [requests.post].
    The server is an oracle indexed by the logical clock, as the console
    is; the transcript lists the requests, the pauses and what is
    printed. *)

(** ** Requests, events and programs *)

(** A part of an f-string: text of the source, or a value that is
    formatted into it. *)
Inductive piece :=
| Text (s : string)
| Value (v : json).

Inductive verb := Get | Post.

(** The [data] argument of a request: none, [data={}],
    [data=json.dumps(j)] or a [str]. *)
Inductive payload :=
| NoData
| EmptyForm
| JsonData (j : json)
| TextData (s : string).

(** The exceptions of the console procedures, the one raised by [%] with a
    zero divisor, and the one raised by a number that is too large for a
    [float] or for a C timestamp. *)
Inductive error :=
| Py (e : exn)
| ZeroDivisionError
| OverflowError.

(** [EvPause]: [time.sleep] has returned; [EvNoPause]: it has raised. *)
Inductive api_event :=
| EvRequest (method : verb) (url : list piece) (data : payload) (res : exn + response)
| EvPause (milliseconds : Z)
| EvNoPause (milliseconds : Z) (e : error)
| EvSay (parts : list piece) (newline : bool)
| EvCaution (message : string).

(** The GNS3 server: [requests.get] and [requests.post] with the URL, the
    data and [auth=(user, password)]; and the clock of the machine:
    [sleeps t ms] is what [time.sleep] of [ms] milliseconds does, for a
    duration that is not negative: it returns after the pause ([None]), or
    it raises (the duration does not fit a C timestamp, or the system call
    refuses the deadline). *)
Record Controller := {
  respond : nat -> verb -> list piece -> payload -> string * string -> exn + response;
  sleeps : nat -> Z -> option error
}.

Definition Api (A : Type) : Type := Controller -> nat -> (error + A) * list api_event.

Definition api_ret {A} (a : A) : Api A := fun _ _ => (inr a, []).

Definition api_bind {A B} (m : Api A) (k : A -> Api B) : Api B :=
  fun c t =>
    match m c t with
    | (inr a, es) =>
        let '(r, es') := k a c (t + length es)%nat in (r, (es ++ es')%list)
    | (inl e, es) => (inl e, es)
    end.

Declare Scope api_scope.
Delimit Scope api_scope with api.
Notation "x <- m ;; k" := (api_bind m (fun x => k))
  (at level 100, m at next level, k at level 200, right associativity) : api_scope.
Notation "m ;; k" := (api_bind m (fun _ => k))
  (at level 100, k at level 200, right associativity) : api_scope.

Definition api_raise {A} (e : error) : Api A := fun _ _ => (inl e, []).

Definition api_emit (e : api_event) : Api unit := fun _ _ => (inr tt, [e]).

(** The run of a program from the start of a transcript. *)
Definition api_run {A} (m : Api A) (c : Controller) : (error + A) * list api_event :=
  m c 0%nat.

(** [requests.get(url, auth=...)] and [requests.post(url, data=..., auth=...)] *)
Definition send (method : verb) (url : list piece) (data : payload) (server : Server) :
    Api response :=
  fun c t =>
    match respond c t method url data (user server, password server) with
    | inr r => (inr r, [EvRequest method url data (inr r)])
    | inl e => (inl (Py e), [EvRequest method url data (inl e)])
    end.

(** [r.raise_for_status()] *)
Definition check_status (r : response) : Api unit :=
  if (400 <=? status_code r)%Z && (status_code r <? 600)%Z
  then api_raise (Py (HTTPError (status_code r)))
  else api_ret tt.

(** [r.json()] *)
Definition parsed (r : response) : Api json :=
  match body r with
  | Some j => api_ret j
  | None => api_raise (Py ValueError)
  end.

(** [j[key]] with a [str] key *)
Definition field (j : json) (key : string) : Api json :=
  match j with
  | JDict fields =>
      match fields !! key with
      | Some v => api_ret v
      | None => api_raise (Py (KeyError key))
      end
  | _ => api_raise (Py TypeError)
  end.

(** [assert c] *)
Definition check (c : bool) : Api unit :=
  if c then api_ret tt else api_raise (Py AssertionError).

(** [time.sleep(0.3)] and the like, in milliseconds. *)
Definition pause (milliseconds : Z) : Api unit := api_emit (EvPause milliseconds).

(** [time.sleep(t)] for a [t] that is not a constant of the source: a
    negative one raises [ValueError] before the clock is asked; for the
    others the clock decides ([OverflowError] or [OSError] for a duration of
    some 9.2e9 seconds or more). *)
Definition pause_for (milliseconds : Z) : Api unit :=
  if (milliseconds <? 0)%Z then api_raise (Py ValueError)
  else fun c t =>
    match sleeps c t milliseconds with
    | None => (inr tt, [EvPause milliseconds])
    | Some e => (inl e, [EvNoPause milliseconds e])
    end.

(** [print(...)], and [print(..., end="", flush=True)] *)
Definition say (parts : list piece) : Api unit := api_emit (EvSay parts true).

Definition say_on (parts : list piece) : Api unit := api_emit (EvSay parts false).

(** [warnings.warn(message, RuntimeWarning)] *)
Definition caution (message : string) : Api unit := api_emit (EvCaution message).

(** [a % b] on [int]: the sign of the result is the sign of [b]. *)
Definition py_mod (a b : Z) : Api Z :=
  if (b =? 0)%Z then api_raise ZeroDivisionError else api_ret (a mod b)%Z.

(** [n/2] for an [int] [n] is a [float]: [n] rounded to 53 significant
    bits (to nearest, ties to even), halved; [None] when the result is
    2^1024 or more in magnitude.  Given as the [int] that [int(n/2)] returns:
    the quotient rounded towards zero when [|n| < 2^53], the float itself
    (an integer) from there on. *)
Definition float_half (n : Z) : option Z :=
  let a := Z.abs n in
  if (a <? 2 ^ 53)%Z then Some (Z.quot n 2)
  else
    let q := (2 ^ (Z.log2 a - 52))%Z in
    let k := (a / q)%Z in
    let rest := (a mod q)%Z in
    let k' := if (q <? 2 * rest)%Z || ((2 * rest =? q)%Z && Z.odd k) then (k + 1)%Z else k in
    let r := (k' * q)%Z in
    if (2 ^ 1025 <=? r)%Z then None else Some (Z.sgn n * (r / 2))%Z.

(** [int(n/2)] for an [int] [n]; the division raises [OverflowError] when
    the result is too large for a [float]. *)
Definition int_half (n : Z) : Api Z :=
  match float_half n with
  | Some h => api_ret h
  | None => api_raise OverflowError
  end.

(** [range(n)] *)
Definition range (n : Z) : list Z := map Z.of_nat (seq 0 (Z.to_nat n)).

(** [enumerate(xs, start)] *)
Fixpoint enumerate {A} (start : Z) (xs : list A) : list (Z * A) :=
  match xs with
  | [] => []
  | x :: rest => (start, x) :: enumerate (start + 1) rest
  end.

(** [for x in xs: s = body(x, s)], the variables that the loop updates
    being gathered in [s]. *)
Fixpoint for_each {A S} (xs : list A) (body : A -> S -> Api S) (s : S) : Api S :=
  match xs with
  | [] => api_ret s
  | x :: rest => (s' <- body x s ;; for_each rest body s')%api
  end.

(** What [for x in j] visits: the items of a list, the keys of a dict (a
    [str] each; the loops below fail on the first of them, so their order
    does not matter) and the characters of a [str]; other values are not
    iterable. *)
Definition elements (j : json) : Api (list json) :=
  match j with
  | JList items => api_ret items
  | JDict fields => api_ret (JStr <$> (map_to_list fields).*1)
  | JStr s => api_ret ((fun c => JStr (String c EmptyString)) <$> list_ascii_of_string s)
  | _ => api_raise (Py TypeError)
  end.

(** The URL of a resource of the project. *)
Definition project_url (server : Server) (project : Project) (path : string) : string :=
  "http://" ++ addr server ++ ":" ++ pretty (port server)
  ++ "/v2/projects/" ++ id project ++ path.

(** ** IPv4 addresses

    An [ipaddress.IPv4Address] is its 32-bit value. *)
Definition all_ones : Z := 4294967295.

(** [IPv4Address(n)] for an [int]: [AddressValueError], a [ValueError],
    outside the 32 bits. *)
Definition ipv4 (n : Z) : Api Z :=
  if (0 <=? n)%Z && (n <=? all_ones)%Z then api_ret n else api_raise (Py ValueError).

(** [a + n] and [a - n] on an [IPv4Address] *)
Definition ipv4_add (a n : Z) : Api Z := ipv4 (a + n).

Definition ipv4_sub (a n : Z) : Api Z := ipv4 (a - n).

(** [str(a)]: the dotted quad. *)
Definition dotted (a : Z) : string :=
  pretty (a / 16777216)%Z ++ "." ++ pretty ((a / 65536) mod 256)%Z ++ "."
  ++ pretty ((a / 256) mod 256)%Z ++ "." ++ pretty (a mod 256)%Z.

(** An [ipaddress.IPv4Interface]: an address and a prefix length between
    0 and 32. *)
Record IPv4Interface := { iface_ip : Z; prefixlen : Z }.

Definition netmask (i : IPv4Interface) : Z :=
  (all_ones - (2 ^ (32 - prefixlen i) - 1))%Z.

(** ** The configuration file of an interface *)

Definition TAB : string := String "009"%char EmptyString.

(** The text that [get_static_interface_config_file] returns. *)
Definition static_config (iface address mask gateway nameserver : string) : string :=
  "# autogenerated" ++ LF
  ++ "# Static config for " ++ iface ++ LF
  ++ "auto " ++ iface ++ LF
  ++ "iface " ++ iface ++ " inet static" ++ LF
  ++ TAB ++ "address " ++ address ++ LF
  ++ TAB ++ "netmask " ++ mask ++ LF
  ++ TAB ++ "gateway " ++ gateway ++ LF
  ++ TAB ++ "up echo nameserver " ++ nameserver ++ " > /etc/resolv.conf" ++ LF.

(** What an f-string shows of an argument: [None] is shown as [None]. *)
Definition shown (a : option string) : string := default "None" a.

(** ** Functions that are the same in both source files *)

(** Create selected node at coordinates [start_x], [start_y]. *)
Definition create_node (server : Server) (project : Project) (start_x start_y : Z)
    (node_template_id : json) (node_name : option string) : Api json :=
  (let payload : gmap string json := {[ "x" := JInt start_x; "y" := JInt start_y ]} in
   let payload :=
     if truthy node_name
     then <[ "name" := JStr (default EmptyString node_name) ]> payload
     else payload in
   req <- send Post [Text (project_url server project "/templates/"); Value node_template_id]
            (JsonData (JDict payload)) server ;;
   check_status req ;;
   parsed req)%api.

(** Start selected node. *)
Definition start_node (server : Server) (project : Project) (node_id : json) : Api unit :=
  (req <- send Post [Text (project_url server project "/nodes/"); Value node_id; Text "/start"]
            EmptyForm server ;;
   check_status req)%api.

(** The two ends of a link. *)
Definition link_payload (node1_id : json) (node1_port : Z) (node2_id : json)
    (node2_port : Z) : json :=
  JDict {[ "nodes" :=
    JList [ JDict {[ "node_id" := node1_id; "adapter_number" := JInt node1_port;
                     "port_number" := JInt 0 ]};
            JDict {[ "node_id" := node2_id; "adapter_number" := JInt node2_port;
                     "port_number" := JInt 0 ]} ] ]}.

(** Create link between two nodes. *)
Definition create_link (server : Server) (project : Project) (node1_id : json)
    (node1_port : Z) (node2_id : json) (node2_port : Z) : Api json :=
  (req <- send Post [Text (project_url server project "/links")]
            (JsonData (link_payload node1_id node1_port node2_id node2_port)) server ;;
   check_status req ;;
   parsed req)%api.

(** The body of the loop that creates the grid of devices, on the
    variables [devices_node_id] and [dy]. *)
Definition create_device (server : Server) (project : Project) (start_x start_y : Z)
    (device_template_id : json) (devices_per_row : Z) (i : Z) (vars : list json * Z) :
    Api (list json * Z) :=
  (let '(devices_node_id, dy) := vars in
   column <- py_mod i devices_per_row ;;
   device_node <- create_node server project
                    (start_x + column * grid_unit project) (start_y + dy)
                    device_template_id None ;;
   node_id <- field device_node "node_id" ;;
   let devices_node_id := (devices_node_id ++ [node_id])%list in
   column <- py_mod i devices_per_row ;;
   let dy := if (column =? devices_per_row - 1)%Z then (dy + grid_unit project)%Z
             else dy in
   pause 300 ;;
   api_ret (devices_node_id, dy))%api.

Definition create_devices (server : Server) (project : Project)
    (num_devices start_x start_y : Z) (device_template_id : json) (devices_per_row : Z) :
    Api (list json * Z) :=
  for_each (range num_devices)
    (create_device server project start_x start_y device_template_id devices_per_row)
    ([], 0%Z).

(** The body of the loop that links the devices to the switch, on the
    variable [devices_link_id]. *)
Definition link_device (server : Server) (project : Project) (switch_node_id : json)
    (numbered : Z * json) (devices_link_id : list json) : Api (list json) :=
  (let '(i, dev) := numbered in
   dev_link <- create_link server project dev 0 switch_node_id i ;;
   link_id <- field dev_link "link_id" ;;
   pause 300 ;;
   api_ret (devices_link_id ++ [link_id])%list)%api.

Definition link_devices (server : Server) (project : Project) (switch_node_id : json)
    (devices_node_id : list json) : Api (list json) :=
  for_each (enumerate 1 devices_node_id) (link_device server project switch_node_id) [].

(** The decoration: the [payload] of the drawing. *)
Definition decoration (project : Project) (start_x start_y : Z) (half : Z)
    (first last : Z) : json :=
  JDict {[ "x" := JInt (start_x + (half + 2) * grid_unit project);
           "y" := JInt (start_y - grid_unit project);
           "svg" := JStr ("<svg><text>" ++ dotted first ++ LF ++ dotted last ++ LF
                          ++ "255.255.0.0" ++ "</text></svg>") ]}.

Record cluster := {
  switch_node_id : json;
  devices_node_id : list json;
  devices_link_id : list json
}.

(** [Item = namedtuple("Item", ("name", "id"))], with the values of the
    server's answer. *)
Record Item := { item_name : json; item_id : json }.

(** A compiled pattern: whether [match] finds a match at the start of a
    [str]. *)
Definition Pattern : Type := string -> bool.

(** [name_regexp.match(v)]: [TypeError] for a value that is not a [str]. *)
Definition matches (name_regexp : Pattern) (v : json) : Api bool :=
  match v with
  | JStr s => api_ret (name_regexp s)
  | _ => api_raise (Py TypeError)
  end.

(** [list(filter(lambda n: name_regexp.match(n["name"]), nodes))] *)
Fixpoint filter_by_name (name_regexp : Pattern) (nodes : list json) : Api (list json) :=
  match nodes with
  | [] => api_ret []
  | n :: rest =>
      (name <- field n "name" ;;
       found <- matches name_regexp name ;;
       kept <- filter_by_name name_regexp rest ;;
       api_ret (if found then n :: kept else kept))%api
  end.

(** [[Item(n["name"], n["node_id"]) for n in nodes_filtered]] *)
Fixpoint items_of (nodes : list json) : Api (list Item) :=
  match nodes with
  | [] => api_ret []
  | n :: rest =>
      (name <- field n "name" ;;
       node_id <- field n "node_id" ;;
       items <- items_of rest ;;
       api_ret ({| item_name := name; item_id := node_id |} :: items))%api
  end.

(** Get the list of all node IDs that match a node name regular
    expression. *)
Definition get_nodes_id_by_name_regexp (server : Server) (project : Project)
    (name_regexp : Pattern) : Api (list Item) :=
  (req <- send Get [Text (project_url server project "/nodes")] NoData server ;;
   check_status req ;;
   nodes <- parsed req ;;
   nodes <- elements nodes ;;
   nodes_filtered <- filter_by_name name_regexp nodes ;;
   items_of nodes_filtered)%api.

(** The loop of [get_template_id_from_name]. *)
Fixpoint first_named (templates : list json) (name : string) : Api json :=
  match templates with
  | [] => api_ret JNull
  | template :: rest =>
      (n <- field template "name" ;;
       if json_eq_str n name then field template "template_id"
       else first_named rest name)%api
  end.

(** Get GNS3 template ID from the template name
    ([get_template_id_from_name] in [gns3utils.py], [template_id_from_name]
    in [scenario.py]); [None] is [JNull]. *)
Definition get_template_id_from_name (templates : json) (name : string) : Api json :=
  (items <- elements templates ;; first_named items name)%api.

(** ** [gns3/gns3utils.py] *)
Module gns3utils_api.

(** Configuration file for a static network interface; [nameserver] has
    the default [None], so the function is called with four or five
    arguments. *)
Definition get_static_interface_config_file (args : list (option string)) : Api string :=
  match args with
  | [iface; address; mask; gateway] =>
      api_ret (static_config (shown iface) (shown address) (shown mask) (shown gateway)
                 (shown gateway))
  | [iface; address; mask; gateway; nameserver] =>
      api_ret (static_config (shown iface) (shown address) (shown mask) (shown gateway)
                 (shown (match nameserver with
                         | None => gateway
                         | Some _ => nameserver
                         end)))
  | _ => api_raise (Py TypeError)
  end.

(** If the GNS3 project is closed, open it. *)
Definition open_project_if_closed (server : Server) (project : Project) : Api unit :=
  (req <- send Get [Text (project_url server project "")] NoData server ;;
   check_status req ;;
   answer <- parsed req ;;
   status <- field answer "status" ;;
   if json_eq_str status "opened"
   then say [Text ("Project " ++ name project ++ " is already open.")]
   else
     req <- send Post [Text (project_url server project "/open")] NoData server ;;
     check_status req ;;
     answer <- parsed req ;;
     status <- field answer "status" ;;
     say [Text ("Project " ++ name project ++ " "); Value status; Text "."] ;;
     answer <- parsed req ;;
     status <- field answer "status" ;;
     check (json_eq_str status "opened"))%api.

(** Configure the [/etc/network/interfaces] file for the node. *)
Definition set_node_network_interfaces (server : Server) (project : Project)
    (node_id : json) (iface_name : string) (ip_iface : IPv4Interface) (gateway : string)
    (nameserver : option string) : Api unit :=
  ((if (netmask ip_iface =? all_ones)%Z
    then caution ("Interface netmask is set to " ++ dotted (netmask ip_iface))
    else api_ret tt) ;;
   payload <- get_static_interface_config_file
                [Some iface_name; Some (dotted (iface_ip ip_iface));
                 Some (dotted (netmask ip_iface)); Some gateway; nameserver] ;;
   req <- send Post [Text (project_url server project "/nodes/"); Value node_id;
                     Text "/files/etc/network/interfaces"]
            (TextData payload) server ;;
   check_status req)%api.

(** The body of the loop that configures the devices. *)
Definition configure_device (server : Server) (project : Project) (start_ip : Z)
    (numbered : Z * json) (_ : unit) : Api unit :=
  (let '(i, dev) := numbered in
   address <- ipv4_add start_ip i ;;
   set_node_network_interfaces server project dev "eth0"
     {| iface_ip := address; prefixlen := 16 |} "192.168.0.1" None ;;
   say [Text "Configured  "; Value dev] ;;
   pause 300)%api.

Definition configure_devices (server : Server) (project : Project) (start_ip : Z)
    (devices_node_id : list json) : Api unit :=
  for_each (enumerate 0 devices_node_id) (configure_device server project start_ip) tt.

Definition create_cluster_of_devices (server : Server) (project : Project)
    (num_devices start_x start_y : Z) (switch_template_id device_template_id : json)
    (start_ip : Z) (devices_per_row : Z) : Api (cluster * (Z * Z * Z * Z)) :=
  (check (num_devices <? 64)%Z ;;
   (* create cluster switch *)
   let Xi := start_x in
   let Yi := start_y in
   half <- int_half devices_per_row ;;
   switch_node <- create_node server project
                    (start_x + half * grid_unit project)
                    (start_y - grid_unit project) switch_template_id None ;;
   switch_node_id <- field switch_node "node_id" ;;
   pause 300 ;;
   (* create device grid *)
   grid <- create_devices server project num_devices start_x start_y
             device_template_id devices_per_row ;;
   let '(devices_node_id, dy) := grid in
   check (Z.of_nat (length devices_node_id) =? num_devices)%Z ;;
   let Xf := (start_x + (devices_per_row - 1) * grid_unit project)%Z in
   let Yf := (start_y + dy)%Z in
   (* link devices to the switch *)
   devices_link_id <- link_devices server project switch_node_id devices_node_id ;;
   check (Z.of_nat (length devices_link_id) =? num_devices)%Z ;;
   (* change device configuration *)
   configure_devices server project start_ip devices_node_id ;;
   (* decoration *)
   half <- int_half devices_per_row ;;
   last <- ipv4_add start_ip num_devices ;;
   last <- ipv4_sub last 1 ;;
   req <- send Post [Text (project_url server project "/drawings")]
            (JsonData (decoration project start_x start_y half start_ip last))
            server ;;
   check_status req ;;
   api_ret ({| switch_node_id := switch_node_id; devices_node_id := devices_node_id;
               devices_link_id := devices_link_id |}, (Xi, Yi, Xf, Yf)))%api.

(** The body of the loop of [start_all_nodes_by_name_regexp]. *)
Definition start_listed (server : Server) (project : Project) (sleeptime : Z)
    (node : Item) (_ : unit) : Api unit :=
  (say_on [Text "Starting "; Value (item_name node); Text "... "] ;;
   start_node server project (item_id node) ;;
   say [Text "OK"] ;;
   pause_for sleeptime)%api.

(** Start all nodes that match a name regexp; [sleeptime] in
    milliseconds. *)
Definition start_all_nodes_by_name_regexp (server : Server) (project : Project)
    (node_pattern : Pattern) (sleeptime : Z) : Api unit :=
  (nodes <- get_nodes_id_by_name_regexp server project node_pattern ;;
   match nodes with
   | [] => api_ret tt
   | _ =>
       say [Text "found "; Value (JInt (Z.of_nat (length nodes))); Text " nodes"] ;;
       for_each nodes (start_listed server project sleeptime) tt
   end)%api.

End gns3utils_api.

(** ** [gns3/scenario.py] *)
Module scenario_api.

(** Configuration file for a static network interface; [nameserver] has
    no default here, so the function is called with five arguments. *)
Definition get_static_interface_config_file (args : list (option string)) : Api string :=
  match args with
  | [iface; address; mask; gateway; nameserver] =>
      api_ret (static_config (shown iface) (shown address) (shown mask) (shown gateway)
                 (shown (match nameserver with
                         | None => gateway
                         | Some _ => nameserver
                         end)))
  | _ => api_raise (Py TypeError)
  end.

(** The body of the loop that configures the devices: the request is
    written out in the loop, and the configuration file is asked for with
    four arguments. *)
Definition configure_device (server : Server) (project : Project) (start_ip : Z)
    (numbered : Z * json) (_ : unit) : Api unit :=
  (let '(i, dev) := numbered in
   address <- ipv4_add start_ip i ;;
   payload <- get_static_interface_config_file
                [Some "eth0"; Some (dotted address); Some "255.255.0.0";
                 Some "192.168.0.1"] ;;
   r <- send Post [Text (project_url server project "/nodes/"); Value dev;
                   Text "/files/etc/network/interfaces"]
          (TextData payload) server ;;
   check_status r ;;
   say [Text "Configured  "; Value dev; Text "   "; Value (JInt (status_code r))] ;;
   pause 300)%api.

Definition configure_devices (server : Server) (project : Project) (start_ip : Z)
    (devices_node_id : list json) : Api unit :=
  for_each (enumerate 0 devices_node_id) (configure_device server project start_ip) tt.

(** As in [gns3utils.py], with the requests of [create_node] and
    [create_link] written out in the function. *)
Definition create_cluster_of_devices (server : Server) (project : Project)
    (num_devices start_x start_y : Z) (switch_template_id device_template_id : json)
    (start_ip : Z) (devices_per_row : Z) : Api (cluster * (Z * Z * Z * Z)) :=
  (check (num_devices <? 64)%Z ;;
   let Xi := start_x in
   let Yi := start_y in
   half <- int_half devices_per_row ;;
   switch_node <- create_node server project
                    (start_x + half * grid_unit project)
                    (start_y - grid_unit project) switch_template_id None ;;
   switch_node_id <- field switch_node "node_id" ;;
   pause 300 ;;
   grid <- create_devices server project num_devices start_x start_y
             device_template_id devices_per_row ;;
   let '(devices_node_id, dy) := grid in
   check (Z.of_nat (length devices_node_id) =? num_devices)%Z ;;
   let Xf := (start_x + (devices_per_row - 1) * grid_unit project)%Z in
   let Yf := (start_y + dy)%Z in
   devices_link_id <- link_devices server project switch_node_id devices_node_id ;;
   check (Z.of_nat (length devices_link_id) =? num_devices)%Z ;;
   configure_devices server project start_ip devices_node_id ;;
   half <- int_half devices_per_row ;;
   last <- ipv4_add start_ip num_devices ;;
   last <- ipv4_sub last 1 ;;
   r <- send Post [Text (project_url server project "/drawings")]
          (JsonData (decoration project start_x start_y half start_ip last))
          server ;;
   check_status r ;;
   api_ret ({| switch_node_id := switch_node_id; devices_node_id := devices_node_id;
               devices_link_id := devices_link_id |}, (Xi, Yi, Xf, Yf)))%api.

End scenario_api.

(** ** Reading a transcript of requests *)

(** Started at any time with the server [c], the program [m] ends in a
    way and with a transcript that satisfy [Q]. *)
Definition api_wp {A} (c : Controller) (m : Api A)
    (Q : error + A -> list api_event -> Prop) : Prop :=
  forall t, Q (fst (m c t)) (snd (m c t)).

(** The [POST] requests of a transcript, in order: the URL and the data. *)
Definition post_of (e : api_event) : option (list piece * payload) :=
  match e with
  | EvRequest Post url data _ => Some (url, data)
  | _ => None
  end.

Definition posts (es : list api_event) : list (list piece * payload) := omap post_of es.

(** The pauses of a transcript, in milliseconds. *)
Definition pause_of (e : api_event) : option Z :=
  match e with
  | EvPause milliseconds => Some milliseconds
  | _ => None
  end.

Definition pauses (es : list api_event) : list Z := omap pause_of es.

(** [raise_for_status] lets the response through. *)
Definition status_ok (r : response) : Prop :=
  (400 <=? status_code r)%Z && (status_code r <? 600)%Z = false.

(** A server that accepts what the cluster needs: a node is created for
    every template and the answer carries its [node_id], a link is created
    and the answer carries its [link_id], and the files and the drawings
    are taken. *)
Record accepting (c : Controller) (server : Server) (project : Project) : Prop := {
  accepts_nodes : forall t template_id data,
    exists r fields node_id,
      respond c t Post [Text (project_url server project "/templates/"); Value template_id]
        data (user server, password server) = inr r /\
      status_ok r /\ body r = Some (JDict fields) /\ fields !! "node_id" = Some node_id;
  accepts_links : forall t data,
    exists r fields link_id,
      respond c t Post [Text (project_url server project "/links")]
        data (user server, password server) = inr r /\
      status_ok r /\ body r = Some (JDict fields) /\ fields !! "link_id" = Some link_id;
  accepts_files : forall t node_id data,
    exists r,
      respond c t Post [Text (project_url server project "/nodes/"); Value node_id;
                        Text "/files/etc/network/interfaces"]
        data (user server, password server) = inr r /\
      status_ok r;
  accepts_drawings : forall t data,
    exists r,
      respond c t Post [Text (project_url server project "/drawings")]
        data (user server, password server) = inr r /\
      status_ok r
}.

(** ** The requests of a cluster, in closed form *)

(** The payload of [create_node] without a name. *)
Definition position (x y : Z) : payload :=
  JsonData (JDict {[ "x" := JInt x; "y" := JInt y ]}).

Definition node_request (server : Server) (project : Project) (template_id : json)
    (x y : Z) : list piece * payload :=
  ([Text (project_url server project "/templates/"); Value template_id], position x y).






(** ** Templates and nodes by name *)

(** A template that is an object whose [name] is, or is not, [name]. *)
Definition has_name (name : string) (wanted : bool) (template : json) : Prop :=
  exists fields n,
    template = JDict fields /\ fields !! "name" = Some n /\ json_eq_str n name = wanted.

(** [template] is an object named [name] whose [template_id] is [v]. *)
Definition offers (name : string) (v : json) (template : json) : Prop :=
  exists fields,
    template = JDict fields /\ fields !! "template_id" = Some v /\
    has_name name true template.

(** A node as the server lists it. *)
Definition node_entry (listed : string * json) : json :=
  JDict {[ "name" := JStr (fst listed); "node_id" := snd listed ]}.

Definition item_of (listed : string * json) : Item :=
  {| item_name := JStr (fst listed); item_id := snd listed |}.

Definition start_request (server : Server) (project : Project) (node_id : json) :
    list piece * payload :=
  ([Text (project_url server project "/nodes/"); Value node_id; Text "/start"], EmptyForm).

(** The server lists the nodes [listing] (name and identifier) and starts
    every node it is asked to start. *)
Record listing_nodes (c : Controller) (server : Server) (project : Project)
    (listing : list (string * json)) : Prop := {
  lists_nodes : forall t,
    exists r,
      respond c t Get [Text (project_url server project "/nodes")] NoData
        (user server, password server) = inr r /\
      status_ok r /\ body r = Some (JList (map node_entry listing));
  starts_nodes : forall t node_id,
    exists r,
      respond c t Post [Text (project_url server project "/nodes/"); Value node_id;
                        Text "/start"]
        EmptyForm (user server, password server) = inr r /\
      status_ok r
}.

(** The messages of [warnings.warn], in order. *)
Definition caution_of (e : api_event) : option string :=
  match e with
  | EvCaution message => Some message
  | _ => None
  end.

Definition cautions (es : list api_event) : list string := omap caution_of es.

(** The answers of the server in a transcript, in order. *)
Definition answer_of (e : api_event) : option (exn + response) :=
  match e with
  | EvRequest _ _ _ res => Some res
  | _ => None
  end.

Definition answers (es : list api_event) : list (exn + response) := omap answer_of es.

(** The server reports the project as opened. *)
Definition reports_opened (res : exn + response) : Prop :=
  exists r fields,
    res = inr r /\ body r = Some (JDict fields) /\
    fields !! "status" = Some (JStr "opened").

(** ** A server double *)

(** The clock of a machine that has been up for an hour, as CPython 3.11
    has it on Linux: a duration of 2^63 ns or more does not fit a C
    timestamp, and a deadline that far from the start of the machine is
    refused by the system call. *)
Definition hour_clock (t : nat) (milliseconds : Z) : option error :=
  if (9223372036854 <? milliseconds)%Z then Some OverflowError
  else if (9223372036000 <=? 3600000 + milliseconds)%Z
       then Some (Py (OSError "[Errno 22] Invalid argument"))
       else None.

(** Every request is answered with status 201; the answer carries a
    [node_id] and a [link_id] made of the time of the request. *)
Definition created (t : nat) : response :=
  {| status_code := 201;
     body := Some (JDict {[ "node_id" := JStr ("node-" ++ pretty t);
                            "link_id" := JStr ("link-" ++ pretty t) ]}) |}.

Definition grid_server : Controller :=
  {| respond := fun t _ _ _ _ => inr (created t);
     sleeps := hour_clock |}.

Definition switch_template : json := JStr "3f2a".

Definition device_template : json := JStr "9c1d".

(** [ipaddress.IPv4Address("192.168.10.1")] *)
Definition first_address : Z := 3232238081.

(** The templates of a server, two of them with the same name. *)
Definition some_templates : list json :=
  [ JDict {[ "name" := JStr "VyOS 1.3.0"; "template_id" := JStr "7e1a" ]};
    JDict {[ "name" := JStr "Open vSwitch"; "template_id" := JStr "3f2a" ]};
    JDict {[ "name" := JStr "Open vSwitch"; "template_id" := JStr "55b0" ]} ].

(** The nodes of a project. *)
Definition some_nodes : list (string * json) :=
  [ ("openvswitch-1", JStr "n1"); ("vyos-1", JStr "n2"); ("openvswitch-2", JStr "n3") ].

(** A server that lists [some_nodes] and answers 200 to everything
    else. *)
Definition listing_server : Controller :=
  {| respond := fun _ method _ _ _ =>
       match method with
       | Get => inr {| status_code := 200;
                       body := Some (JList (map node_entry some_nodes)) |}
       | Post => inr {| status_code := 200; body := None |}
       end;
     sleeps := hour_clock |}.

(** [re.compile("openvswitch.*")], on the names of [some_nodes]. *)
Definition switches_pattern : Pattern :=
  fun name => match strip_prefix "openvswitch" name with Some _ => true | None => false end.

(** A server on which the project is closed and opens when asked. *)
Definition opening_server : Controller :=
  {| respond := fun _ method _ _ _ =>
       match method with
       | Get => inr {| status_code := 200;
                       body := Some (JDict {[ "status" := JStr "closed" ]}) |}
       | Post => inr {| status_code := 201;
                        body := Some (JDict {[ "status" := JStr "opened" ]}) |}
       end;
     sleeps := hour_clock |}.

(** * Properties *)

Lemma byte_val_bound (c : ascii) : (byte_val c < 256)%N.
Proof. apply N_ascii_bounded. Qed.

Lemma ascii_of_byte_val (c : ascii) : ascii_of_N (byte_val c) = c.
Proof. apply ascii_N_embedding. Qed.

(** Linear arithmetic with division and remainder by constants. *)
Ltac div_mod_lia := zify; Z.to_euclidean_division_equations; lia.

(** ** The codecs on known values *)

Example md5_of_nothing : MD5.hexdigest EmptyString = "d41d8cd98f00b204e9800998ecf8427e".
Proof. vm_compute. reflexivity. Qed.

Example md5_of_abc : MD5.hexdigest "abc" = "900150983cd24fb0d6963f7d28e17f72".
Proof. vm_compute. reflexivity. Qed.

Example md5_of_two_blocks :
  MD5.hexdigest "aaaaaaaaaaaaaaaaaaaaaaaaaaaaaaaaaaaaaaaaaaaaaaaaaaaaaaaaaaaaaaaaaaaaaa" =
  "0f5c6c4e740bfcc08c3c26ccb2673d46".
Proof. vm_compute. reflexivity. Qed.

Example md5_of_script : MD5.hexdigest script_content = script_digest.
Proof. vm_compute. reflexivity. Qed.

Example b64encode_script : Base64.b64encode script_content = "ZWNobyBoaQ==".
Proof. vm_compute. reflexivity. Qed.

Example utf8_euro :
  Utf8.decode (String "226" (String "130" (String "172" EmptyString))) = Some [8364%N].
Proof. vm_compute. reflexivity. Qed.

Example utf8_lone_continuation : Utf8.decode (String "128" EmptyString) = None.
Proof. vm_compute. reflexivity. Qed.

Example utf8_surrogate :
  Utf8.decode (String "237" (String "160" (String "128" EmptyString))) = None.
Proof. vm_compute. reflexivity. Qed.

Example digest_line_token :
  first_token (literal (script_digest ++ "  config.sh")) = Some (literal script_digest).
Proof. vm_compute. reflexivity. Qed.

(** ** Base64 *)
Module Base64Facts.
Import Base64.

Lemma small_N (i : N) (b : nat) :
  (i < N.of_nat b)%N -> exists n : nat, i = N.of_nat n /\ (n < b)%nat.
Proof. intros Hi. exists (N.to_nat i). lia. Qed.

Lemma index_of_char_of (i : N) : (i < 64)%N -> index_of (char_of i) = Some i.
Proof.
  intros Hi. destruct (small_N i 64 Hi) as (n & -> & Hn).
  do 64 (destruct n as [|n]; [reflexivity|]). lia.
Qed.

Lemma char_of_not_pad (i : N) : (i < 64)%N -> Ascii.eqb (char_of i) pad = false.
Proof.
  intros Hi. destruct (small_N i 64 Hi) as (n & -> & Hn).
  do 64 (destruct n as [|n]; [reflexivity|]). lia.
Qed.

Lemma char_of_not_newline (i : N) :
  (i < 64)%N -> Ascii.eqb (char_of i) "010"%char = false.
Proof.
  intros Hi. destruct (small_N i 64 Hi) as (n & -> & Hn).
  do 64 (destruct n as [|n]; [reflexivity|]). lia.
Qed.

(** The four sextets of a full quantum are in range and give the three
    bytes back. *)
Lemma quantum_bounds (x y z : N) :
  (x < 256 -> y < 256 -> z < 256 ->
   x / 4 < 64 /\ (x mod 4) * 16 + y / 16 < 64 /\
   (y mod 16) * 4 + z / 64 < 64 /\ z mod 64 < 64 /\
   (x mod 4) * 16 < 64 /\ (y mod 16) * 4 < 64)%N.
Proof. intros. repeat split; div_mod_lia. Qed.

Lemma quantum_bytes (x y z : N) :
  (x < 256 -> y < 256 -> z < 256 ->
   (x / 4) * 4 + ((x mod 4) * 16 + y / 16) / 16 = x /\
   (((x mod 4) * 16 + y / 16) mod 16) * 16 + ((y mod 16) * 4 + z / 64) / 4 = y /\
   (((y mod 16) * 4 + z / 64) mod 4) * 64 + z mod 64 = z)%N.
Proof. intros. repeat split; div_mod_lia. Qed.

Lemma ascii_of_N_byte (n : N) (a : ascii) : n = byte_val a -> ascii_of_N n = a.
Proof. intros ->. apply ascii_of_byte_val. Qed.

(** Induction three bytes at a time, as the encoder reads its input. *)
Lemma bytes_ind3 (P : bytes -> Prop) :
  P EmptyString ->
  (forall a, P (String a EmptyString)) ->
  (forall a b, P (String a (String b EmptyString))) ->
  (forall a b c rest, P rest -> P (String a (String b (String c rest)))) ->
  forall s, P s.
Proof.
  intros H0 H1 H2 H3 s.
  assert (H : forall n (s : bytes), (String.length s <= n)%nat -> P s).
  { induction n as [n IH] using lt_wf_ind. intros s' Hlen.
    destruct s' as [|a [|b [|c rest]]]; auto.
    apply H3. apply (IH (String.length rest)); cbn in Hlen; lia. }
  apply (H (String.length s)). lia.
Qed.

Lemma decode_quanta_encode (s : bytes) : decode_quanta (b64encode s) = Some s.
Proof.
  induction s as [|a|a b|a b c rest IH] using bytes_ind3.
  - reflexivity.
  - pose proof (byte_val_bound a) as Ha.
    cbn [b64encode decode_quanta].
    rewrite !index_of_char_of by div_mod_lia.
    rewrite !Ascii.eqb_refl.
    do 2 f_equal. apply ascii_of_N_byte. div_mod_lia.
  - pose proof (byte_val_bound a) as Ha. pose proof (byte_val_bound b) as Hb.
    cbn [b64encode decode_quanta].
    rewrite !index_of_char_of by div_mod_lia.
    rewrite (char_of_not_pad (byte_val b mod 16 * 4)) by div_mod_lia.
    rewrite Ascii.eqb_refl.
    f_equal. f_equal; [|f_equal]; apply ascii_of_N_byte; div_mod_lia.
  - pose proof (byte_val_bound a) as Ha. pose proof (byte_val_bound b) as Hb.
    pose proof (byte_val_bound c) as Hc.
    cbn [b64encode decode_quanta].
    rewrite !index_of_char_of by div_mod_lia.
    rewrite (char_of_not_pad (byte_val c mod 64)) by div_mod_lia.
    rewrite IH.
    f_equal. f_equal; [|f_equal; [|f_equal]]; apply ascii_of_N_byte; div_mod_lia.
Qed.

Lemma char_of_is_b64_char (i : N) : (i < 64)%N -> is_b64_char (char_of i) = true.
Proof. intros Hi. unfold is_b64_char. rewrite index_of_char_of by assumption. reflexivity. Qed.

Lemma pad_is_b64_char : is_b64_char pad = true.
Proof. reflexivity. Qed.

(** The encoder writes characters of the alphabet and [=] only. *)
Lemma encode_alphabet (s : bytes) : all_bytes is_b64_char (b64encode s) = true.
Proof.
  induction s as [|a|a b|a b c rest IH] using bytes_ind3.
  - reflexivity.
  - pose proof (byte_val_bound a) as Ha.
    cbn [b64encode all_bytes].
    rewrite !char_of_is_b64_char by div_mod_lia. reflexivity.
  - pose proof (byte_val_bound a) as Ha. pose proof (byte_val_bound b) as Hb.
    cbn [b64encode all_bytes].
    rewrite !char_of_is_b64_char by div_mod_lia. reflexivity.
  - pose proof (byte_val_bound a) as Ha. pose proof (byte_val_bound b) as Hb.
    pose proof (byte_val_bound c) as Hc.
    cbn [b64encode all_bytes].
    rewrite !char_of_is_b64_char by div_mod_lia. rewrite IH. reflexivity.
Qed.

(** Neither a line feed nor a single quote is among them. *)
Lemma b64_char_plain (c : ascii) :
  is_b64_char c = true ->
  Ascii.eqb c "010"%char = false /\ Ascii.eqb c "'"%char = false.
Proof.
  destruct c as [[] [] [] [] [] [] [] []]; cbn; intros H;
    try discriminate; split; reflexivity.
Qed.

Lemma drop_newlines_plain (s : bytes) :
  all_bytes is_b64_char s = true -> drop_newlines s = s.
Proof.
  induction s as [|c s IH]; cbn; [reflexivity|].
  intros H. apply andb_true_iff in H. destruct H as [Hc Hs].
  destruct (b64_char_plain c Hc) as [-> _]. rewrite IH by assumption. reflexivity.
Qed.

Lemma drop_newlines_app (s1 s2 : bytes) :
  drop_newlines (s1 ++ s2) = drop_newlines s1 ++ drop_newlines s2.
Proof.
  induction s1 as [|c s1 IH]; [reflexivity|].
  change (String c s1 ++ s2) with (String c (s1 ++ s2)). cbn [drop_newlines].
  destruct (Ascii.eqb c "010"%char);
    [|change (String c (drop_newlines s1) ++ drop_newlines s2)
        with (String c (drop_newlines s1 ++ drop_newlines s2))];
    rewrite IH; reflexivity.
Qed.

Lemma append_empty (s : bytes) : s ++ EmptyString = s.
Proof.
  induction s as [|c s IH]; [reflexivity|].
  change (String c s ++ EmptyString) with (String c (s ++ EmptyString)).
  rewrite IH. reflexivity.
Qed.

Lemma b64decode_b64encode (s : bytes) : b64decode (b64encode s) = Some s.
Proof.
  unfold b64decode. rewrite drop_newlines_plain by apply encode_alphabet.
  apply decode_quanta_encode.
Qed.

Lemma b64decode_line (s : bytes) : b64decode (b64encode s ++ LF) = Some s.
Proof.
  unfold b64decode. rewrite drop_newlines_app.
  rewrite drop_newlines_plain by apply encode_alphabet.
  cbn. rewrite append_empty. apply decode_quanta_encode.
Qed.

End Base64Facts.

(** ** The upload command as the router's shell reads it *)

Lemma append_cons (c : ascii) (s t : bytes) : String c s ++ t = String c (s ++ t).
Proof. reflexivity. Qed.

Lemma until_quote_closing (text tail : bytes) :
  all_bytes Base64.is_b64_char text = true ->
  until_quote (text ++ String "'"%char tail) = Some (text, tail).
Proof.
  induction text as [|c text IH]; [reflexivity|].
  rewrite append_cons. cbn [all_bytes until_quote].
  intros H. apply andb_true_iff in H. destruct H as [Hc Hs].
  destruct (Base64Facts.b64_char_plain c Hc) as [_ ->]. rewrite IH by assumption.
  reflexivity.
Qed.

Lemma echo_appended_upload (content : bytes) :
  echo_appended (upload_command (Base64.b64encode content)) =
  Some (Base64.b64encode content ++ LF).
Proof.
  unfold echo_appended, upload_command.
  change (strip_prefix "echo '" ("echo '" ++ Base64.b64encode content ++ "' >> config.b64" ++ LF))
    with (Some (Base64.b64encode content ++ String "'"%char (" >> config.b64" ++ LF))).
  cbv beta iota.
  rewrite until_quote_closing by apply Base64Facts.encode_alphabet.
  rewrite String.eqb_refl. reflexivity.
Qed.

(** ** Rules for [wp] *)
Section Rules.

Context {S : Type}.
Variable step : S -> event -> option S.
Variable w : World.

Lemma observe_app (s : S) (es1 es2 : list event) :
  observe step s (es1 ++ es2)%list =
  match observe step s es1 with
  | Some s' => observe step s' es2
  | None => None
  end.
Proof.
  revert s. induction es1 as [|e es1 IH]; intros s; cbn; [reflexivity|].
  destruct (step s e); [apply IH | reflexivity].
Qed.

Lemma wp_ret {A} (a : A) (Q : flow A -> S -> Prop) (s : S) :
  Q (Next a) s -> wp step w (ret a) Q s.
Proof. intros H t. exists s. split; [reflexivity | exact H]. Qed.

Lemma wp_raise {A} (e : exn) (Q : flow A -> S -> Prop) (s : S) :
  Q (Raise e) s -> wp step w (raise e) Q s.
Proof. intros H t. exists s. split; [reflexivity | exact H]. Qed.

Lemma wp_return_none {A} (Q : flow A -> S -> Prop) (s : S) :
  Q ReturnNone s -> wp step w return_none Q s.
Proof. intros H t. exists s. split; [reflexivity | exact H]. Qed.

Lemma wp_emit (e : event) (Q : flow unit -> S -> Prop) (s s' : S) :
  step s e = Some s' -> Q (Next tt) s' -> wp step w (emit e) Q s.
Proof. intros Hs H t. exists s'. cbn. rewrite Hs. split; [reflexivity | exact H]. Qed.

Lemma wp_bind {A B} (m : M A) (k : A -> M B) (Q : flow B -> S -> Prop) (s : S) :
  wp step w m
    (fun r s' =>
       match r with
       | Next a => wp step w (k a) Q s'
       | ReturnNone => Q ReturnNone s'
       | Raise e => Q (Raise e) s'
       end) s ->
  wp step w (bind m k) Q s.
Proof.
  intros H t. destruct (H t) as (s1 & Hobs & Hk).
  unfold bind. destruct (m w t) as [[a| |e] es]; cbn in *.
  - destruct (Hk (t + length es)%nat) as (s2 & Hobs2 & HQ).
    destruct (k a w (t + length es)%nat) as [r es']. cbn in *.
    exists s2. rewrite observe_app, Hobs. split; assumption.
  - exists s1. split; assumption.
  - exists s1. split; assumption.
Qed.

Lemma wp_call_unit (ask : World -> nat -> option exn) (ev : option exn -> event)
    (Q : flow unit -> S -> Prop) (s : S) :
  (forall t, exists s', step s (ev (ask w t)) = Some s' /\
     Q (match ask w t with None => Next tt | Some e => Raise e end) s') ->
  wp step w (call_unit ask ev) Q s.
Proof.
  intros H t. destruct (H t) as (s' & Hs & HQ). exists s'.
  unfold call_unit. destruct (ask w t); cbn; rewrite Hs; split; auto.
Qed.

Lemma wp_call_value {A} (ask : World -> nat -> exn + A) (ev : exn + A -> event)
    (Q : flow A -> S -> Prop) (s : S) :
  (forall t, exists s', step s (ev (ask w t)) = Some s' /\
     Q (match ask w t with inr a => Next a | inl e => Raise e end) s') ->
  wp step w (call_value ask ev) Q s.
Proof.
  intros H t. destruct (H t) as (s' & Hs & HQ). exists s'.
  unfold call_value. destruct (ask w t); cbn; rewrite Hs; split; auto.
Qed.

Lemma wp_with_resource {A} (acquire : M unit) (release : event) (body : M A)
    (Q : flow A -> S -> Prop) (s : S) :
  wp step w acquire
    (fun r s1 =>
       match r with
       | Next _ =>
           wp step w body
             (fun r' s2 => exists s3, step s2 release = Some s3 /\ Q r' s3) s1
       | ReturnNone => Q ReturnNone s1
       | Raise e => Q (Raise e) s1
       end) s ->
  wp step w (with_resource acquire release body) Q s.
Proof.
  intros H t. destruct (H t) as (s1 & Hobs & Hk).
  unfold with_resource. destruct (acquire w t) as [[a| |e] es]; cbn in *.
  - destruct (Hk (t + length es)%nat) as (s2 & Hobs2 & s3 & Hrel & HQ).
    destruct (body w (t + length es)%nat) as [r es']. cbn in *.
    exists s3. rewrite observe_app, Hobs, observe_app, Hobs2. cbn. rewrite Hrel.
    split; [reflexivity | assumption].
  - exists s1. split; assumption.
  - exists s1. split; assumption.
Qed.

Lemma wp_def (body : M unit) (Q : flow unit -> S -> Prop) (s : S) :
  wp step w body
    (fun r s' => Q (match r with ReturnNone => Next tt | other => other end) s') s ->
  wp step w (def body) Q s.
Proof.
  intros H t. destruct (H t) as (s' & Hobs & HQ). exists s'.
  unfold def. destruct (body w t) as [[a| |e] es]; cbn in *; split; assumption.
Qed.

Lemma wp_mono {A} (m : M A) (Q Q' : flow A -> S -> Prop) (s : S) :
  wp step w m Q s -> (forall r s', Q r s' -> Q' r s') -> wp step w m Q' s.
Proof.
  intros H HQ t. destruct (H t) as (s' & Hobs & Hq). exists s'. split; auto.
Qed.

End Rules.

(** ** Walking through a program *)

Ltac wp_unfold :=
  unfold print, warn, sleep, kill, popen, tn_write, tn_expect, tn_read_until,
    print_index, print_text, decode_utf8, group, split_first, read, with_open,
    with_telnet, when, requests_get, raise_for_status, r_json, subscript, assert.

(** Steps of a monitor that do not follow by computation. *)
Create HintDb wp_steps.

Ltac wp_leaf :=
  repeat first
    [ progress cbv beta iota
    | match goal with
      | |- exists _, _ = Some _ /\ _ =>
          eexists; split;
          [first [ cbn; rewrite ?String.eqb_refl; reflexivity
                 | solve [eauto with wp_steps] ]|]
      | |- exists s', ?l = Some s' /\ _ =>
          let l0 := eval cbv beta delta [prompted_monitor] in l in
          let l' := eval cbn in l0 in
          match l' with
          | context [if ?c then _ else _] =>
              change l with l';
              first [ match goal with H : c = _ |- _ => rewrite H end
                    | destruct c eqn:? ]
          end
      end ].

(** One step; [answer x] says what is known of the answer [x] of the world
    to a call. *)
Ltac wp_step_by answer :=
  lazymatch goal with
  | |- wp _ _ (bind _ _) _ _ => apply wp_bind
  | |- wp _ _ (def _) _ _ => apply wp_def
  | |- wp _ _ (with_resource _ _ _) _ _ => apply wp_with_resource
  | |- wp _ ?w (call_unit ?ask _) _ _ =>
      apply wp_call_unit;
      let t := fresh "t" in
      intros t;
      let x := eval cbv beta in (ask w t) in
      cbv beta; answer x; wp_leaf
  | |- wp _ ?w (call_value ?ask _) _ _ =>
      apply wp_call_value;
      let t := fresh "t" in
      intros t;
      let x := eval cbv beta in (ask w t) in
      cbv beta; answer x; wp_leaf
  | |- wp _ _ (ret _) _ _ => apply wp_ret; wp_leaf
  | |- wp _ _ (raise _) _ _ => apply wp_raise; wp_leaf
  | |- wp _ _ return_none _ _ => apply wp_return_none; wp_leaf
  | |- wp _ _ (emit _) _ _ =>
      eapply wp_emit; [cbn; rewrite ?String.eqb_refl; reflexivity|]; wp_leaf
  | |- wp _ _ (if ?c then _ else _) _ _ =>
      first [ match goal with H : c = _ |- _ => rewrite H end | destruct c eqn:? ]
  | |- wp _ _ (match ?x with _ => _ end) _ _ =>
      first [ match goal with H : x = _ |- _ => rewrite H end | destruct x eqn:? ]
  | |- wp _ _ _ _ _ => progress wp_unfold
  end.

(** Any answer. *)
Ltac wp_step := wp_step_by ltac:(fun x => destruct x).

Ltac wp_walk := repeat wp_step.

(** ** [scenario.py] and [gns3utils.py] agree *)

Lemma scenario_install_agrees (node host : string) (port : Z) (w : World) (t : nat) :
  scenario.install_vyos_image_on_node node host port w t =
  gns3utils.install_vyos_image_on_node node host port None w t.
Proof.
  unfold scenario.install_vyos_image_on_node, gns3utils.install_vyos_image_on_node.
  unfold def, bind, when, truthy, ret. rewrite Nat.add_0_r.
  destruct (with_telnet host port install_dialogue w t) as [[[]| |e] es];
    cbn; rewrite ?app_nil_r; reflexivity.
Qed.

Lemma scenario_configure_agrees (node host : string) (port : Z) (path : string)
    (w : World) (t : nat) :
  scenario.configure_vyos_image_on_node node host port path w t =
  gns3utils.configure_vyos_image_on_node node host port path None w t.
Proof.
  unfold scenario.configure_vyos_image_on_node, gns3utils.configure_vyos_image_on_node.
  unfold def, bind, when, truthy, ret. rewrite Nat.add_0_r. cbn [app].
  destruct (md5sum_file path w t) as [[local| |e] es]; try reflexivity.
  destruct (with_open path _ w (t + length es)) as [[config| |e] es']; try reflexivity.
  destruct (with_telnet host port _ w _) as [[[]| |e] es''];
    cbn; rewrite ?app_nil_r; reflexivity.
Qed.

(** ** The connection is closed exactly once *)

Lemma install_dialogue_connection (w : World) :
  wp connection_step w install_dialogue (fun _ s => s = Open) Open.
Proof. unfold install_dialogue. wp_walk; reflexivity. Qed.

Lemma configure_dialogue_connection (w : World) (local : pystr) (config : bytes) :
  wp connection_step w (configure_dialogue local config) (fun _ s => s = Open) Open.
Proof. unfold configure_dialogue. wp_walk; reflexivity. Qed.

Lemma install_connection (w : World) (node host : string) (port : Z) (pre : option string) :
  wp connection_step w (gns3utils.install_vyos_image_on_node node host port pre)
    (fun _ s => s <> Open) NotOpen.
Proof.
  unfold gns3utils.install_vyos_image_on_node.
  apply wp_def, wp_bind.
  apply wp_mono with (Q := fun _ s => s = NotOpen); [wp_walk; reflexivity|].
  intros r s ->. destruct r; [|discriminate..].
  apply wp_bind. unfold with_telnet. apply wp_with_resource.
  wp_step; [discriminate|].
  eapply wp_mono; [apply install_dialogue_connection|].
  intros r s ->. exists Closed. split; [reflexivity|].
  destruct r; [|discriminate..]. wp_walk; discriminate.
Qed.

Lemma configure_connection (w : World) (node host : string) (port : Z)
    (path : string) (pre : option string) :
  wp connection_step w (gns3utils.configure_vyos_image_on_node node host port path pre)
    (fun _ s => s <> Open) NotOpen.
Proof.
  unfold gns3utils.configure_vyos_image_on_node.
  apply wp_def, wp_bind.
  apply wp_mono with (Q := fun _ s => s = NotOpen); [wp_walk; reflexivity|].
  intros r s ->. destruct r; [|discriminate..].
  apply wp_bind.
  apply wp_mono with (Q := fun _ s => s = NotOpen);
    [unfold md5sum_file; wp_walk; reflexivity|].
  intros r s ->. destruct r as [local| |]; [|discriminate..].
  apply wp_bind.
  apply wp_mono with (Q := fun _ s => s = NotOpen); [wp_walk; reflexivity|].
  intros r s ->. destruct r as [config| |]; [|discriminate..].
  apply wp_bind. unfold with_telnet. apply wp_with_resource.
  wp_step; [discriminate|].
  eapply wp_mono; [apply configure_dialogue_connection|].
  intros r s ->. exists Closed. split; [reflexivity|].
  destruct r; [|discriminate..]. wp_walk; discriminate.
Qed.

(** The answers of a world in which the connection is made, and in which
    the script file can be read. *)
Ltac dial_answer Hspawn Hopen x :=
  lazymatch x with
  | spawn _ _ _ => rewrite Hspawn
  | telnet_open _ _ _ _ => rewrite Hopen
  | _ => destruct x
  end.

Ltac file_dial_answer Hspawn Hopen Hfile Hread x :=
  lazymatch x with
  | spawn _ _ _ => rewrite Hspawn
  | telnet_open _ _ _ _ => rewrite Hopen
  | file_open _ _ _ => rewrite Hfile
  | file_read _ _ _ => rewrite Hread
  | _ => destruct x
  end.

Lemma install_connection_made (w : World) (node host : string) (port : Z)
    (pre : option string) :
  dials w ->
  wp connection_step w (gns3utils.install_vyos_image_on_node node host port pre)
    (fun _ s => s = Closed) NotOpen.
Proof.
  intros [Hspawn Hopen]. unfold gns3utils.install_vyos_image_on_node.
  apply wp_def, wp_bind.
  apply wp_mono with (Q := fun r s => r = Next tt /\ s = NotOpen);
    [repeat wp_step_by ltac:(fun x => dial_answer Hspawn Hopen x); auto|].
  intros r s [-> ->].
  apply wp_bind. unfold with_telnet. apply wp_with_resource.
  wp_step_by ltac:(fun x => dial_answer Hspawn Hopen x).
  eapply wp_mono; [apply install_dialogue_connection|].
  intros r s ->. exists Closed. split; [reflexivity|].
  destruct r; [|reflexivity..]. wp_walk; reflexivity.
Qed.

Lemma configure_connection_made (w : World) (node host : string) (port : Z)
    (path : string) (pre : option string) (content : bytes) :
  dials w -> holds_file w path content ->
  wp connection_step w (gns3utils.configure_vyos_image_on_node node host port path pre)
    (fun _ s => s = Closed) NotOpen.
Proof.
  intros [Hspawn Hopen] [Hfile Hread].
  unfold gns3utils.configure_vyos_image_on_node.
  apply wp_def, wp_bind.
  apply wp_mono with (Q := fun r s => r = Next tt /\ s = NotOpen);
    [repeat wp_step_by ltac:(fun x => dial_answer Hspawn Hopen x); auto|].
  intros r s [-> ->].
  apply wp_bind.
  apply wp_mono with (Q := fun r s => (exists local, r = Next local) /\ s = NotOpen);
    [unfold md5sum_file;
     repeat wp_step_by ltac:(fun x => file_dial_answer Hspawn Hopen Hfile Hread x); eauto|].
  intros r s [[local ->] ->].
  apply wp_bind.
  apply wp_mono with (Q := fun r s => (exists config, r = Next config) /\ s = NotOpen);
    [repeat wp_step_by ltac:(fun x => file_dial_answer Hspawn Hopen Hfile Hread x); eauto|].
  intros r s [[config ->] ->].
  apply wp_bind. unfold with_telnet. apply wp_with_resource.
  wp_step_by ltac:(fun x => dial_answer Hspawn Hopen x).
  eapply wp_mono; [apply configure_dialogue_connection|].
  intros r s ->. exists Closed. split; [reflexivity|].
  destruct r; [|reflexivity..]. wp_walk; reflexivity.
Qed.

Lemma connection_counts (es : list event) :
  forall s s', observe connection_step s es = Some s' ->
    match s, s' with
    | NotOpen, NotOpen | Open, Open | Closed, Closed =>
        count is_open es = 0%nat /\ count is_close es = 0%nat
    | NotOpen, Open => count is_open es = 1%nat /\ count is_close es = 0%nat
    | NotOpen, Closed => count is_open es = 1%nat /\ count is_close es = 1%nat
    | Open, Closed => count is_open es = 0%nat /\ count is_close es = 1%nat
    | _, _ => False
    end.
Proof.
  unfold count. induction es as [|e es IH]; intros s s' H.
  - cbn in H. injection H as <-. destruct s; auto.
  - cbn [observe] in H. destruct (connection_step s e) as [s1|] eqn:Hs; [|discriminate].
    specialize (IH _ _ H).
    destruct e as [| | | | |? ? [?|]| | | | | | | |]; destruct s; cbn in Hs; try discriminate;
      injection Hs as <-; destruct s'; cbn [List.filter is_open is_close length];
      try contradiction; lia.
Qed.

Lemma made_and_closed {A} (m : M A) (w : World) :
  wp connection_step w m (fun _ s => s = Closed) NotOpen ->
  count is_open (snd (run m w)) = 1%nat /\ count is_close (snd (run m w)) = 1%nat.
Proof.
  intros H. destruct (H 0%nat) as (s & Hobs & ->).
  exact (connection_counts _ _ _ Hobs).
Qed.

Lemma accepted_closed_once {A} (m : M A) (w : World) :
  wp connection_step w m (fun _ s => s <> Open) NotOpen -> closed_once (snd (run m w)).
Proof.
  intros H. destruct (H 0%nat) as (s & Hobs & Hs). unfold closed_once, run.
  pose proof (connection_counts _ _ _ Hobs) as Hc.
  split; [exists s; auto|]. destruct s; [lia | contradiction | lia].
Qed.

(** ** The script file is read before the console is reached *)

Lemma configure_dialogue_file (w : World) (path : string) (local : pystr)
    (config : bytes) (s : file_state) :
  wp (file_step path) w (configure_dialogue local config) (fun _ s' => s' = s) s.
Proof. unfold configure_dialogue. wp_walk; reflexivity. Qed.

Lemma configure_file (w : World) (node host : string) (port : Z)
    (path : string) (pre : option string) :
  wp (file_step path) w (gns3utils.configure_vyos_image_on_node node host port path pre)
    (fun _ s => (reads s <= 2)%nat /\ (dialled s = true -> reads s = 2%nat))
    {| reads := 0; dialled := false |}.
Proof.
  unfold gns3utils.configure_vyos_image_on_node.
  apply wp_def, wp_bind.
  apply wp_mono with (Q := fun _ s => s = {| reads := 0; dialled := false |});
    [wp_walk; reflexivity|].
  intros r s ->. destruct r; [|cbn; split; [lia|discriminate]..].
  apply wp_bind.
  apply wp_mono with
    (Q := fun r s => match r with
                     | Next _ => s = {| reads := 1; dialled := false |}
                     | _ => (reads s <= 2)%nat /\ dialled s = false
                     end);
    [unfold md5sum_file; wp_walk; cbn; try reflexivity; split; (lia || reflexivity)|].
  intros r s Hs. destruct r as [local| |];
    [subst s|cbn; split; [tauto|destruct Hs; congruence]..].
  apply wp_bind.
  apply wp_mono with
    (Q := fun r s => match r with
                     | Next _ => s = {| reads := 2; dialled := false |}
                     | _ => (reads s <= 2)%nat /\ dialled s = false
                     end);
    [wp_walk; cbn; try reflexivity; split; (lia || reflexivity)|].
  intros r s Hs. destruct r as [config| |];
    [subst s|cbn; split; [tauto|destruct Hs; congruence]..].
  apply wp_bind. unfold with_telnet. apply wp_with_resource.
  wp_step; [cbn; auto|].
  eapply wp_mono; [apply configure_dialogue_file|].
  intros r s ->. eexists. split; [reflexivity|].
  destruct r; [|cbn; auto..]. wp_walk; cbn; auto.
Qed.

Lemma file_reads_counted (path : string) (es : list event) :
  forall s s', observe (file_step path) s es = Some s' ->
    reads s' = (reads s + count (is_file_read path) es)%nat /\
    (dialled s = true -> count (is_file_read path) es = 0%nat /\ dialled s' = true).
Proof.
  unfold count. induction es as [|e es IH]; intros s s' H.
  - cbn in H. injection H as <-. cbn. split; [lia | auto].
  - cbn [observe] in H. destruct (file_step path s e) as [s1|] eqn:Hs; [|discriminate].
    destruct (IH _ _ H) as [Hr Hd]. clear IH H.
    destruct e; cbn in Hs; try (injection Hs as <-; cbn; split; [lia | tauto]).
    + destruct (String.eqb path0 path) eqn:Hp; [|discriminate].
      destruct (dialled s) eqn:Hds; [discriminate|]. injection Hs as <-.
      cbn [List.filter is_file_read]. rewrite Hp. cbn in *. split; [lia | discriminate].
    + injection Hs as <-. cbn in *. split; [lia|]. intros _. apply Hd. reflexivity.
Qed.

(** ** The digest step *)

Lemma configure_dialogue_digest (w : World) (local : pystr) (config : bytes) :
  wp digest_step w (configure_dialogue local config)
    (fun r s => s <> Missed /\ (s = Aborted -> r = ReturnNone)) Waiting.
Proof. unfold configure_dialogue. wp_walk; split; congruence. Qed.

Lemma configure_digest (w : World) (node host : string) (port : Z)
    (path : string) (pre : option string) :
  wp digest_step w (gns3utils.configure_vyos_image_on_node node host port path pre)
    (fun r s => s <> Missed /\ (s = Aborted -> r = Next tt)) Waiting.
Proof.
  unfold gns3utils.configure_vyos_image_on_node.
  apply wp_def, wp_bind.
  apply wp_mono with (Q := fun _ s => s = Waiting); [wp_walk; reflexivity|].
  intros r s ->. destruct r; [|split; congruence..].
  apply wp_bind.
  apply wp_mono with (Q := fun _ s => s = Waiting);
    [unfold md5sum_file; wp_walk; reflexivity|].
  intros r s ->. destruct r as [local| |]; [|split; congruence..].
  apply wp_bind.
  apply wp_mono with (Q := fun _ s => s = Waiting); [wp_walk; reflexivity|].
  intros r s ->. destruct r as [config| |]; [|split; congruence..].
  apply wp_bind. unfold with_telnet. apply wp_with_resource.
  wp_step; [split; congruence|].
  eapply wp_mono; [apply configure_dialogue_digest|].
  intros r s [Hs Hr].
  destruct s; [|contradiction|]; (eexists; split; [reflexivity|]).
  - destruct r; [|split; congruence..]. wp_walk; split; congruence.
  - rewrite Hr by reflexivity. split; congruence.
Qed.

Lemma aborted_silent (es : list event) (s : digest_state) :
  observe digest_step Aborted es = Some s ->
  s = Aborted /\ Forall (fun e => is_console_call e = false) es.
Proof.
  induction es as [|e es IH]; intros H.
  - cbn in H. injection H as <-. split; [reflexivity | constructor].
  - cbn in H. destruct (is_console_call e) eqn:He; [discriminate|].
    destruct (IH H). split; [assumption | constructor; auto].
Qed.

Lemma silent_no_writes (es : list event) :
  Forall (fun e => is_console_call e = false) es -> writes es = [].
Proof.
  induction 1 as [|e es He _ IH]; [reflexivity|].
  destruct e; cbn in *; try discriminate; assumption.
Qed.

Lemma missed_digest_aborts (es : list event) (s : digest_state) :
  observe digest_step Waiting es = Some s -> s <> Missed ->
  forall pre timeout out post,
    es = (pre ++ EvExpect [digest_pattern] timeout (inr out) :: post)%list ->
    out_index out = (-1)%Z ->
    s = Aborted /\
    exists post',
      post = EvWarn digest_warning :: post' /\
      Forall (fun e => is_console_call e = false) post'.
Proof.
  intros Hobs Hs pre timeout out post -> Hout.
  rewrite observe_app in Hobs.
  destruct (observe digest_step Waiting pre) as [[| |]|]; try discriminate.
  cbn in Hobs. rewrite Hout in Hobs. cbn in Hobs.
  destruct post as [|e post']; [cbn in Hobs; congruence|].
  cbn in Hobs. destruct e; try discriminate.
  destruct (String.eqb message digest_warning) eqn:Hm; [|discriminate].
  apply String.eqb_eq in Hm. subst message.
  apply aborted_silent in Hobs. destruct Hobs as [-> Hpost].
  split; [reflexivity|]. exists post'. split; [reflexivity | assumption].
Qed.

(** ** Reading the exchanges off a transcript *)

Lemma observe_exchanges (es : list event) (s : exchange_state) :
  observe exchange_monitor s es = Some (fold_left exchange_step es s).
Proof. revert s. induction es as [|e es IH]; intros s; cbn; auto. Qed.

Lemma observe_prompted (es : list event) (s s' : exchange_state) :
  observe prompted_monitor s es = Some s' ->
  fold_left exchange_step es s = s' /\ forallb wait_succeeded es = true.
Proof.
  revert s. induction es as [|e es IH]; intros s H; cbn in *.
  - injection H as <-. auto.
  - unfold prompted_monitor in H at 1. destruct (wait_succeeded e); [|discriminate].
    apply IH in H. tauto.
Qed.

Lemma writes_of_exchanges_from (es : list event) (s : exchange_state) :
  map reply (done (fold_left exchange_step es s)) = (map reply (done s) ++ writes es)%list.
Proof.
  revert s. induction es as [|e es IH]; intros s; cbn [fold_left].
  - cbn. rewrite app_nil_r. reflexivity.
  - rewrite IH. destruct e; cbn; try reflexivity.
    rewrite map_app, <- app_assoc. reflexivity.
Qed.

Lemma writes_of_exchanges (es : list event) : writes es = map reply (exchanges es).
Proof. unfold exchanges. rewrite writes_of_exchanges_from. reflexivity. Qed.

(** ** Dialogues with a responsive console *)

(** The answers of a responsive console [H : responsive w]. *)
Ltac responsive_answer H x :=
  lazymatch x with
  | spawn _ _ _ => rewrite (responsive_spawn _ H)
  | telnet_open _ _ _ _ => rewrite (responsive_open _ H)
  | telnet_write _ _ _ => rewrite (responsive_write _ H)
  | telnet_read_until _ ?t ?e =>
      let data := fresh "data" in
      let s := fresh "s" in
      let Hd := fresh "Hd" in
      destruct (responsive_banner _ H t e) as (data & s & -> & Hd)
  | telnet_expect _ ?t ?ps ?to =>
      let out := fresh "out" in
      let s := fresh "s" in
      let Hd := fresh "Hd" in
      destruct (responsive_expect _ H t ps to) as (out & s & -> & Hd)
  | _ => destruct x
  end.

Ltac responsive_walk H := repeat wp_step_by ltac:(fun x => responsive_answer H x).

Lemma install_dialogue_exchanges (w : World) (s : exchange_state) :
  responsive w ->
  wp exchange_monitor w install_dialogue
    (fun r s' => r = Next tt /\ done s' = (done s ++ install_script)%list /\
                 warned s' = warned s) s.
Proof.
  intros H. unfold install_dialogue. responsive_walk H.
  cbn. rewrite <- !app_assoc. auto.
Qed.

Lemma install_exchanges (w : World) (node host : string) (port : Z) (pre : option string) :
  responsive w ->
  wp exchange_monitor w (gns3utils.install_vyos_image_on_node node host port pre)
    (fun r s => r = Next tt /\ done s = install_script /\ warned s = []) no_exchange.
Proof.
  intros H. unfold gns3utils.install_vyos_image_on_node.
  apply wp_def, wp_bind.
  apply wp_mono with (Q := fun r s => r = Next tt /\ s = no_exchange);
    [responsive_walk H; auto|].
  intros r s [-> ->].
  apply wp_bind. unfold with_telnet. apply wp_with_resource.
  wp_step_by ltac:(fun x => responsive_answer H x).
  eapply wp_mono; [apply install_dialogue_exchanges, H|].
  intros r s (-> & Hdone & Hwarned). eexists. split; [reflexivity|].
  responsive_walk H; cbn; auto.
Qed.

(** The answers of a console that is responsive and shows every prompt in
    time. *)
Ltac prompting_answer H Hp x :=
  lazymatch x with
  | telnet_expect _ ?t ?ps ?to =>
      let out := fresh "out" in
      let s := fresh "s" in
      let Hd := fresh "Hd" in
      let Heq := fresh "Heq" in
      let Hidx := fresh "Hidx" in
      destruct (responsive_expect _ H t ps to) as (out & s & Heq & Hd);
      destruct (Hp _ _ _ _ Heq) as [Hidx _];
      apply Z.eqb_eq in Hidx;
      rewrite Heq; clear Heq
  | _ => responsive_answer H x
  end.

Ltac prompting_walk H Hp := repeat wp_step_by ltac:(fun x => prompting_answer H Hp x).

Lemma install_dialogue_prompted (w : World) (s : exchange_state) :
  responsive w -> prompts_in_time w ->
  wp prompted_monitor w install_dialogue
    (fun r s' => r = Next tt /\ done s' = (done s ++ install_script)%list) s.
Proof.
  intros H Hp. unfold install_dialogue. prompting_walk H Hp.
  cbn. rewrite <- !app_assoc. auto.
Qed.

Lemma install_prompted (w : World) (node host : string) (port : Z) (pre : option string) :
  responsive w -> prompts_in_time w ->
  wp prompted_monitor w (gns3utils.install_vyos_image_on_node node host port pre)
    (fun r s => r = Next tt /\ done s = install_script) no_exchange.
Proof.
  intros H Hp. unfold gns3utils.install_vyos_image_on_node.
  apply wp_def, wp_bind.
  apply wp_mono with (Q := fun r s => r = Next tt /\ s = no_exchange);
    [responsive_walk H; auto|].
  intros r s [-> ->].
  apply wp_bind. unfold with_telnet. apply wp_with_resource.
  wp_step_by ltac:(fun x => responsive_answer H x).
  eapply wp_mono; [apply install_dialogue_prompted; assumption|].
  intros r s (-> & Hdone). eexists. split; [reflexivity|].
  responsive_walk H; cbn; auto.
Qed.

(** The answers of a responsive console that shows the digest [remote]
    ([Hs : shows_digest w remote]) next to the file [Hf : holds_file w path
    content]. *)
Ltac digest_answer H Hs Hf x :=
  lazymatch x with
  | telnet_expect _ ?t ?ps ?to =>
      let out := fresh "out" in
      let s := fresh "s" in
      let Hd := fresh "Hd" in
      let Heq := fresh "Heq" in
      destruct (responsive_expect _ H t ps to) as (out & s & Heq & Hd);
      try (let Hidx := fresh "Hidx" in
           let matched := fresh "matched" in
           let s' := fresh "s" in
           let Hm := fresh "Hm" in
           let Hdm := fresh "Hdm" in
           let Htok := fresh "Htok" in
           destruct (Hs _ _ _ Heq) as (Hidx & matched & s' & Hm & Hdm & Htok);
           apply Z.eqb_neq in Hidx);
      rewrite Heq; clear Heq
  | file_open _ _ _ => rewrite (proj1 Hf)
  | file_read _ _ _ => rewrite (proj2 Hf)
  | _ => responsive_answer H x
  end.

Ltac digest_walk H Hs Hf := repeat wp_step_by ltac:(fun x => digest_answer H Hs Hf x).

Lemma configure_dialogue_exchanges (w : World) (local remote : pystr) (config : bytes)
    (path : string) (content : bytes) (s : exchange_state) :
  responsive w -> shows_digest w remote -> holds_file w path content ->
  wp exchange_monitor w (configure_dialogue local config)
    (fun r s' =>
       r = Next tt /\
       map reply (done s') =
         (map reply (done s) ++ configure_upload config ++ configure_execute)%list /\
       warned s' =
         (warned s ++ if str_eqb remote local then [] else [mismatch_warning])%list) s.
Proof.
  intros H Hs Hf. unfold configure_dialogue. digest_walk H Hs Hf.
  - cbn. rewrite !map_app, <- !app_assoc.
    destruct (str_eqb remote local); [discriminate|]. auto.
  - cbn. rewrite !map_app, <- !app_assoc.
    destruct (str_eqb remote local); [|discriminate]. rewrite app_nil_r. auto.
Qed.

Lemma configure_exchanges (w : World) (node host : string) (port : Z)
    (path : string) (pre : option string) (content : bytes) (remote : pystr) :
  responsive w -> shows_digest w remote -> holds_file w path content ->
  wp exchange_monitor w (gns3utils.configure_vyos_image_on_node node host port path pre)
    (fun r s =>
       r = Next tt /\
       map reply (done s) =
         (configure_upload (Base64.b64encode content) ++ configure_execute)%list /\
       warned s =
         if str_eqb remote (literal (MD5.hexdigest content)) then []
         else [mismatch_warning]) no_exchange.
Proof.
  intros H Hs Hf. unfold gns3utils.configure_vyos_image_on_node.
  apply wp_def, wp_bind.
  apply wp_mono with (Q := fun r s => r = Next tt /\ s = no_exchange);
    [responsive_walk H; auto|].
  intros r s [-> ->].
  apply wp_bind.
  apply wp_mono with
    (Q := fun r s => r = Next (literal (MD5.hexdigest content)) /\ s = no_exchange);
    [unfold md5sum_file; digest_walk H Hs Hf; auto|].
  intros r s [-> ->].
  apply wp_bind.
  apply wp_mono with
    (Q := fun r s => r = Next (Base64.b64encode content) /\ s = no_exchange);
    [digest_walk H Hs Hf; auto|].
  intros r s [-> ->].
  apply wp_bind. unfold with_telnet. apply wp_with_resource.
  wp_step_by ltac:(fun x => responsive_answer H x).
  eapply wp_mono;
    [apply (configure_dialogue_exchanges w _ remote _ path content); assumption|].
  intros r s (-> & Hdone & Hwarned). eexists. split; [reflexivity|].
  responsive_walk H; cbn; auto.
Qed.

(** ** Running a program step by step *)

Lemma bind_next {A B} (m : M A) (k : A -> M B) (w : World) (t : nat) (a : A) (es : list event) :
  m w t = (Next a, es) ->
  bind m k w t = (fst (k a w (t + length es)%nat), (es ++ snd (k a w (t + length es)%nat))%list).
Proof. intros H. unfold bind. rewrite H. destruct (k a w _). reflexivity. Qed.

Lemma bind_raise {A B} (m : M A) (k : A -> M B) (w : World) (t : nat) (e : exn) (es : list event) :
  m w t = (Raise e, es) -> bind m k w t = (Raise e, es).
Proof. intros H. unfold bind. rewrite H. reflexivity. Qed.

Lemma subscript_field (fields : gmap string json) (key : string) (v : json) (w : World) (t : nat) :
  fields !! key = Some v -> subscript (JDict fields) key w t = (Next v, []).
Proof. intros H. unfold subscript. rewrite H. reflexivity. Qed.

Lemma json_eq_str_spec (j : json) (s : string) : json_eq_str j s = true <-> j = JStr s.
Proof.
  destruct j; cbn; try (split; [discriminate | intros; discriminate]).
  rewrite String.eqb_eq. split; [intros ->; reflexivity | intros [=]; assumption].
Qed.


Lemma md5sum_file_runs (w : World) (t : nat) (fname : string) (content : bytes) :
  file_open w t fname = None ->
  file_read w (t + 1) fname = inr content ->
  md5sum_file fname w t =
  (Next (literal (MD5.hexdigest content)),
   [EvFileOpen fname None; EvFileRead fname (inr content); EvFileClose fname]).
Proof.
  intros Hopen Hread.
  unfold md5sum_file, bind, with_open, with_resource, call_unit, read, call_value, ret.
  rewrite Hopen. cbn [length]. rewrite Hread. reflexivity.
Qed.

(** ** The upload command carries the file *)

Lemma upload_step_upload (path : string) (content : bytes) (err : option exn) :
  upload_step path (Some content)
    (EvWrite (upload_command (Base64.b64encode content)) err) = Some (Some content).
Proof.
  unfold upload_step, upload_command.
  change (strip_prefix "echo '" ("echo '" ++ Base64.b64encode content ++ "' >> config.b64" ++ LF))
    with (Some (Base64.b64encode content ++ "' >> config.b64" ++ LF)).
  cbv beta iota. rewrite String.eqb_refl. reflexivity.
Qed.

#[local] Hint Resolve upload_step_upload : wp_steps.

Lemma configure_dialogue_upload (w : World) (path : string) (local : pystr) (content : bytes) :
  wp (upload_step path) w (configure_dialogue local (Base64.b64encode content))
    (fun _ _ => True) (Some content).
Proof. unfold configure_dialogue. wp_walk; exact I. Qed.

Lemma configure_upload_accepted (w : World) (node host : string) (port : Z)
    (path : string) (pre : option string) :
  wp (upload_step path) w (gns3utils.configure_vyos_image_on_node node host port path pre)
    (fun _ _ => True) None.
Proof.
  unfold gns3utils.configure_vyos_image_on_node.
  apply wp_def, wp_bind.
  apply wp_mono with (Q := fun _ s => s = None); [wp_walk; reflexivity|].
  intros r s ->. destruct r; [|exact I..].
  apply wp_bind.
  apply wp_mono with (Q := fun _ _ => True); [unfold md5sum_file; wp_walk; exact I|].
  intros r s _. destruct r as [local| |]; [|exact I..].
  apply wp_bind.
  apply wp_mono with
    (Q := fun r s => match r with
                     | Next config =>
                         exists content, config = Base64.b64encode content /\ s = Some content
                     | _ => True
                     end);
    [wp_walk; try exact I; eexists; split; reflexivity|].
  clear s. intros r s Hs. destruct r as [config| |]; [|exact I..].
  destruct Hs as (content & -> & ->).
  apply wp_bind. unfold with_telnet. apply wp_with_resource.
  wp_step; [exact I|].
  eapply wp_mono; [apply configure_dialogue_upload|].
  intros r s _. eexists. split; [reflexivity|].
  destruct r; [|exact I..]. wp_walk; exact I.
Qed.

Lemma upload_accounted (path : string) (es : list event) :
  forall s s', observe (upload_step path) s es = Some s' ->
    forall command, In command (writes es) ->
      is_Some (strip_prefix "echo '" command) ->
      exists content,
        (s = Some content \/ In (EvFileRead path (inr content)) es) /\
        command = upload_command (Base64.b64encode content).
Proof.
  induction es as [|e es IH]; intros s s' Hobs command Hin Hup; [contradiction|].
  cbn [observe] in Hobs.
  destruct (upload_step path s e) as [s1|] eqn:Hs; [|discriminate].
  assert (Hrest : In command (writes es) ->
                  s1 = s \/ (exists c, e = EvFileRead path (inr c) /\ s1 = Some c) ->
                  exists content,
                    (s = Some content \/ In (EvFileRead path (inr content)) (e :: es)) /\
                    command = upload_command (Base64.b64encode content)).
  { intros Hin' Hs1. destruct (IH _ _ Hobs _ Hin' Hup) as (content & [Hc | Hc] & Hcmd).
    - destruct Hs1 as [-> | (c & -> & ->)].
      + exists content. auto.
      + injection Hc as ->. exists content. split; [right; left; reflexivity | assumption].
    - exists content. split; [right; right; assumption | assumption]. }
  destruct e; unfold upload_step in Hs; try (injection Hs as <-; apply Hrest; auto; fail).
  - destruct res as [err|c]; [injection Hs as <-; apply Hrest; auto|].
    destruct (String.eqb path0 path) eqn:Hp; [|discriminate].
    apply String.eqb_eq in Hp. subst path0. injection Hs as <-.
    apply Hrest; [assumption|]. right. exists c. auto.
  - cbn in Hin. destruct Hin as [<- | Hin].
    + destruct Hup as [rest Hup]. rewrite Hup in Hs.
      destruct s as [content|]; [|discriminate].
      destruct (String.eqb data _) eqn:Hd; [|discriminate].
      apply String.eqb_eq in Hd. exists content. auto.
    + destruct (strip_prefix "echo '" data); [|injection Hs as <-; apply Hrest; auto].
      destruct s as [content|]; [|discriminate].
      destruct (String.eqb data _); [|discriminate].
      injection Hs as <-. apply Hrest; auto.
Qed.

(** ** From the functions of [gns3utils.py] to both source files *)

Lemma wp_ext {S A} (step : S -> event -> option S) (w : World) (m m' : M A)
    (Q : flow A -> S -> Prop) (s : S) :
  (forall t, m' w t = m w t) -> wp step w m Q s -> wp step w m' Q s.
Proof. intros Heq H t. rewrite Heq. apply H. Qed.

Lemma install_procedure_wp {S} (step : S -> event -> option S) (w : World)
    (src : source_file) (node host : string) (port : Z)
    (Q : flow unit -> S -> Prop) (s : S) :
  (forall pre, wp step w (gns3utils.install_vyos_image_on_node node host port pre) Q s) ->
  wp step w (install_procedure src node host port) Q s.
Proof.
  intros H. destruct src as [pre|]; cbn [install_procedure]; [apply H|].
  eapply wp_ext; [intros t; apply scenario_install_agrees | apply H].
Qed.

Lemma configure_procedure_wp {S} (step : S -> event -> option S) (w : World)
    (src : source_file) (node host : string) (port : Z) (path : string)
    (Q : flow unit -> S -> Prop) (s : S) :
  (forall pre, wp step w (gns3utils.configure_vyos_image_on_node node host port path pre) Q s) ->
  wp step w (configure_procedure src node host port path) Q s.
Proof.
  intros H. destruct src as [pre|]; cbn [configure_procedure]; [apply H|].
  eapply wp_ext; [intros t; apply scenario_configure_agrees | apply H].
Qed.

Lemma wp_run {S A} (step : S -> event -> option S) (w : World) (m : M A)
    (Q : flow A -> S -> Prop) (s : S) :
  wp step w m Q s ->
  exists s', observe step s (snd (run m w)) = Some s' /\ Q (fst (run m w)) s'.
Proof. intros H. apply (H 0%nat). Qed.

Lemma install_run_responsive (w : World) (src : source_file) (node host : string) (port : Z) :
  responsive w ->
  fst (run (install_procedure src node host port) w) = Next tt /\
  exchanges (snd (run (install_procedure src node host port) w)) = install_script.
Proof.
  intros H.
  destruct (wp_run exchange_monitor w (install_procedure src node host port) _ no_exchange
              (install_procedure_wp _ _ _ _ _ _ _ _
                 (fun pre => install_exchanges w node host port pre H)))
    as (s & Hobs & Hr & Hdone & _).
  rewrite observe_exchanges in Hobs. injection Hobs as <-.
  split; assumption.
Qed.

Lemma configure_run_responsive (w : World) (src : source_file) (node host : string)
    (port : Z) (path : string) (content : bytes) (remote : pystr) :
  responsive w -> shows_digest w remote -> holds_file w path content ->
  fst (run (configure_procedure src node host port path) w) = Next tt /\
  writes (snd (run (configure_procedure src node host port path) w)) =
    (configure_upload (Base64.b64encode content) ++ configure_execute)%list /\
  warnings (snd (run (configure_procedure src node host port path) w)) =
    if str_eqb remote (literal (MD5.hexdigest content)) then [] else [mismatch_warning].
Proof.
  intros H Hs Hf.
  destruct (wp_run exchange_monitor w (configure_procedure src node host port path) _
              no_exchange
              (configure_procedure_wp _ _ _ _ _ _ _ _ _
                 (fun pre => configure_exchanges w node host port path pre content remote
                               H Hs Hf)))
    as (s & Hobs & Hr & Hdone & Hwarned).
  rewrite observe_exchanges in Hobs. injection Hobs as <-.
  rewrite writes_of_exchanges. unfold exchanges, warnings. auto.
Qed.

Lemma configure_run_missed_digest (w : World) (src : source_file) (node host : string)
    (port : Z) (path : string) (pre : list event) (timeout : Z) (out : expect_tuple)
    (post : list event) :
  snd (run (configure_procedure src node host port path) w) =
    (pre ++ EvExpect [digest_pattern] timeout (inr out) :: post)%list ->
  out_index out = (-1)%Z ->
  fst (run (configure_procedure src node host port path) w) = Next tt /\
  exists post',
    post = EvWarn digest_warning :: post' /\
    Forall (fun e => is_console_call e = false) post'.
Proof.
  intros Hes Hout.
  destruct (wp_run digest_step w (configure_procedure src node host port path) _ Waiting
              (configure_procedure_wp _ _ _ _ _ _ _ _ _
                 (fun pre => configure_digest w node host port path pre)))
    as (s & Hobs & Hs & Hr).
  destruct (missed_digest_aborts _ _ Hobs Hs _ _ _ _ Hes Hout) as (-> & Hpost).
  split; [apply Hr; reflexivity | exact Hpost].
Qed.

(** ** The doubles are what they are meant to be *)

Lemma console_world_responsive (files : gmap string bytes)
    (answer : nat -> list bytes -> Z -> exn + expect_tuple) :
  (forall t patterns timeout,
     exists out s, answer t patterns timeout = inr out /\
                   Utf8.decode (out_text out) = Some s) ->
  responsive (console_world files answer).
Proof.
  intros H. constructor; cbn; try reflexivity; [|exact H].
  intros _ _. eexists _, _. split; [reflexivity | vm_compute; reflexivity].
Qed.

Lemma is_digest_wait_spec (patterns : list bytes) :
  is_digest_wait patterns = true <-> patterns = [digest_pattern].
Proof.
  destruct patterns as [|p [|q rest]]; cbn; try (split; discriminate).
  rewrite String.eqb_eq. split; [intros ->; reflexivity | intros [=]; assumption].
Qed.

(** * The claims *)

(** ** C1: a missed deadline *)



Lemma prompting_responsive (files : gmap string bytes) (digest : bytes) (s : pystr) :
  Utf8.decode (digest ++ "  config.sh") = Some s ->
  responsive (console_world files (prompting digest)).
Proof.
  intros Hd. apply console_world_responsive. intros t patterns timeout. unfold prompting.
  destruct (is_digest_wait patterns); eexists _, _;
    (split; [reflexivity|]); [exact Hd | vm_compute; reflexivity].
Qed.

Lemma prompting_in_time (files : gmap string bytes) (digest : bytes) :
  prompts_in_time (console_world files (prompting digest)).
Proof.
  intros t patterns timeout out. cbn. unfold prompting.
  destruct (is_digest_wait patterns); intros [= <-]; split; cbn; eauto.
Qed.

Lemma prompting_shows_digest (files : gmap string bytes) (digest : bytes) (s remote : pystr) :
  Utf8.decode (digest ++ "  config.sh") = Some s ->
  first_token s = Some remote ->
  shows_digest (console_world files (prompting digest)) remote.
Proof.
  intros Hd Htok t timeout out. cbn. unfold prompting. cbn. intros [= <-].
  split; [discriminate|]. eexists _, _. split; [reflexivity|]. split; eassumption.
Qed.

Lemma mismatch_responsive : responsive mismatch_world.
Proof.
  eapply (prompting_responsive _ "00000000000000000000000000000000").
  vm_compute. reflexivity.
Qed.

Lemma mismatch_shows_digest :
  shows_digest mismatch_world (literal "00000000000000000000000000000000").
Proof.
  eapply (prompting_shows_digest _ "00000000000000000000000000000000");
    vm_compute; reflexivity.
Qed.

Lemma prompting_world_responsive : responsive prompting_world.
Proof. eapply (prompting_responsive _ script_digest). vm_compute. reflexivity. Qed.



Lemma script_files_hold (content : bytes)
    (answer : nat -> list bytes -> Z -> exn + expect_tuple) :
  holds_file (console_world (script_files content) answer) script_path content.
Proof.
  split; intros t; unfold console_world, script_files; cbn [file_open file_read];
    rewrite lookup_singleton_eq; reflexivity.
Qed.


(** ** C2: a digest that does not match *)

(** C2: when the digest shown by the router differs from the digest of the
    local file, the warning is recorded and the dialogue goes on: the
    [chmod], the execution of the script, the [poweroff] and its
    confirmation are written, and the function returns normally. *)
Theorem digest_mismatch_only_warns
    (w : World) (src : source_file) (node host : string) (port : Z) (path : string)
    (content : bytes) (remote : pystr) :
  responsive w -> shows_digest w remote -> holds_file w path content ->
  remote <> literal (MD5.hexdigest content) ->
  fst (run (configure_procedure src node host port path) w) = Next tt /\
  warnings (snd (run (configure_procedure src node host port path) w)) =
    ["Checksums do not match."] /\
  writes (snd (run (configure_procedure src node host port path) w)) =
    List.app (configure_upload (Base64.b64encode content))
      ["chmod +x config.sh" ++ LF; "./config.sh" ++ LF; "poweroff" ++ LF; "y" ++ LF].
Proof.
  intros H Hs Hf Hne.
  destruct (configure_run_responsive w src node host port path content remote H Hs Hf)
    as (Hr & Hw & Hwarn).
  unfold str_eqb in Hwarn. rewrite bool_decide_false in Hwarn by assumption.
  auto.
Qed.

Lemma digest_mismatch_only_warns_witness :
  literal "00000000000000000000000000000000" <> literal (MD5.hexdigest script_content) /\
  fst (run (configure_procedure (Gns3utils viewer) "vyos-1" "localhost" 5000 script_path)
         mismatch_world) = Next tt /\
  warnings (snd (run (configure_procedure (Gns3utils viewer) "vyos-1" "localhost" 5000
                        script_path) mismatch_world)) =
    ["Checksums do not match."].
Proof.
  assert (Hne : literal "00000000000000000000000000000000"
                <> literal (MD5.hexdigest script_content)).
  { vm_compute. discriminate. }
  split; [exact Hne|].
  destruct (digest_mismatch_only_warns mismatch_world (Gns3utils viewer) "vyos-1"
              "localhost" 5000 script_path script_content
              (literal "00000000000000000000000000000000")
              mismatch_responsive mismatch_shows_digest (script_files_hold _ _) Hne)
    as (Hr & Hw & _).
  split; assumption.
Defined.

(** ** C3: the connection *)

Lemma console_world_dials (files : gmap string bytes)
    (answer : nat -> list bytes -> Z -> exn + expect_tuple) :
  dials (console_world files answer).
Proof. split; reflexivity. Qed.

(** C3: on every exit path of the install and configure procedures of both
    source files (normal end, the early [return] of the digest step, any
    exception) the transcript is accepted by the connection monitor and
    does not leave the connection open: every call on the console falls
    between the opening and the one close, and there are as many closes as
    successful openings, at most one.  When the procedure gets as far as
    the console (the helper process starts, the console accepts the
    connection and, for the configure procedure, the script file can be
    read), the connection is opened once and closed once, whatever
    happens in the dialogue. *)
Theorem transport_closed_exactly_once
    (w : World) (src : source_file) (node host : string) (port : Z) (path : string) :
  closed_once (snd (run (install_procedure src node host port) w)) /\
  closed_once (snd (run (configure_procedure src node host port path) w)) /\
  (dials w ->
   count is_open (snd (run (install_procedure src node host port) w)) = 1%nat /\
   count is_close (snd (run (install_procedure src node host port) w)) = 1%nat) /\
  (dials w -> forall content, holds_file w path content ->
   count is_open (snd (run (configure_procedure src node host port path) w)) = 1%nat /\
   count is_close (snd (run (configure_procedure src node host port path) w)) = 1%nat).
Proof.
  split; [|split; [|split]].
  - apply accepted_closed_once, install_procedure_wp.
    intros pre. apply install_connection.
  - apply accepted_closed_once, configure_procedure_wp.
    intros pre. apply configure_connection.
  - intros Hd. apply made_and_closed, install_procedure_wp.
    intros pre. apply install_connection_made, Hd.
  - intros Hd content Hf. apply made_and_closed, configure_procedure_wp.
    intros pre. apply (configure_connection_made w node host port path pre content Hd Hf).
Qed.

(** The three exit paths, with the viewer of [gns3utils.py]: the
    connection is lost during the install dialogue; the configure
    procedure leaves at the digest step; it runs to its end. *)
Lemma transport_closed_exactly_once_witness :
  (fst (run (install_procedure (Gns3utils viewer) "vyos-1" "localhost" 5000)
          dropping_world) = Raise EOFError /\
   count is_open (snd (run (install_procedure (Gns3utils viewer) "vyos-1" "localhost" 5000)
                         dropping_world)) = 1%nat /\
   count is_close (snd (run (install_procedure (Gns3utils viewer) "vyos-1" "localhost" 5000)
                          dropping_world)) = 1%nat) /\
  (warnings (snd (run (configure_procedure (Gns3utils viewer) "vyos-1" "localhost" 5000
                         script_path) no_digest_world)) = [digest_warning] /\
   count is_open (snd (run (configure_procedure (Gns3utils viewer) "vyos-1" "localhost" 5000
                              script_path) no_digest_world)) = 1%nat /\
   count is_close (snd (run (configure_procedure (Gns3utils viewer) "vyos-1" "localhost" 5000
                               script_path) no_digest_world)) = 1%nat) /\
  (warnings (snd (run (configure_procedure (Gns3utils viewer) "vyos-1" "localhost" 5000
                         script_path) prompting_world)) = [] /\
   count is_open (snd (run (configure_procedure (Gns3utils viewer) "vyos-1" "localhost" 5000
                              script_path) prompting_world)) = 1%nat /\
   count is_close (snd (run (configure_procedure (Gns3utils viewer) "vyos-1" "localhost" 5000
                               script_path) prompting_world)) = 1%nat).
Proof.
  split; [|split].
  - split; [vm_compute; reflexivity|].
    exact (proj1 (proj2 (proj2
             (transport_closed_exactly_once dropping_world (Gns3utils viewer) "vyos-1"
                "localhost" 5000 script_path)))
             (console_world_dials _ _)).
  - split; [vm_compute; reflexivity|].
    exact (proj2 (proj2 (proj2
             (transport_closed_exactly_once no_digest_world (Gns3utils viewer) "vyos-1"
                "localhost" 5000 script_path)))
             (console_world_dials _ _) script_content (script_files_hold _ _)).
  - split; [vm_compute; reflexivity|].
    exact (proj2 (proj2 (proj2
             (transport_closed_exactly_once prompting_world (Gns3utils viewer) "vyos-1"
                "localhost" 5000 script_path)))
             (console_world_dials _ _) script_content (script_files_hold _ _)).
Defined.

(** ** C4: the helper process *)

(** C4 fails on the code.  With a viewer command given, the configure
    procedure that leaves at the digest step returns with the helper
    started and not killed, and so do both procedures when the connection
    is lost during the dialogue; only the run to the end kills it. *)
Theorem helper_left_running :
  (let r := run (gns3utils.configure_vyos_image_on_node "vyos-1" "localhost" 5000
                   script_path viewer) no_digest_world in
   fst r = Next tt /\ count is_spawn (snd r) = 1%nat /\ count is_kill (snd r) = 0%nat) /\
  (let r := run (gns3utils.configure_vyos_image_on_node "vyos-1" "localhost" 5000
                   script_path viewer) dropping_world in
   fst r = Raise EOFError /\ count is_spawn (snd r) = 1%nat /\ count is_kill (snd r) = 0%nat) /\
  (let r := run (gns3utils.install_vyos_image_on_node "vyos-1" "localhost" 5000 viewer)
              dropping_world in
   fst r = Raise EOFError /\ count is_spawn (snd r) = 1%nat /\ count is_kill (snd r) = 0%nat) /\
  (let r := run (gns3utils.configure_vyos_image_on_node "vyos-1" "localhost" 5000
                   script_path viewer) prompting_world in
   fst r = Next tt /\ count is_spawn (snd r) = 1%nat /\ count is_kill (snd r) = 1%nat) /\
  ~ helper_killed (gns3utils.configure_vyos_image_on_node "vyos-1" "localhost" 5000
                     script_path viewer).
Proof.
  split; [vm_compute; auto|].
  split; [vm_compute; auto|].
  split; [vm_compute; auto|].
  split; [vm_compute; auto|].
  intros H. specialize (H no_digest_world). vm_compute in H. discriminate H.
Qed.

(** ** C5: no digest line *)

(** C5: when the wait for the digest line comes back with index [-1], the
    next event is the warning, no call on the console follows (so nothing
    more is written), and the function returns. *)
Theorem missed_digest_aborts_session
    (w : World) (src : source_file) (node host : string) (port : Z) (path : string)
    (pre : list event) (timeout : Z) (out : expect_tuple) (post : list event) :
  snd (run (configure_procedure src node host port path) w) =
    (pre ++ EvExpect [digest_pattern] timeout (inr out) :: post)%list ->
  out_index out = (-1)%Z ->
  fst (run (configure_procedure src node host port path) w) = Next tt /\
  (exists post',
     post = EvWarn "Error generating file MD5 checksum." :: post' /\
     Forall (fun e => is_console_call e = false) post') /\
  writes post = [].
Proof.
  intros Hes Hout.
  destruct (configure_run_missed_digest w src node host port path _ _ _ _ Hes Hout)
    as (Hr & post' & -> & Hpost).
  split; [assumption|]. split; [exists post'; auto|].
  cbn. apply silent_no_writes, Hpost.
Qed.

Lemma missed_digest_aborts_session_witness :
  snd (run (configure_procedure (Gns3utils viewer) "vyos-1" "localhost" 5000 script_path)
         no_digest_world) =
    (firstn 26 (snd (run (configure_procedure (Gns3utils viewer) "vyos-1" "localhost" 5000
                            script_path) no_digest_world))
     ++ EvExpect [digest_pattern] 5 (inr timed_out)
     :: [EvWarn "Error generating file MD5 checksum."; EvTelnetClose])%list /\
  out_index timed_out = (-1)%Z /\
  writes [EvWarn "Error generating file MD5 checksum."; EvTelnetClose] = [].
Proof.
  assert (Hes : snd (run (configure_procedure (Gns3utils viewer) "vyos-1" "localhost" 5000
                            script_path) no_digest_world) =
    (firstn 26 (snd (run (configure_procedure (Gns3utils viewer) "vyos-1" "localhost" 5000
                            script_path) no_digest_world))
     ++ EvExpect [digest_pattern] 5 (inr timed_out)
     :: [EvWarn "Error generating file MD5 checksum."; EvTelnetClose])%list).
  { vm_compute. reflexivity. }
  split; [exact Hes|]. split; [reflexivity|].
  exact (proj2 (proj2 (missed_digest_aborts_session no_digest_world (Gns3utils viewer)
                          "vyos-1" "localhost" 5000 script_path _ 5%Z timed_out _
                          Hes eq_refl))).
Defined.

(** ** C6: the install script *)

(** C6, as stated, fails in its clause on the deadlines: the first step
    of the install procedure, the wait for the login banner, is a
    [read_until] without a timeout, so the step that sends the user name
    has no deadline, of 10 seconds or of 30, also on a console that shows
    every prompt in time. *)
Lemma banner_step_has_no_deadline :
  nth_error (exchanges (snd (run (install_procedure (Gns3utils None) "vyos-1" "localhost"
                                    5000) prompting_world))) 0 =
    Some {| awaited := ["vyos login:"]; deadline := None; reply := "vyos" ++ LF |} /\
  ~ every_step_has_deadline (install_procedure (Gns3utils None) "vyos-1" "localhost" 5000).
Proof.
  split; [vm_compute; reflexivity|].
  intros H.
  specialize (H prompting_world prompting_world_responsive (prompting_in_time _ _)).
  destruct (install_run_responsive prompting_world (Gns3utils None) "vyos-1" "localhost"
              5000 prompting_world_responsive) as [_ Hx].
  rewrite Hx in H. apply Forall_inv in H. destruct H as [H|H]; discriminate H.
Qed.

(** C6, amended: when the console shows every prompt in time, the install
    procedure returns normally, no wait fails, and its exchanges are those
    of [install_script], in that order: the first wait, for the login
    banner, is a [read_until] and carries no deadline; every later wait
    carries a deadline of 10 seconds, or 30 seconds for the three
    questions asked while the disk is prepared and for the shell prompt
    that follows the installation; and the replies to the prompts for the
    password and for its confirmation are the same bytes. *)
Theorem install_follows_script
    (w : World) (src : source_file) (node host : string) (port : Z) :
  responsive w -> prompts_in_time w ->
  fst (run (install_procedure src node host port) w) = Next tt /\
  forallb wait_succeeded (snd (run (install_procedure src node host port) w)) = true /\
  exchanges (snd (run (install_procedure src node host port) w)) = install_script /\
  writes (snd (run (install_procedure src node host port) w)) =
    [ "vyos" ++ LF; "vyos" ++ LF; "install image" ++ LF; "Yes" ++ LF; "Auto" ++ LF;
      LF; "Yes" ++ LF; LF; LF; LF; "vyos" ++ LF; "vyos" ++ LF; LF;
      "poweroff" ++ LF; "y" ++ LF ] /\
  map deadline (exchanges (snd (run (install_procedure src node host port) w))) =
    [ None; Some 10; Some 10; Some 10; Some 10; Some 10; Some 10; Some 30; Some 30;
      Some 30; Some 10; Some 10; Some 10; Some 30; Some 10 ]%Z /\
  reply_to "Enter password for user 'vyos':"
    (exchanges (snd (run (install_procedure src node host port) w))) = Some ("vyos" ++ LF) /\
  reply_to "Retype password for user 'vyos':"
    (exchanges (snd (run (install_procedure src node host port) w))) = Some ("vyos" ++ LF).
Proof.
  intros H Hp.
  destruct (wp_run prompted_monitor w (install_procedure src node host port) _ no_exchange
              (install_procedure_wp _ _ _ _ _ _ _ _
                 (fun pre => install_prompted w node host port pre H Hp)))
    as (s & Hobs & Hr & Hdone).
  apply observe_prompted in Hobs. destruct Hobs as [<- Hwaits].
  assert (Hx : exchanges (snd (run (install_procedure src node host port) w)) = install_script)
    by exact Hdone.
  rewrite writes_of_exchanges, Hx.
  repeat split; try assumption; reflexivity.
Qed.

Lemma install_follows_script_witness :
  fst (run (install_procedure (Gns3utils viewer) "vyos-1" "localhost" 5000)
         prompting_world) = Next tt /\
  exchanges (snd (run (install_procedure (Gns3utils viewer) "vyos-1" "localhost" 5000)
                    prompting_world)) = install_script.
Proof.
  destruct (install_follows_script prompting_world (Gns3utils viewer) "vyos-1" "localhost"
              5000 prompting_world_responsive (prompting_in_time _ _))
    as (Hr & _ & Hx & _).
  split; assumption.
Defined.

(** ** C7: the upload *)

(** C7: every command of a configure session that starts with [echo '] is
    the upload command for the bytes [content] that were read from the
    script file; the router's shell appends the base64 text of [content]
    and a line feed to [config.b64], and decoding that line gives back
    exactly [content], whatever bytes it holds. *)
Theorem upload_decodes_to_file_content
    (w : World) (src : source_file) (node host : string) (port : Z) (path : string)
    (command : bytes) :
  In command (writes (snd (run (configure_procedure src node host port path) w))) ->
  is_Some (strip_prefix "echo '" command) ->
  exists content,
    In (EvFileRead path (inr content))
       (snd (run (configure_procedure src node host port path) w)) /\
    command = upload_command (Base64.b64encode content) /\
    echo_appended command = Some (Base64.b64encode content ++ LF) /\
    Base64.b64decode (Base64.b64encode content ++ LF) = Some content /\
    Base64.b64decode (Base64.b64encode content) = Some content.
Proof.
  intros Hin Hup.
  destruct (wp_run (upload_step path) w (configure_procedure src node host port path) _ None
              (configure_procedure_wp _ _ _ _ _ _ _ _ _
                 (fun pre => configure_upload_accepted w node host port path pre)))
    as (s & Hobs & _).
  destruct (upload_accounted _ _ _ _ Hobs _ Hin Hup) as (content & [Hc | Hc] & ->);
    [discriminate|].
  exists content. split; [assumption|]. split; [reflexivity|].
  split; [apply echo_appended_upload|].
  split; [apply Base64Facts.b64decode_line | apply Base64Facts.b64decode_b64encode].
Qed.

Lemma upload_decodes_to_file_content_witness :
  In ("echo 'ZWNobyBoaQ==' >> config.b64" ++ LF)
     (writes (snd (run (configure_procedure Scenario "vyos-1" "localhost" 5000 script_path)
                     prompting_world))) /\
  is_Some (strip_prefix "echo '" ("echo 'ZWNobyBoaQ==' >> config.b64" ++ LF)) /\
  exists content,
    "echo 'ZWNobyBoaQ==' >> config.b64" ++ LF = upload_command (Base64.b64encode content) /\
    Base64.b64decode (Base64.b64encode content ++ LF) = Some content.
Proof.
  assert (Hin : In ("echo 'ZWNobyBoaQ==' >> config.b64" ++ LF)
                  (writes (snd (run (configure_procedure Scenario "vyos-1" "localhost" 5000
                                       script_path) prompting_world)))).
  { vm_compute. tauto. }
  assert (Hup : is_Some (strip_prefix "echo '" ("echo 'ZWNobyBoaQ==' >> config.b64" ++ LF))).
  { vm_compute. eauto. }
  split; [exact Hin|]. split; [exact Hup|].
  destruct (upload_decodes_to_file_content prompting_world Scenario "vyos-1" "localhost"
              5000 script_path _ Hin Hup)
    as (content & _ & Hcmd & _ & Hdec & _).
  exists content. split; assumption.
Defined.

(** ** C8: the digest of a file *)

(** C8: the result of [md5sum_file] is the MD5 digest of the bytes that the
    read returned and of nothing else: two runs that read the same bytes, in
    any two worlds and at any two times, give the same result, and all the
    function does to the world is to open, read and close that file. *)
Theorem md5sum_file_deterministic
    (w1 w2 : World) (t1 t2 : nat) (fname : string) (content : bytes) :
  file_open w1 t1 fname = None -> file_read w1 (t1 + 1) fname = inr content ->
  file_open w2 t2 fname = None -> file_read w2 (t2 + 1) fname = inr content ->
  md5sum_file fname w1 t1 = md5sum_file fname w2 t2 /\
  fst (md5sum_file fname w1 t1) = Next (literal (MD5.hexdigest content)) /\
  snd (md5sum_file fname w1 t1) =
    [EvFileOpen fname None; EvFileRead fname (inr content); EvFileClose fname].
Proof.
  intros Ho1 Hr1 Ho2 Hr2.
  rewrite (md5sum_file_runs w1 t1 fname content Ho1 Hr1).
  rewrite (md5sum_file_runs w2 t2 fname content Ho2 Hr2).
  auto.
Qed.

Lemma md5sum_file_deterministic_witness :
  md5sum_file script_path prompting_world 0 = md5sum_file script_path no_digest_world 7 /\
  fst (md5sum_file script_path prompting_world 0) =
    Next (literal "d28b1973427f736bce1d09e6babe5ec8").
Proof.
  destruct (md5sum_file_deterministic prompting_world no_digest_world 0 7 script_path
              script_content eq_refl eq_refl eq_refl eq_refl)
    as (Heq & Hr & _).
  split; [exact Heq|]. rewrite Hr. vm_compute. reflexivity.
Defined.

(** ** C9: reading the script file *)

(** C9, as stated, fails: the configure procedure reads the script file
    twice, once in [md5sum_file] and once for the base64 text. *)
Lemma script_file_read_twice :
  count (is_file_read script_path)
    (snd (run (configure_procedure Scenario "vyos-1" "localhost" 5000 script_path)
            prompting_world)) = 2%nat /\
  ~ reads_file_once script_path
      (configure_procedure Scenario "vyos-1" "localhost" 5000 script_path).
Proof.
  split; [vm_compute; reflexivity|].
  intros H. specialize (H prompting_world). vm_compute in H. lia.
Qed.

(** C9, amended: the script file is read twice, each time in one read of
    the whole file, and both reads are over when the program tries to open
    the connection to the console; the file is not read after that. *)
Theorem script_file_read_before_console
    (w : World) (src : source_file) (node host : string) (port : Z) (path : string)
    (pre : list event) (host' : string) (port' : Z) (err : option exn)
    (post : list event) :
  snd (run (configure_procedure src node host port path) w) =
    (pre ++ EvTelnetOpen host' port' err :: post)%list ->
  count (is_file_read path) pre = 2%nat /\
  count (is_file_read path) post = 0%nat /\
  count (is_file_read path) (snd (run (configure_procedure src node host port path) w)) = 2%nat.
Proof.
  intros Hes.
  destruct (wp_run (file_step path) w (configure_procedure src node host port path) _
              {| reads := 0; dialled := false |}
              (configure_procedure_wp _ _ _ _ _ _ _ _ _
                 (fun pre => configure_file w node host port path pre)))
    as (s & Hobs & Hle & Hd).
  pose proof (file_reads_counted _ _ _ _ Hobs) as [Hall _].
  rewrite Hes in Hobs, Hall. rewrite observe_app in Hobs.
  destruct (observe (file_step path) {| reads := 0; dialled := false |} pre)
    as [s1|] eqn:Hpre; [|discriminate].
  cbn [observe file_step] in Hobs.
  destruct (file_reads_counted _ _ _ _ Hpre) as [Hr1 _].
  destruct (file_reads_counted _ _ _ _ Hobs) as [Hr2 Hd2].
  destruct (Hd2 eq_refl) as [Hpost Hds].
  cbn in Hr1, Hr2, Hall. specialize (Hd Hds).
  rewrite Hes. unfold count in *. rewrite List.filter_app, length_app in *.
  cbn [List.filter is_file_read length] in *. lia.
Qed.

Lemma script_file_read_before_console_witness :
  snd (run (configure_procedure (Gns3utils viewer) "vyos-1" "localhost" 5000 script_path)
         no_digest_world) =
    (firstn 7 (snd (run (configure_procedure (Gns3utils viewer) "vyos-1" "localhost" 5000
                           script_path) no_digest_world))
     ++ EvTelnetOpen "localhost" 5000 None
     :: skipn 8 (snd (run (configure_procedure (Gns3utils viewer) "vyos-1" "localhost" 5000
                             script_path) no_digest_world)))%list /\
  count (is_file_read script_path)
    (firstn 7 (snd (run (configure_procedure (Gns3utils viewer) "vyos-1" "localhost" 5000
                           script_path) no_digest_world))) = 2%nat.
Proof.
  assert (Hes : snd (run (configure_procedure (Gns3utils viewer) "vyos-1" "localhost" 5000
                            script_path) no_digest_world) =
    (firstn 7 (snd (run (configure_procedure (Gns3utils viewer) "vyos-1" "localhost" 5000
                           script_path) no_digest_world))
     ++ EvTelnetOpen "localhost" 5000 None
     :: skipn 8 (snd (run (configure_procedure (Gns3utils viewer) "vyos-1" "localhost" 5000
                             script_path) no_digest_world)))%list).
  { vm_compute. reflexivity. }
  split; [exact Hes|].
  exact (proj1 (script_file_read_before_console no_digest_world (Gns3utils viewer) "vyos-1"
                  "localhost" 5000 script_path _ _ _ _ _ Hes)).
Defined.

(** ** C10: the console endpoint *)
(** C10: when the server answers with a node object, the resolution fails
    with [AssertionError] unless the console type is ["telnet"]; otherwise
    the host is the address of the server when the node reports
    ["0.0.0.0"] or ["::"] and the reported host in every other case, and
    the port is the reported console port. *)
Theorem console_endpoint_resolution
    (w : World) (t : nat) (server : Server) (project : Project) (node_id : string)
    (status : Z) (fields : gmap string json) (console_type : json) :
  http_get w t (node_url server project node_id) (user server, password server) =
    inr {| status_code := status; body := Some (JDict fields) |} ->
  ~ (400 <= status < 600)%Z ->
  fields !! "console_type" = Some console_type ->
  (console_type <> JStr "telnet" ->
   fst (get_node_telnet_host_port server project node_id w t) = Raise AssertionError) /\
  (console_type = JStr "telnet" ->
   forall console_host console,
     fields !! "console_host" = Some console_host ->
     fields !! "console" = Some console ->
     (is_wildcard console_host ->
      fst (get_node_telnet_host_port server project node_id w t) =
        Next (JStr (addr server), console)) /\
     (~ is_wildcard console_host ->
      fst (get_node_telnet_host_port server project node_id w t) =
        Next (console_host, console))).
Proof.
  intros Hget Hstatus Htype.
  assert (Hs : (400 <=? status)%Z && (status <? 600)%Z = false).
  { apply andb_false_iff. destruct (400 <=? status)%Z eqn:H1; [right|left; reflexivity].
    apply Z.ltb_ge. apply Z.leb_le in H1. lia. }
  set (resp := {| status_code := status; body := Some (JDict fields) |}) in *.
  unfold get_node_telnet_host_port.
  erewrite bind_next by (unfold requests_get, call_value; rewrite Hget; reflexivity).
  erewrite bind_next
    by (unfold raise_for_status; subst resp; cbn [status_code]; rewrite Hs; reflexivity).
  erewrite bind_next by reflexivity.
  erewrite bind_next by (apply subscript_field, Htype).
  cbn [fst snd].
  split.
  - intros Hne. destruct (json_eq_str console_type "telnet") eqn:He.
    + apply json_eq_str_spec in He. contradiction.
    + erewrite bind_raise by reflexivity. reflexivity.
  - intros -> console_host console Hhost Hconsole.
    erewrite bind_next by reflexivity.
    erewrite bind_next by reflexivity.
    erewrite bind_next by (apply subscript_field, Hhost).
    cbn [fst snd]. unfold is_wildcard.
    split.
    + intros Hw.
      assert (Hc : json_eq_str console_host "0.0.0.0" || json_eq_str console_host "::" = true).
      { destruct Hw as [-> | ->]; reflexivity. }
      rewrite Hc.
      erewrite bind_next by reflexivity.
      erewrite bind_next by reflexivity.
      erewrite bind_next by (apply subscript_field, Hconsole).
      reflexivity.
    + intros Hw.
      destruct (json_eq_str console_host "0.0.0.0") eqn:H1;
        [apply json_eq_str_spec in H1; tauto|].
      destruct (json_eq_str console_host "::") eqn:H2;
        [apply json_eq_str_spec in H2; tauto|].
      cbn [orb].
      erewrite bind_next
        by (erewrite bind_next by reflexivity;
            rewrite subscript_field with (v := console_host) by assumption;
            reflexivity).
      erewrite bind_next by reflexivity.
      erewrite bind_next by (apply subscript_field, Hconsole).
      reflexivity.
Qed.


Lemma console_endpoint_resolution_witness :
  fst (get_node_telnet_host_port local_server iot_project "n1" router_api_world 0) =
    Next (JStr "192.168.56.1", JInt 5000).
Proof.
  assert (Hstatus : ~ (400 <= 200 < 600)%Z) by lia.
  destruct (console_endpoint_resolution router_api_world 0 local_server iot_project "n1"
              200 router_node (JStr "telnet") eq_refl Hstatus eq_refl)
    as [_ H].
  destruct (H eq_refl (JStr "0.0.0.0") (JInt 5000) eq_refl eq_refl) as [Hw _].
  apply Hw. left. reflexivity.
Defined.

(** * More about the console procedures *)

(** ** The helper process *)

Lemma install_dialogue_helper (w : World) (s : helper_state) :
  wp helper_step w install_dialogue (fun r s' => s' = s /\ r <> ReturnNone) s.
Proof. unfold install_dialogue. wp_walk; split; (reflexivity || discriminate). Qed.

Lemma configure_dialogue_helper (w : World) (local : pystr) (config : bytes)
    (s : helper_state) :
  wp helper_step w (configure_dialogue local config)
    (fun r s' =>
       match r with
       | ReturnNone =>
           s' = {| started := started s; stopped := stopped s; gave_up := true |}
       | _ => s' = s
       end) s.
Proof. unfold configure_dialogue. wp_walk; reflexivity. Qed.

Lemma helper_counts (es : list event) :
  forall s s', observe helper_step s es = Some s' ->
    started s' = (started s + count is_spawn es)%nat /\
    stopped s' = (stopped s + count is_kill es)%nat /\
    gave_up s' = gave_up s || existsb is_digest_warning es.
Proof.
  unfold count. induction es as [|e es IH]; intros s s' H.
  - cbn in H. injection H as <-. cbn. rewrite orb_false_r.
    repeat split; (lia || reflexivity).
  - cbn [observe] in H. destruct (helper_step s e) as [s1|] eqn:Hs; [|discriminate].
    destruct (IH _ _ H) as (H1 & H2 & H3). clear IH H.
    rewrite H1, H2, H3. clear H1 H2 H3.
    destruct e as [cmd [err|]| | | | | | | | | | |message| |]; cbn in Hs;
      try (injection Hs as <-; cbn; repeat split; (lia || reflexivity)).
    cbn [existsb is_digest_warning List.filter is_spawn is_kill].
    destruct (String.eqb message digest_warning); injection Hs as <-; cbn;
      rewrite ?orb_true_r; repeat split; (lia || reflexivity).
Qed.

Lemma install_helper (w : World) (node host : string) (port : Z) (pre : option string) :
  wp helper_step w (gns3utils.install_vyos_image_on_node node host port pre)
    (fun r s =>
       match r with
       | Next _ =>
           started s = (if truthy pre then 1%nat else 0%nat) /\ stopped s = started s
       | _ => (started s <= if truthy pre then 1 else 0)%nat /\ stopped s = 0%nat
       end)
    no_helper.
Proof.
  unfold gns3utils.install_vyos_image_on_node.
  apply wp_def, wp_bind.
  apply wp_mono with
    (Q := fun r s =>
            stopped s = 0%nat /\ (started s <= if truthy pre then 1 else 0)%nat /\
            r <> ReturnNone /\
            (r = Next tt -> started s = if truthy pre then 1%nat else 0%nat));
    [destruct (truthy pre); wp_walk; cbn; repeat split; (lia || discriminate || auto)|].
  intros r s (Hk & Hs1 & Hret & Hst).
  destruct r as [[]| |]; [|contradiction|auto].
  specialize (Hst eq_refl).
  apply wp_bind. unfold with_telnet. apply wp_with_resource.
  wp_step; [auto|].
  eapply wp_mono; [apply install_dialogue_helper|].
  intros r s' [-> Hr]. eexists. split; [reflexivity|].
  destruct r as [[]| |]; [|contradiction|cbn; auto].
  destruct (truthy pre); unfold when; wp_walk; cbn; split; (lia || auto).
Qed.

Lemma configure_helper (w : World) (node host : string) (port : Z) (path : string)
    (pre : option string) :
  wp helper_step w (gns3utils.configure_vyos_image_on_node node host port path pre)
    (fun r s =>
       match r with
       | Next _ =>
           started s = (if truthy pre then 1%nat else 0%nat) /\
           stopped s = (if truthy pre && negb (gave_up s) then 1%nat else 0%nat)
       | _ =>
           (started s <= if truthy pre then 1 else 0)%nat /\ stopped s = 0%nat /\
           gave_up s = false
       end)
    no_helper.
Proof.
  unfold gns3utils.configure_vyos_image_on_node.
  apply wp_def, wp_bind.
  apply wp_mono with
    (Q := fun r s =>
            gave_up s = false /\ stopped s = 0%nat /\
            (started s <= if truthy pre then 1 else 0)%nat /\
            r <> ReturnNone /\
            (r = Next tt -> started s = if truthy pre then 1%nat else 0%nat));
    [destruct (truthy pre); wp_walk; cbn; repeat split; (lia || discriminate || auto)|].
  intros r s (Hg & Hk & Hs1 & Hret & Hst).
  destruct r as [[]| |]; [|contradiction|auto].
  specialize (Hst eq_refl).
  apply wp_bind.
  apply wp_mono with (Q := fun r s' => s' = s /\ r <> ReturnNone);
    [unfold md5sum_file; wp_walk; split; (reflexivity || discriminate)|].
  intros r s' [-> Hr1]. destruct r as [local| |]; [|contradiction|auto].
  apply wp_bind.
  apply wp_mono with (Q := fun r s' => s' = s /\ r <> ReturnNone);
    [wp_walk; split; (reflexivity || discriminate)|].
  intros r s' [-> Hr2]. destruct r as [config| |]; [|contradiction|auto].
  apply wp_bind. unfold with_telnet. apply wp_with_resource.
  wp_step; [auto|].
  eapply wp_mono; [apply configure_dialogue_helper|].
  intros r s' Hs'. destruct r as [[]| |]; subst s'; (eexists; split; [reflexivity|]).
  - destruct (truthy pre); unfold when; wp_walk; cbn; rewrite ?Hg; cbn;
      split; (lia || auto).
  - cbn. rewrite andb_false_r. auto.
  - cbn. auto.
Qed.

(** X1: the lifetime of the helper process in [install_vyos_image_on_node]
    of [gns3utils.py].  A helper is started only for a [pre_exec] that is
    neither [None] nor the empty string, and at most once.  When the
    function returns, the helper was started if asked for and has been
    killed, once; when it raises, nothing has been killed. *)
Theorem install_helper_lifetime
    (w : World) (node host : string) (port : Z) (pre : option string) :
  match fst (run (gns3utils.install_vyos_image_on_node node host port pre) w) with
  | Next _ =>
      count is_spawn (snd (run (gns3utils.install_vyos_image_on_node node host port pre) w))
        = (if truthy pre then 1%nat else 0%nat) /\
      count is_kill (snd (run (gns3utils.install_vyos_image_on_node node host port pre) w))
        = (if truthy pre then 1%nat else 0%nat)
  | _ =>
      (count is_spawn (snd (run (gns3utils.install_vyos_image_on_node node host port pre) w))
         <= if truthy pre then 1 else 0)%nat /\
      count is_kill (snd (run (gns3utils.install_vyos_image_on_node node host port pre) w))
        = 0%nat
  end.
Proof.
  destruct (wp_run helper_step w _ _ no_helper (install_helper w node host port pre))
    as (s & Hobs & H).
  destruct (helper_counts _ _ _ Hobs) as (Hs & Hk & _). cbn in Hs, Hk.
  rewrite <- Hs, <- Hk.
  destruct (fst (run (gns3utils.install_vyos_image_on_node node host port pre) w));
    destruct H as [H1 H2]; split; congruence.
Qed.

(** X2: the lifetime of the helper process in
    [configure_vyos_image_on_node] of [gns3utils.py].  When the function
    returns, the helper was started if asked for, and it has been killed
    unless the function gave up at the digest step (it then warned
    [Error generating file MD5 checksum.]); when the function raises,
    nothing has been killed and it did not give up. *)
Theorem configure_helper_lifetime
    (w : World) (node host : string) (port : Z) (path : string) (pre : option string) :
  match fst (run (gns3utils.configure_vyos_image_on_node node host port path pre) w) with
  | Next _ =>
      count is_spawn
        (snd (run (gns3utils.configure_vyos_image_on_node node host port path pre) w))
        = (if truthy pre then 1%nat else 0%nat) /\
      count is_kill
        (snd (run (gns3utils.configure_vyos_image_on_node node host port path pre) w))
        = (if truthy pre &&
              negb (existsb is_digest_warning
                      (snd (run (gns3utils.configure_vyos_image_on_node
                                   node host port path pre) w)))
           then 1%nat else 0%nat)
  | _ =>
      (count is_spawn
         (snd (run (gns3utils.configure_vyos_image_on_node node host port path pre) w))
         <= if truthy pre then 1 else 0)%nat /\
      count is_kill
        (snd (run (gns3utils.configure_vyos_image_on_node node host port path pre) w))
        = 0%nat /\
      existsb is_digest_warning
        (snd (run (gns3utils.configure_vyos_image_on_node node host port path pre) w))
        = false
  end.
Proof.
  destruct (wp_run helper_step w _ _ no_helper (configure_helper w node host port path pre))
    as (s & Hobs & H).
  destruct (helper_counts _ _ _ Hobs) as (Hs & Hk & Hg). cbn in Hs, Hk, Hg.
  rewrite <- Hs, <- Hk, <- Hg.
  destruct (fst (run (gns3utils.configure_vyos_image_on_node node host port path pre) w));
    exact H.
Qed.

(** ** A script file that cannot be opened *)

Lemma unreadable_script_run (w : World) (node host : string) (port : Z) (path : string)
    (e : exn) (t : nat) :
  (forall t, file_open w t path = Some e) ->
  scenario.configure_vyos_image_on_node node host port path w t =
    (Raise e, [EvFileOpen path (Some e)]).
Proof.
  intros H. unfold scenario.configure_vyos_image_on_node, md5sum_file.
  unfold def, bind, with_open, with_resource, call_unit. rewrite H. reflexivity.
Qed.

(** X3: when the script file cannot be opened, the configure procedure of
    either source file raises the error of [open] before anything else is
    done with the file or the console: the transcript ends with the failed
    [open], the console is never dialled, and a helper that was started is
    not killed. *)
Theorem unreadable_script_raises
    (w : World) (src : source_file) (node host : string) (port : Z) (path : string)
    (e : exn) :
  (forall t, file_open w t path = Some e) ->
  (forall t cmd, spawn w t cmd = None) ->
  fst (run (configure_procedure src node host port path) w) = Raise e /\
  snd (run (configure_procedure src node host port path) w) =
    match src with
    | Gns3utils (Some cmd) =>
        if String.eqb cmd "" then [EvFileOpen path (Some e)]
        else [EvSpawn cmd None; EvFileOpen path (Some e)]
    | _ => [EvFileOpen path (Some e)]
    end.
Proof.
  intros H Hsp. destruct src as [[cmd|]|]; unfold run; cbn [configure_procedure];
    [| |rewrite (unreadable_script_run w node host port path e) by assumption; auto].
  - unfold gns3utils.configure_vyos_image_on_node, md5sum_file.
    unfold def, bind, when, truthy, popen, with_open, with_resource, call_unit.
    destruct (String.eqb cmd ""); cbn; rewrite ?Hsp; cbn; rewrite H; auto.
  - unfold gns3utils.configure_vyos_image_on_node, md5sum_file.
    unfold def, bind, when, truthy, popen, with_open, with_resource, call_unit.
    cbn. rewrite H. auto.
Qed.

Lemma unreadable_script_raises_witness :
  fst (run (configure_procedure (Gns3utils viewer) "vyos-1" "localhost" 5000 script_path)
         silent_world) = Raise (OSError "ENOENT") /\
  snd (run (configure_procedure (Gns3utils viewer) "vyos-1" "localhost" 5000 script_path)
         silent_world) =
    [EvSpawn "konsole -e telnet localhost 5000" None;
     EvFileOpen script_path (Some (OSError "ENOENT"))].
Proof.
  apply (unreadable_script_raises silent_world (Gns3utils viewer) "vyos-1" "localhost" 5000
           script_path (OSError "ENOENT")); reflexivity.
Defined.

(** ** Digest lines *)

Lemma bytes_to_list_app (s t : bytes) :
  bytes_to_list (s ++ t) = (bytes_to_list s ++ bytes_to_list t)%list.
Proof.
  induction s as [|c s IH]; [reflexivity|].
  rewrite append_cons. unfold bytes_to_list in *. cbn. rewrite IH. reflexivity.
Qed.

Lemma bytes_to_list_inj (s t : bytes) : bytes_to_list s = bytes_to_list t -> s = t.
Proof.
  revert t. induction s as [|c s IH]; intros [|d t] H; try discriminate; [reflexivity|].
  unfold bytes_to_list in *. cbn in H. injection H as Hc Hs.
  f_equal; [|apply IH, Hs].
  rewrite <- (ascii_of_byte_val c), <- (ascii_of_byte_val d). congruence.
Qed.

Lemma str_eqb_literal (s t : bytes) : str_eqb (literal s) (literal t) = String.eqb s t.
Proof.
  unfold str_eqb, literal. destruct (String.eqb_spec s t) as [->|Hne].
  - apply bool_decide_eq_true. reflexivity.
  - apply bool_decide_eq_false. intros H. apply Hne, bytes_to_list_inj, H.
Qed.

Lemma decode_ascii_cons (a : ascii) (r : bytes) :
  is_ascii a = true -> Utf8.decode (String a r) = cons (byte_val a) <$> Utf8.decode r.
Proof. intros H. unfold is_ascii in H. cbn [Utf8.decode]. rewrite H. reflexivity. Qed.

Lemma decode_ascii_app (p r : bytes) :
  all_bytes is_ascii p = true ->
  Utf8.decode (p ++ r) = app (bytes_to_list p) <$> Utf8.decode r.
Proof.
  induction p as [|a p IH]; intros H.
  - change (EmptyString ++ r) with r. destruct (Utf8.decode r); reflexivity.
  - cbn in H. apply andb_prop in H as [Ha Hp].
    rewrite append_cons, decode_ascii_cons, (IH Hp) by assumption.
    destruct (Utf8.decode r); reflexivity.
Qed.

Lemma hex_digit_plain (c : ascii) :
  is_hex_digit c = true -> is_ascii c = true /\ isspace (byte_val c) = false.
Proof.
  destruct c as [[] [] [] [] [] [] [] []]; intros H; try discriminate H; split; reflexivity.
Qed.

Lemma hex_digits_ascii (digits : bytes) :
  all_bytes is_hex_digit digits = true -> all_bytes is_ascii digits = true.
Proof.
  induction digits as [|c s IH]; [reflexivity|]. cbn. intros H.
  apply andb_prop in H as [Hc Hs]. rewrite (proj1 (hex_digit_plain c Hc)), (IH Hs).
  reflexivity.
Qed.

Lemma take_token_digits (digits : bytes) (rest : pystr) :
  all_bytes is_hex_digit digits = true ->
  take_token (bytes_to_list digits ++ 32%N :: rest) = bytes_to_list digits.
Proof.
  induction digits as [|c s IH]; [reflexivity|]. cbn [all_bytes]. intros H.
  apply andb_prop in H as [Hc Hs]. unfold bytes_to_list in *. cbn.
  rewrite (proj2 (hex_digit_plain c Hc)), (IH Hs). reflexivity.
Qed.

Lemma first_token_digits (digits : bytes) (rest : pystr) :
  all_bytes is_hex_digit digits = true -> String.length digits = 32%nat ->
  first_token (bytes_to_list digits ++ 32%N :: rest) = Some (bytes_to_list digits).
Proof.
  destruct digits as [|c s]; [discriminate|]. cbn [all_bytes]. intros H _.
  apply andb_prop in H as [Hc Hs].
  pose proof (take_token_digits s rest Hs) as Ht. unfold bytes_to_list in *. cbn.
  rewrite (proj2 (hex_digit_plain c Hc)), Ht. reflexivity.
Qed.

(** What [decode("utf-8")] and [split()[0]] make of a digest line. *)
Lemma digest_line_read (line digits : bytes) (dot : ascii) :
  is_digest_line line digits dot ->
  if is_ascii dot
  then exists s, Utf8.decode line = Some s /\ first_token s = Some (literal digits)
  else Utf8.decode line = None.
Proof.
  intros (-> & Hlen & Hhex & _). unfold digest_line.
  rewrite decode_ascii_app by (apply hex_digits_ascii, Hhex).
  change ("  config" ++ String dot "sh") with
    (String " " (String " " (String "c" (String "o" (String "n" (String "f" (String "i"
       (String "g" (String dot "sh"))))))))).
  do 8 (rewrite decode_ascii_cons by reflexivity).
  destruct (is_ascii dot) eqn:Hdot.
  - rewrite decode_ascii_cons by assumption. cbn.
    eexists. split; [reflexivity|]. apply first_token_digits; assumption.
  - revert Hdot. clear.
    destruct dot as [[] [] [] [] [] [] [] []]; intros H; try discriminate H; reflexivity.
Qed.

Lemma shows_digest_of_line (w : World) (digits : bytes) (dot : ascii) :
  shows_digest_line w digits dot -> is_ascii dot = true ->
  shows_digest w (literal digits).
Proof.
  intros H Hdot t timeout out Hout.
  destruct (H t timeout out Hout) as (Hidx & line & Hm & Hline).
  split; [rewrite Hidx; discriminate|].
  pose proof (digest_line_read _ _ _ Hline) as Hread. rewrite Hdot in Hread.
  destruct Hread as (s & Hs & Htok). eauto.
Qed.

(** *** The local digest *)

Lemma hex_digit_is_hex (x : Z) : is_hex_digit (MD5.hex_digit x) = true.
Proof.
  unfold MD5.hex_digit. destruct (Z.to_nat x) as [|n]; [reflexivity|].
  do 15 (destruct n as [|n]; [reflexivity|]). reflexivity.
Qed.

Lemma hex_of_form (l : list Z) :
  String.length (MD5.hex_of l) = (2 * length l)%nat /\
  all_bytes is_hex_digit (MD5.hex_of l) = true.
Proof.
  induction l as [|x l [IHlen IHhex]]; [split; reflexivity|].
  cbn [MD5.hex_of all_bytes String.length length]. rewrite !hex_digit_is_hex, IHlen, IHhex.
  split; [lia | reflexivity].
Qed.

Lemma hexdigest_form (data : bytes) :
  String.length (MD5.hexdigest data) = 32%nat /\
  all_bytes is_hex_digit (MD5.hexdigest data) = true.
Proof.
  unfold MD5.hexdigest. destruct (hex_of_form (MD5.digest data)) as [Hlen Hhex].
  split; [|exact Hhex]. rewrite Hlen. unfold MD5.digest.
  rewrite !length_app. reflexivity.
Qed.

(** *** The comparison of the digests *)

Lemma prompting_shows_digest_line (files : gmap string bytes) (digits : bytes) :
  String.length digits = 32%nat -> all_bytes is_hex_digit digits = true ->
  shows_digest_line (console_world files (prompting digits)) digits "."%char.
Proof.
  intros Hlen Hhex t timeout out Hout. cbn in Hout. injection Hout as <-.
  split; [reflexivity|]. eexists. split; [reflexivity|].
  repeat split; assumption.
Qed.

(** X4: what the configure procedure compares.  On a console on which no
    call raises and whose output decodes, when the wait for the digest
    line finds a line that the pattern matches in full (32 lowercase
    hexadecimal digits, two spaces, [config], any 7-bit byte but a line
    feed where the pattern has its unescaped dot, [sh]), the procedure
    runs to its end, writes all nine commands, and warns
    [Checksums do not match.] exactly when the 32 digits differ from the
    MD5 hex digest of the bytes of the local file. *)
Theorem digest_line_compared
    (w : World) (src : source_file) (node host : string) (port : Z) (path : string)
    (content digits : bytes) (dot : ascii) :
  responsive w -> shows_digest_line w digits dot -> is_ascii dot = true ->
  holds_file w path content ->
  fst (run (configure_procedure src node host port path) w) = Next tt /\
  writes (snd (run (configure_procedure src node host port path) w)) =
    (configure_upload (Base64.b64encode content) ++ configure_execute)%list /\
  warnings (snd (run (configure_procedure src node host port path) w)) =
    if String.eqb digits (MD5.hexdigest content) then [] else [mismatch_warning].
Proof.
  intros H Hs Hdot Hf. rewrite <- str_eqb_literal.
  apply configure_run_responsive; [assumption| |assumption].
  apply (shows_digest_of_line w digits dot); assumption.
Qed.

Lemma digest_line_compared_witness :
  fst (run (configure_procedure Scenario "vyos-1" "localhost" 5000 script_path)
         mismatch_world) = Next tt /\
  writes (snd (run (configure_procedure Scenario "vyos-1" "localhost" 5000 script_path)
                 mismatch_world)) =
    (configure_upload (Base64.b64encode script_content) ++ configure_execute)%list /\
  warnings (snd (run (configure_procedure Scenario "vyos-1" "localhost" 5000 script_path)
                   mismatch_world)) =
    if String.eqb "00000000000000000000000000000000" (MD5.hexdigest script_content)
    then [] else [mismatch_warning].
Proof.
  apply (digest_line_compared mismatch_world Scenario "vyos-1" "localhost" 5000 script_path
           script_content "00000000000000000000000000000000" "."%char).
  - exact mismatch_responsive.
  - apply prompting_shows_digest_line; reflexivity.
  - reflexivity.
  - apply script_files_hold.
Defined.

(** X5: the local digest has the form that the digest pattern looks for.
    Whenever [md5sum_file] returns, its value is a string of 32
    characters, each one of [0-9a-f], so the line that [md5sum config.sh]
    prints for an intact upload is matched in full by
    [[0-9a-f]{32}  config.sh]. *)
Theorem md5sum_file_form (w : World) (t : nat) (fname : string) (s : pystr)
    (es : list event) :
  md5sum_file fname w t = (Next s, es) ->
  exists digits,
    s = literal digits /\
    is_digest_line (digest_line digits "."%char) digits "."%char.
Proof.
  unfold md5sum_file, bind, with_open, with_resource, call_unit, read, call_value, ret.
  destruct (file_open w t fname); [discriminate|]. cbn [length].
  destruct (file_read w (t + 1) fname) as [e|content]; [discriminate|].
  intros [= <- <-]. exists (MD5.hexdigest content).
  destruct (hexdigest_form content) as [Hlen Hhex].
  split; [reflexivity|]. repeat split; assumption.
Qed.

Lemma md5sum_file_form_witness :
  exists digits,
    literal script_digest = literal digits /\
    is_digest_line (digest_line digits "."%char) digits "."%char.
Proof.
  apply (md5sum_file_form prompting_world 0 script_path (literal script_digest)
           [EvFileOpen script_path None; EvFileRead script_path (inr script_content);
            EvFileClose script_path]).
  vm_compute. reflexivity.
Defined.

(** ** The upload command as a line *)

Lemma length_append (s t : bytes) :
  String.length (s ++ t) = (String.length s + String.length t)%nat.
Proof.
  induction s as [|c s IH]; [reflexivity|].
  rewrite append_cons. cbn. rewrite IH. reflexivity.
Qed.

Lemma append_assoc (s t u : bytes) : (s ++ t) ++ u = s ++ (t ++ u).
Proof.
  induction s as [|c s IH]; [reflexivity|].
  rewrite !append_cons, IH. reflexivity.
Qed.

Lemma all_bytes_app (p : ascii -> bool) (s t : bytes) :
  all_bytes p (s ++ t) = all_bytes p s && all_bytes p t.
Proof.
  induction s as [|c s IH]; [reflexivity|].
  rewrite append_cons. cbn. rewrite IH. apply andb_assoc.
Qed.

Lemma all_bytes_impl (p q : ascii -> bool) (s : bytes) :
  (forall c, p c = true -> q c = true) -> all_bytes p s = true -> all_bytes q s = true.
Proof.
  intros Hpq. induction s as [|c s IH]; [reflexivity|]. cbn. intros H.
  apply andb_prop in H as [Hc Hs]. rewrite (Hpq c Hc), (IH Hs). reflexivity.
Qed.

Lemma b64_char_line (c : ascii) :
  Base64.is_b64_char c = true -> is_ascii c && not_line_feed c = true.
Proof.
  destruct c as [[] [] [] [] [] [] [] []]; intros H; try discriminate H; reflexivity.
Qed.

Lemma b64encode_length (s : bytes) :
  String.length (Base64.b64encode s) = (4 * ((String.length s + 2) / 3))%nat.
Proof.
  induction s as [|a|a b|a b c rest IH] using Base64Facts.bytes_ind3; try reflexivity.
  cbn [Base64.b64encode String.length]. rewrite IH.
  replace (S (S (S (String.length rest))) + 2)%nat
    with ((String.length rest + 2) + 1 * 3)%nat by lia.
  rewrite Nat.div_add by discriminate. lia.
Qed.

(** X6: the upload command is one line of 7-bit bytes, whatever the file
    holds: its only line feed is its last byte, and it is
    [22 + 4 * ceil (n / 3)] bytes long for a file of [n] bytes. *)
Theorem upload_command_one_line (content : bytes) :
  String.length (upload_command (Base64.b64encode content)) =
    (22 + 4 * ((String.length content + 2) / 3))%nat /\
  exists line,
    upload_command (Base64.b64encode content) = line ++ LF /\
    all_bytes (fun c => is_ascii c && not_line_feed c) line = true.
Proof.
  unfold upload_command. split.
  - rewrite !length_append, b64encode_length. cbn. lia.
  - exists ("echo '" ++ Base64.b64encode content ++ "' >> config.b64"). split.
    + rewrite !append_assoc. reflexivity.
    + rewrite !all_bytes_app.
      rewrite (all_bytes_impl _ _ _ b64_char_line (Base64Facts.encode_alphabet content)).
      reflexivity.
Qed.

(** ** Nothing before the login banner *)

Lemma banner_greeted (data : bytes) (s : pystr) :
  Utf8.decode data = Some s ->
  banner_step NoBanner (EvReadUntil "vyos login:" (inr data)) = Some Greeted.
Proof. intros H. cbn. rewrite H. reflexivity. Qed.

Lemma banner_garbled (data : bytes) :
  Utf8.decode data = None ->
  banner_step NoBanner (EvReadUntil "vyos login:" (inr data)) = Some Garbled.
Proof. intros H. cbn. rewrite H. reflexivity. Qed.

#[local] Hint Resolve banner_greeted banner_garbled : wp_steps.

(** The answer to the wait for the banner, with what decoding makes of it. *)
Ltac banner_answer x :=
  lazymatch x with
  | telnet_read_until _ _ _ =>
      let e := fresh "e" in
      let data := fresh "data" in
      let Hd := fresh "Hd" in
      destruct x as [e|data]; [|destruct (Utf8.decode data) eqn:Hd]
  | _ => destruct x
  end.

Ltac banner_walk := repeat wp_step_by ltac:(fun x => banner_answer x).

Lemma install_dialogue_banner (w : World) :
  wp banner_step w install_dialogue (fun _ _ => True) NoBanner.
Proof. unfold install_dialogue. banner_walk; exact I. Qed.

Lemma configure_dialogue_banner (w : World) (local : pystr) (config : bytes) :
  wp banner_step w (configure_dialogue local config) (fun _ _ => True) NoBanner.
Proof. unfold configure_dialogue. banner_walk; exact I. Qed.

Lemma install_banner (w : World) (node host : string) (port : Z) (pre : option string) :
  wp banner_step w (gns3utils.install_vyos_image_on_node node host port pre)
    (fun _ _ => True) NoBanner.
Proof.
  unfold gns3utils.install_vyos_image_on_node.
  apply wp_def, wp_bind.
  apply wp_mono with (Q := fun _ s => s = NoBanner); [wp_walk; reflexivity|].
  intros r s ->. destruct r; [|exact I..].
  apply wp_bind. unfold with_telnet. apply wp_with_resource.
  wp_step; [exact I|].
  eapply wp_mono; [apply install_dialogue_banner|].
  intros r s _. eexists. split; [reflexivity|].
  destruct r; [|exact I..]. wp_walk; exact I.
Qed.

Lemma configure_banner (w : World) (node host : string) (port : Z) (path : string)
    (pre : option string) :
  wp banner_step w (gns3utils.configure_vyos_image_on_node node host port path pre)
    (fun _ _ => True) NoBanner.
Proof.
  unfold gns3utils.configure_vyos_image_on_node.
  apply wp_def, wp_bind.
  apply wp_mono with (Q := fun _ s => s = NoBanner); [wp_walk; reflexivity|].
  intros r s ->. destruct r; [|exact I..].
  apply wp_bind.
  apply wp_mono with (Q := fun _ s => s = NoBanner);
    [unfold md5sum_file; wp_walk; reflexivity|].
  intros r s ->. destruct r as [local| |]; [|exact I..].
  apply wp_bind.
  apply wp_mono with (Q := fun _ s => s = NoBanner); [wp_walk; reflexivity|].
  intros r s ->. destruct r as [config| |]; [|exact I..].
  apply wp_bind. unfold with_telnet. apply wp_with_resource.
  wp_step; [exact I|].
  eapply wp_mono; [apply configure_dialogue_banner|].
  intros r s _. eexists. split; [reflexivity|].
  destruct r; [|exact I..]. wp_walk; exact I.
Qed.

Lemma banner_step_quiet (s s' : banner_state) (e : event) :
  banner_step s e = Some s' -> is_console_call e = false -> s' = s.
Proof. destruct e; cbn; intros H He; try discriminate He; congruence. Qed.

Lemma banner_step_call (s s' : banner_state) (e : event) :
  banner_step s e = Some s' -> is_console_call e = true ->
  match s with
  | NoBanner =>
      is_banner_wait e = true /\
      (s' = Greeted -> exists data str, e = EvReadUntil "vyos login:" (inr data) /\
                                         Utf8.decode data = Some str)
  | Garbled => False
  | Greeted => s' = Greeted
  end.
Proof.
  destruct e; cbn; intros H He; try discriminate He; destruct s; try discriminate H;
    try congruence.
  destruct (String.eqb_spec expected "vyos login:") as [->|]; [|discriminate H].
  split; [reflexivity|]. intros ->.
  destruct res as [e|data]; [discriminate H|].
  destruct (Utf8.decode data) as [str|] eqn:Hd; [|discriminate H]. eauto.
Qed.

Lemma banner_accepted (es : list event) :
  forall s s', observe banner_step s es = Some s' ->
  forall pre e post,
    es = (pre ++ e :: post)%list -> is_console_call e = true ->
    match s with
    | NoBanner =>
        is_banner_wait e = true /\ Forall (fun e' => is_console_call e' = false) pre \/
        greeted pre
    | Garbled => False
    | Greeted => True
    end.
Proof.
  induction es as [|e0 es IH]; intros s s' Hobs pre e post Hes He.
  - destruct pre; discriminate Hes.
  - cbn [observe] in Hobs. destruct (banner_step s e0) as [s1|] eqn:Hstep; [|discriminate].
    destruct pre as [|e1 pre]; cbn in Hes; injection Hes as <- ->.
    + pose proof (banner_step_call _ _ _ Hstep He) as Hcall.
      destruct s; [left; split; [tauto | constructor] | exact Hcall | exact I].
    + specialize (IH _ _ Hobs pre e post eq_refl He).
      destruct (is_console_call e0) eqn:He0.
      * pose proof (banner_step_call _ _ _ Hstep He0) as Hcall.
        destruct s; [|exact Hcall|exact I].
        destruct Hcall as [_ Hg]. destruct s1; [| |].
        -- destruct IH as [[_ Hpre]|(data & str & Hin & Hd)].
           ++ right. destruct e0; discriminate || (cbn in Hstep; revert Hstep;
                repeat case_match; discriminate).
           ++ right. exists data, str. split; [right; exact Hin | exact Hd].
        -- destruct IH.
        -- destruct (Hg eq_refl) as (data & str & -> & Hd).
           right. exists data, str. split; [left; reflexivity | exact Hd].
      * rewrite (banner_step_quiet _ _ _ Hstep He0) in IH.
        destruct s; [|exact IH|exact I].
        destruct IH as [[Hw Hpre]|(data & str & Hin & Hd)].
        -- left. split; [exact Hw | constructor; assumption].
        -- right. exists data, str. split; [right; exact Hin | exact Hd].
Qed.

(** X7: nothing is asked of the console before the login banner.  In both
    procedures of both source files and in every world, the first call on
    the console is the wait for [vyos login:], and every later call
    (every write and every wait of the dialogue) comes after that wait has
    returned bytes that decode as UTF-8; if it raises, or returns bytes
    that do not decode, nothing is written. *)
Theorem banner_comes_first
    (w : World) (src : source_file) (node host : string) (port : Z) (path : string) :
  banner_first (snd (run (install_procedure src node host port) w)) /\
  banner_first (snd (run (configure_procedure src node host port path) w)).
Proof.
  split.
  - destruct (wp_run banner_step w (install_procedure src node host port) _ NoBanner
                (install_procedure_wp _ _ _ _ _ _ _ _
                   (fun pre => install_banner w node host port pre)))
      as (s & Hobs & _).
    intros pre e post Hes He. exact (banner_accepted _ _ _ Hobs pre e post Hes He).
  - destruct (wp_run banner_step w (configure_procedure src node host port path) _ NoBanner
                (configure_procedure_wp _ _ _ _ _ _ _ _ _
                   (fun pre => configure_banner w node host port path pre)))
      as (s & Hobs & _).
    intros pre e post Hes He. exact (banner_accepted _ _ _ Hobs pre e post Hes He).
Qed.

(** ** The uploaded script is run only after the digest step *)

Lemma script_checked_warn (out : expect_tuple) (g : bytes) (s tok : pystr) :
  out_match out = Some g -> Utf8.decode g = Some s -> first_token s = Some tok ->
  script_step (Found out) (EvWarn mismatch_warning) = Some Checked.
Proof. intros Hm Hd Ht. cbn. unfold digest_of. rewrite Hm, Hd, Ht. reflexivity. Qed.

Lemma script_checked_print (out : expect_tuple) (g : bytes) (s tok text : pystr) :
  out_match out = Some g -> Utf8.decode g = Some s -> first_token s = Some tok ->
  script_step (Found out) (EvPrint text) = Some Checked.
Proof. intros Hm Hd Ht. cbn. unfold digest_of. rewrite Hm, Hd, Ht. reflexivity. Qed.

#[local] Hint Resolve script_checked_warn script_checked_print : wp_steps.

(** The events that tell of the digest need the hints. *)
Ltac script_emit :=
  lazymatch goal with
  | |- wp _ _ (emit _) _ _ => eapply wp_emit; [solve [eauto with wp_steps]|]; wp_leaf
  end.

Ltac script_walk := repeat first [wp_step | script_emit].

Lemma configure_dialogue_script (w : World) (local : pystr) (config : bytes) :
  wp script_step w (configure_dialogue local config) (fun _ _ => True) Unchecked.
Proof. unfold configure_dialogue. script_walk; exact I. Qed.

Lemma configure_script (w : World) (node host : string) (port : Z) (path : string)
    (pre : option string) :
  wp script_step w (gns3utils.configure_vyos_image_on_node node host port path pre)
    (fun _ _ => True) Unchecked.
Proof.
  unfold gns3utils.configure_vyos_image_on_node.
  apply wp_def, wp_bind.
  apply wp_mono with (Q := fun _ s => s = Unchecked); [wp_walk; reflexivity|].
  intros r s ->. destruct r; [|exact I..].
  apply wp_bind.
  apply wp_mono with (Q := fun _ s => s = Unchecked);
    [unfold md5sum_file; wp_walk; reflexivity|].
  intros r s ->. destruct r as [local| |]; [|exact I..].
  apply wp_bind.
  apply wp_mono with (Q := fun _ s => s = Unchecked); [wp_walk; reflexivity|].
  intros r s ->. destruct r as [config| |]; [|exact I..].
  apply wp_bind. unfold with_telnet. apply wp_with_resource.
  wp_step; [exact I|].
  eapply wp_mono; [apply configure_dialogue_script|].
  intros r s _. eexists. split; [reflexivity|].
  destruct r; [|exact I..]. wp_walk; exact I.
Qed.

Lemma verified_cons (e : event) (pre : list event) : verified pre -> verified (e :: pre).
Proof.
  intros (timeout & out & Hin & Hidx & Hd). exists timeout, out.
  split; [right; exact Hin | auto].
Qed.

Lemma script_accepted (es : list event) :
  forall s s', observe script_step s es = Some s' ->
  forall pre data err post,
    es = (pre ++ EvWrite data err :: post)%list -> is_execution data = true ->
    match s with
    | Unchecked => verified pre
    | Found out => verified pre \/ is_Some (digest_of out)
    | Checked => True
    end.
Proof.
  induction es as [|e0 es IH]; intros s s' Hobs pre data err post Hes Hex.
  - destruct pre; discriminate Hes.
  - cbn [observe] in Hobs. destruct (script_step s e0) as [s1|] eqn:Hstep; [|discriminate].
    destruct pre as [|e1 pre]; cbn in Hes; injection Hes as -> ->.
    + cbn in Hstep. rewrite Hex in Hstep. destruct s; (discriminate Hstep || exact I).
    + specialize (IH _ _ Hobs pre data err post eq_refl Hex).
      destruct s as [|out|]; [| |exact I].
      * (* nothing found so far *)
        destruct e1; cbn in Hstep;
          try (injection Hstep as <-; apply verified_cons, IH).
        -- destruct (is_execution data0); [discriminate Hstep|].
           injection Hstep as <-. apply verified_cons, IH.
        -- destruct res as [e|out]; [injection Hstep as <-; apply verified_cons, IH|].
           destruct (is_digest_wait patterns) eqn:Hp;
             [|injection Hstep as <-; apply verified_cons, IH].
           apply is_digest_wait_spec in Hp as ->.
           destruct (out_index out =? -1)%Z eqn:Hidx;
             injection Hstep as <-; [apply verified_cons, IH|].
           apply Z.eqb_neq in Hidx.
           destruct IH as [IH|Hd]; [apply verified_cons, IH|].
           exists timeout, out. split; [left; reflexivity | auto].
      * (* a digest line was found *)
        assert (Hsame : s1 = Found out -> verified (e1 :: pre) \/ is_Some (digest_of out)).
        { intros ->. destruct IH as [IH|Hd]; [left; apply verified_cons, IH | right; exact Hd]. }
        destruct e1; cbn in Hstep; try (injection Hstep as <-; apply Hsame; reflexivity).
        -- destruct (is_execution data0); [discriminate Hstep|].
           injection Hstep as <-. apply Hsame. reflexivity.
        -- destruct res as [e|out']; [injection Hstep as <-; apply Hsame; reflexivity|].
           destruct (is_digest_wait patterns) eqn:Hp;
             [|injection Hstep as <-; apply Hsame; reflexivity].
           apply is_digest_wait_spec in Hp as ->.
           destruct (out_index out' =? -1)%Z eqn:Hidx;
             injection Hstep as <-; [apply Hsame; reflexivity|].
           apply Z.eqb_neq in Hidx. left.
           destruct IH as [IH|Hd]; [apply verified_cons, IH|].
           exists timeout, out'. split; [left; reflexivity | auto].
        -- destruct (digest_of out) eqn:Hd; [right; eauto | discriminate Hstep].
        -- destruct (String.eqb message mismatch_warning);
             [|injection Hstep as <-; apply Hsame; reflexivity].
           destruct (digest_of out) eqn:Hd; [right; eauto | discriminate Hstep].
Qed.

(** X8: the uploaded script is run only after the digest step.  In every
    world and in both source files, a write of [chmod +x config.sh] or of
    [./config.sh] comes after a wait for the digest line that did not
    come back with index [-1] and from whose match a digest could be read
    ([out[1].group().decode("utf-8").split()[0]] did not raise): the
    script is never run when no digest line was found, whatever else goes
    wrong. *)
Theorem script_run_only_after_digest
    (w : World) (src : source_file) (node host : string) (port : Z) (path : string) :
  run_after_digest (snd (run (configure_procedure src node host port path) w)).
Proof.
  destruct (wp_run script_step w (configure_procedure src node host port path) _ Unchecked
              (configure_procedure_wp _ _ _ _ _ _ _ _ _
                 (fun pre => configure_script w node host port path pre)))
    as (s & Hobs & _).
  intros pre data err post Hes Hex.
  exact (script_accepted _ _ _ Hobs pre data err post Hes Hex).
Qed.

(** * The GNS3 API *)

(** ** Rules for [api_wp] *)
Section ApiRules.

Variable c : Controller.

Lemma api_wp_ret {A} (a : A) (Q : error + A -> list api_event -> Prop) :
  Q (inr a) [] -> api_wp c (api_ret a) Q.
Proof. intros H t. exact H. Qed.

Lemma api_wp_raise {A} (e : error) (Q : error + A -> list api_event -> Prop) :
  Q (inl e) [] -> api_wp c (api_raise e) Q.
Proof. intros H t. exact H. Qed.

Lemma api_wp_emit (e : api_event) (Q : error + unit -> list api_event -> Prop) :
  Q (inr tt) [e] -> api_wp c (api_emit e) Q.
Proof. intros H t. exact H. Qed.

Lemma api_wp_bind {A B} (m : Api A) (k : A -> Api B)
    (Q : error + B -> list api_event -> Prop) :
  api_wp c m
    (fun r es =>
       match r with
       | inr a => api_wp c (k a) (fun r' es' => Q r' (es ++ es')%list)
       | inl e => Q (inl e) es
       end) ->
  api_wp c (api_bind m k) Q.
Proof.
  intros H t. specialize (H t). unfold api_bind.
  destruct (m c t) as [[e|a] es]; cbn in *; [exact H|].
  specialize (H (t + length es)%nat).
  destruct (k a c (t + length es)%nat) as [r es']. exact H.
Qed.

Lemma api_wp_send (method : verb) (url : list piece) (data : payload) (server : Server)
    (Q : error + response -> list api_event -> Prop) :
  (forall t,
     Q (match respond c t method url data (user server, password server) with
        | inr r => inr r
        | inl e => inl (Py e)
        end)
       [EvRequest method url data
          (respond c t method url data (user server, password server))]) ->
  api_wp c (send method url data server) Q.
Proof.
  intros H t. specialize (H t). unfold send.
  destruct (respond c t method url data (user server, password server)); exact H.
Qed.

Lemma api_wp_pause_for (milliseconds : Z) (Q : error + unit -> list api_event -> Prop) :
  (0 <= milliseconds)%Z -> (forall t, sleeps c t milliseconds = None) ->
  Q (inr tt) [EvPause milliseconds] -> api_wp c (pause_for milliseconds) Q.
Proof.
  intros Hs Hsleeps H t. unfold pause_for.
  destruct (Z.ltb_spec milliseconds 0) as [Hneg|_]; [lia|].
  rewrite Hsleeps. exact H.
Qed.

Lemma api_wp_int_half (n : Z) (Q : error + Z -> list api_event -> Prop) :
  (Z.abs n < 2 ^ 53)%Z -> Q (inr (Z.quot n 2)) [] -> api_wp c (int_half n) Q.
Proof.
  intros Hn H t. unfold int_half, float_half.
  destruct (Z.ltb_spec (Z.abs n) (2 ^ 53)) as [_|Hbig]; [exact H|lia].
Qed.

Lemma api_wp_mono {A} (m : Api A) (Q Q' : error + A -> list api_event -> Prop) :
  api_wp c m Q -> (forall r es, Q r es -> Q' r es) -> api_wp c m Q'.
Proof. intros H HQ t. apply HQ, H. Qed.

Lemma api_wp_run {A} (m : Api A) (Q : error + A -> list api_event -> Prop) :
  api_wp c m Q -> Q (fst (api_run m c)) (snd (api_run m c)).
Proof. intros H. apply H. Qed.

End ApiRules.

(** ** [int(n/2)] and [time.sleep(t)] at the ends of their ranges *)

Lemma float_half_exact (n : Z) :
  (Z.abs n < 2 ^ 53)%Z -> float_half n = Some (Z.quot n 2).
Proof.
  intros Hn. unfold float_half.
  destruct (Z.ltb_spec (Z.abs n) (2 ^ 53)) as [_|Hbig]; [reflexivity|lia].
Qed.

(** From 2^53 on the division rounds its argument to 53 bits, ties to
    even: [int((2**53+3)/2)] is [4503599627370498], not
    [4503599627370497]. *)
Lemma float_half_rounds :
  float_half (2 ^ 53 + 1) = Some 4503599627370496%Z /\
  float_half (2 ^ 53 + 3) = Some 4503599627370498%Z /\
  float_half (- (2 ^ 53 + 3)) = Some (-4503599627370498)%Z /\
  float_half (2 ^ 54 + 6) = Some 9007199254740996%Z.
Proof. repeat split; vm_compute; reflexivity. Qed.

(** [int(10**400/2)] raises [OverflowError]; the largest [int] that can be
    halved is below [2^1025 - 2^971]. *)
Lemma float_half_overflows :
  float_half (10 ^ 400) = None /\
  float_half (2 ^ 1025 - 2 ^ 971) = None /\
  float_half (2 ^ 1025 - 2 ^ 971 - 1) = Some (2 ^ 1024 - 2 ^ 971)%Z.
Proof. repeat split; vm_compute; reflexivity. Qed.

Lemma int_half_overflow (c : Controller) (t : nat) :
  int_half (10 ^ 400) c t = (inl OverflowError, []).
Proof.
  unfold int_half. replace (float_half (10 ^ 400)) with (@None Z); [reflexivity|].
  symmetry. exact (proj1 float_half_overflows).
Qed.

Lemma pause_for_negative (c : Controller) (t : nat) (milliseconds : Z) :
  (milliseconds < 0)%Z -> pause_for milliseconds c t = (inl (Py ValueError), []).
Proof.
  intros Hneg. unfold pause_for.
  destruct (Z.ltb_spec milliseconds 0) as [_|Hs]; [reflexivity|lia].
Qed.

Lemma pause_for_refused (c : Controller) (t : nat) (milliseconds : Z) (e : error) :
  (0 <= milliseconds)%Z -> sleeps c t milliseconds = Some e ->
  pause_for milliseconds c t = (inl e, [EvNoPause milliseconds e]).
Proof.
  intros Hs He. unfold pause_for.
  destruct (Z.ltb_spec milliseconds 0) as [Hneg|_]; [lia|]. rewrite He. reflexivity.
Qed.

Lemma posts_app (es1 es2 : list api_event) :
  posts (es1 ++ es2) = (posts es1 ++ posts es2)%list.
Proof. apply omap_app. Qed.


Lemma pauses_app (es1 es2 : list api_event) :
  pauses (es1 ++ es2) = (pauses es1 ++ pauses es2)%list.
Proof. apply omap_app. Qed.


(** ** Walking through a program of requests *)

Ltac api_unfold :=
  unfold check_status, parsed, field, check, pause, say, say_on, caution,
    py_mod, ipv4_add, ipv4_sub, ipv4, matches, create_node, create_link, start_node.

(** One step; [answer x] says what is known of the answer [x] of the
    server to a request. *)
Ltac api_step_by answer :=
  lazymatch goal with
  | |- api_wp _ (api_bind _ _) _ => apply api_wp_bind
  | |- api_wp ?c (send ?method ?url ?data ?server) _ =>
      apply api_wp_send;
      let t := fresh "t" in
      intros t;
      answer (respond c t method url data (user server, password server));
      cbv beta iota
  | |- api_wp _ (api_ret _) _ => apply api_wp_ret; cbv beta iota
  | |- api_wp _ (api_raise _) _ => apply api_wp_raise; cbv beta iota
  | |- api_wp _ (api_emit _) _ => apply api_wp_emit; cbv beta iota
  | |- api_wp _ (pause_for _) _ =>
      apply api_wp_pause_for; [assumption|assumption|]; cbv beta iota
  | |- api_wp _ (int_half _) _ =>
      apply api_wp_int_half; [assumption|]; cbv beta iota
  | |- api_wp _ (if ?b then _ else _) _ =>
      first [ match goal with H : b = _ |- _ => rewrite H end | destruct b eqn:? ]
  | |- api_wp _ (match ?x with _ => _ end) _ =>
      first [ match goal with H : x = _ |- _ => rewrite H end | destruct x eqn:? ]
  | |- api_wp _ (let _ := _ in _) _ => cbv zeta
  | |- api_wp _ _ _ => progress api_unfold
  end.

Ltac api_step := api_step_by ltac:(fun x => destruct x).

Ltac api_walk := repeat api_step.

(** The answers of an accepting server [H : accepting c server project]. *)
Ltac accepting_answer H x :=
  let r := fresh "r" in
  let fields := fresh "fields" in
  let ident := fresh "ident" in
  let Heq := fresh "Heq" in
  let Hok := fresh "Hok" in
  let Hbody := fresh "Hbody" in
  let Hid := fresh "Hid" in
  lazymatch x with
  | respond _ ?t Post [Text (project_url _ _ "/templates/"); Value ?v] ?data _ =>
      destruct (accepts_nodes _ _ _ H t v data) as (r & fields & ident & Heq & Hok & Hbody & Hid);
      unfold status_ok in Hok; rewrite Heq; clear Heq
  | respond _ ?t Post [Text (project_url _ _ "/links")] ?data _ =>
      destruct (accepts_links _ _ _ H t data) as (r & fields & ident & Heq & Hok & Hbody & Hid);
      unfold status_ok in Hok; rewrite Heq; clear Heq
  | respond _ ?t Post [Text (project_url _ _ "/nodes/"); Value ?v; Text _] ?data _ =>
      destruct (accepts_files _ _ _ H t v data) as (r & Heq & Hok);
      unfold status_ok in Hok; rewrite Heq; clear Heq
  | respond _ ?t Post [Text (project_url _ _ "/drawings")] ?data _ =>
      destruct (accepts_drawings _ _ _ H t data) as (r & Heq & Hok);
      unfold status_ok in Hok; rewrite Heq; clear Heq
  | _ => destruct x
  end.

Ltac accepting_walk H := repeat api_step_by ltac:(fun x => accepting_answer H x).

(** ** The cluster of devices *)


Section Cluster.

Variable c : Controller.
Variable server : Server.
Variable project : Project.
Hypothesis Hacc : accepting c server project.











Lemma rejected_cluster_wp (num_devices start_x start_y : Z)
    (switch_template_id device_template_id : json) (start_ip devices_per_row : Z) :
  (num_devices < 0)%Z -> (Z.abs devices_per_row < 2 ^ 53)%Z ->
  api_wp c
    (gns3utils_api.create_cluster_of_devices server project num_devices start_x start_y
       switch_template_id device_template_id start_ip devices_per_row)
    (fun r es =>
       r = inl (Py AssertionError) /\
       posts es =
         [node_request server project switch_template_id
            (start_x + Z.quot devices_per_row 2 * grid_unit project)%Z
            (start_y - grid_unit project)%Z]).
Proof.
  intros Hnum Hhalf.
  assert (Hlt : (num_devices <? 64)%Z = true) by lia.
  unfold gns3utils_api.create_cluster_of_devices. accepting_walk Hacc.
  unfold create_devices, range. rewrite Z2Nat.nonpos by lia. cbn [seq map for_each].
  assert (Hne : (Z.of_nat (length (@nil json)) =? num_devices)%Z = false)
    by (apply Z.eqb_neq; cbn [length Z.of_nat]; lia).
  accepting_walk Hacc. split; reflexivity.
Qed.

End Cluster.

Lemma grid_server_accepting (server : Server) (project : Project) :
  accepting grid_server server project.
Proof.
  constructor; intros; cbn.
  - eexists _, _, _. repeat split.
  - eexists _, _, _. repeat split.
  - eexists. repeat split.
  - eexists. repeat split.
Qed.





(** X11: the sizes that [create_cluster_of_devices] of [gns3utils.py]
    refuses.  For 64 devices or more the assertion fails before anything
    is sent.  A negative number passes that assertion: with
    [|devices_per_row| < 2^53], where [int(devices_per_row/2)] is the
    quotient rounded towards zero, the switch is created, both loops are
    empty, and the assertion on the number of devices created fails,
    which leaves the switch in the project. *)
Theorem cluster_sizes_refused
    (c : Controller) (server : Server) (project : Project)
    (num_devices start_x start_y : Z) (switch_template_id device_template_id : json)
    (start_ip devices_per_row : Z) :
  accepting c server project ->
  (num_devices < 0 /\ Z.abs devices_per_row < 2 ^ 53 \/ 64 <= num_devices)%Z ->
  fst (api_run (gns3utils_api.create_cluster_of_devices server project num_devices
                  start_x start_y switch_template_id device_template_id start_ip
                  devices_per_row) c)
    = inl (Py AssertionError) /\
  posts (snd (api_run (gns3utils_api.create_cluster_of_devices server project num_devices
                         start_x start_y switch_template_id device_template_id start_ip
                         devices_per_row) c))
    = if (num_devices <? 0)%Z
      then [node_request server project switch_template_id
              (start_x + Z.quot devices_per_row 2 * grid_unit project)%Z
              (start_y - grid_unit project)%Z]
      else [].
Proof.
  intros Hacc [[Hneg Hhalf]|Hbig].
  - assert (Hlt : (num_devices <? 0)%Z = true) by lia. rewrite Hlt.
    apply (api_wp_run c _ _
             (rejected_cluster_wp c server project Hacc num_devices start_x start_y
                switch_template_id device_template_id start_ip devices_per_row Hneg Hhalf)).
  - assert (Hlt : (num_devices <? 0)%Z = false) by lia. rewrite Hlt.
    assert (Hge : (num_devices <? 64)%Z = false) by lia.
    unfold api_run, gns3utils_api.create_cluster_of_devices, api_bind, check.
    rewrite Hge. split; reflexivity.
Qed.

Lemma cluster_sizes_refused_witness :
  fst (api_run (gns3utils_api.create_cluster_of_devices local_server iot_project (-2)
                  (-1900) (-300) switch_template device_template first_address 3)
         grid_server)
    = inl (Py AssertionError) /\
  posts (snd (api_run (gns3utils_api.create_cluster_of_devices local_server iot_project (-2)
                         (-1900) (-300) switch_template device_template first_address 3)
                grid_server))
    = if (-2 <? 0)%Z
      then [node_request local_server iot_project switch_template
              (-1900 + Z.quot 3 2 * grid_unit iot_project)%Z
              (-300 - grid_unit iot_project)%Z]
      else [].
Proof.
  apply (cluster_sizes_refused grid_server local_server iot_project (-2) (-1900) (-300)
           switch_template device_template first_address 3).
  - apply grid_server_accepting.
  - left. lia.
Defined.

(** ** Templates by name *)

Lemma first_named_sound (name : string) (c : Controller) (templates : list json) :
  forall (t : nat) (v : json) (es : list api_event),
    first_named templates name c t = (inr v, es) ->
    es = [] /\
    (v = JNull /\ Forall (has_name name false) templates \/
     exists before template after,
       templates = (before ++ template :: after)%list /\
       Forall (has_name name false) before /\ offers name v template).
Proof.
  induction templates as [|template rest IH]; intros t v es H.
  - cbn in H. injection H as <- <-. auto.
  - cbn [first_named] in H. unfold api_bind, field in H.
    destruct template as [| | | | |fields]; try discriminate H.
    destruct (fields !! "name") as [n|] eqn:Hname; [|discriminate H].
    cbn in H. destruct (json_eq_str n name) eqn:Hn.
    + destruct (fields !! "template_id") as [v'|] eqn:Hid; [|discriminate H].
      cbn in H. injection H as <- <-. split; [reflexivity|]. right.
      exists [], (JDict fields), rest. split; [reflexivity|]. split; [constructor|].
      exists fields. split; [reflexivity|]. split; [assumption|].
      exists fields, n. auto.
    + destruct (first_named rest name c (t + 0)) as [r es'] eqn:Hrest.
      injection H as -> <-. destruct (IH _ _ _ Hrest) as [-> Hcases].
      split; [reflexivity|].
      assert (Hthis : has_name name false (JDict fields)) by (exists fields, n; auto).
      destruct Hcases as [[-> Hall]|(before & template & after & -> & Hbefore & Hoffer)].
      * left. split; [reflexivity | constructor; assumption].
      * right. exists (JDict fields :: before), template, after.
        split; [reflexivity|]. split; [constructor; assumption | assumption].
Qed.

(** X12: what [get_template_id_from_name] ([template_id_from_name] in
    [scenario.py]) returns for a list of templates.  Whenever it returns,
    nothing has been sent or printed, and either the value is [None] and
    every template is an object with a [name] other than the one asked
    for, or the value is the [template_id] of the first template with
    that name: every template before it is an object with another name,
    and later templates of the same name are not looked at. *)
Theorem template_id_is_first_match
    (c : Controller) (t : nat) (templates : list json) (name : string) (v : json)
    (es : list api_event) :
  get_template_id_from_name (JList templates) name c t = (inr v, es) ->
  es = [] /\
  (v = JNull /\ Forall (has_name name false) templates \/
   exists before template after,
     templates = (before ++ template :: after)%list /\
     Forall (has_name name false) before /\ offers name v template).
Proof.
  unfold get_template_id_from_name, api_bind, elements, api_ret. intros H.
  destruct (first_named templates name c (t + length [])) as [r es'] eqn:Hrun.
  injection H as -> <-. exact (first_named_sound name c templates _ _ _ Hrun).
Qed.

Lemma template_id_is_first_match_witness :
  @nil api_event = [] /\
  (JStr "3f2a" = JNull /\ Forall (has_name "Open vSwitch" false) some_templates \/
   exists before template after,
     some_templates = (before ++ template :: after)%list /\
     Forall (has_name "Open vSwitch" false) before /\
     offers "Open vSwitch" (JStr "3f2a") template).
Proof.
  apply (template_id_is_first_match grid_server 0 some_templates "Open vSwitch"
           (JStr "3f2a") []).
  vm_compute. reflexivity.
Defined.

(** ** Starting the nodes that match a pattern *)

Lemma node_entry_name (listed : string * json) (c : Controller) (t : nat) :
  field (node_entry listed) "name" c t = (inr (JStr (fst listed)), []).
Proof. unfold field, node_entry. rewrite lookup_insert. reflexivity. Qed.

Lemma node_entry_id (listed : string * json) (c : Controller) (t : nat) :
  field (node_entry listed) "node_id" c t = (inr (snd listed), []).
Proof.
  unfold field, node_entry. rewrite lookup_insert_ne by discriminate.
  rewrite lookup_singleton. reflexivity.
Qed.

Lemma filter_by_name_listing (pattern : Pattern) (c : Controller)
    (listing : list (string * json)) :
  forall t,
    filter_by_name pattern (map node_entry listing) c t =
    (inr (map node_entry (List.filter (fun listed => pattern (fst listed)) listing)), []).
Proof.
  induction listing as [|listed listing IH]; intros t; [reflexivity|].
  cbn [map filter_by_name List.filter]. unfold api_bind.
  rewrite node_entry_name. cbn [matches api_ret length]. rewrite IH.
  destruct (pattern (fst listed)); reflexivity.
Qed.

Lemma items_of_listing (c : Controller) (listing : list (string * json)) :
  forall t, items_of (map node_entry listing) c t = (inr (map item_of listing), []).
Proof.
  induction listing as [|listed listing IH]; intros t; [reflexivity|].
  cbn [map items_of]. unfold api_bind.
  rewrite node_entry_name. cbn [length]. rewrite node_entry_id. cbn [length].
  rewrite IH. reflexivity.
Qed.

Section Listing.

Variable c : Controller.
Variable server : Server.
Variable project : Project.
Variable listing : list (string * json).
Hypothesis Hlist : listing_nodes c server project listing.

(** The answers of the server [Hlist]. *)
Ltac listing_answer x :=
  let r := fresh "r" in
  let Heq := fresh "Heq" in
  let Hok := fresh "Hok" in
  let Hbody := fresh "Hbody" in
  lazymatch x with
  | respond _ ?t Get _ _ _ =>
      destruct (lists_nodes _ _ _ _ Hlist t) as (r & Heq & Hok & Hbody);
      unfold status_ok in Hok; rewrite Heq; clear Heq
  | respond _ ?t Post [_; Value ?v; _] _ _ =>
      destruct (starts_nodes _ _ _ _ Hlist t v) as (r & Heq & Hok);
      unfold status_ok in Hok; rewrite Heq; clear Heq
  | _ => destruct x
  end.

Ltac listing_walk := repeat api_step_by ltac:(fun x => listing_answer x).

Lemma api_wp_pure {A} (m : Api A) (a : A) (Q : error + A -> list api_event -> Prop) :
  (forall t, m c t = (inr a, [])) -> Q (inr a) [] -> api_wp c m Q.
Proof. intros Hm HQ t. rewrite Hm. exact HQ. Qed.

Lemma get_nodes_wp (pattern : Pattern) :
  api_wp c (get_nodes_id_by_name_regexp server project pattern)
    (fun r es =>
       r = inr (map item_of (List.filter (fun listed => pattern (fst listed)) listing)) /\
       posts es = [] /\ pauses es = []).
Proof.
  unfold get_nodes_id_by_name_regexp. listing_walk.
  unfold elements. listing_walk.
  eapply api_wp_pure; [intros t'; apply filter_by_name_listing|].
  eapply api_wp_pure; [intros t'; apply items_of_listing|].
  repeat split.
Qed.

Lemma start_listed_wp (sleeptime : Z) (listed : string * json) :
  (0 <= sleeptime)%Z -> (forall t, sleeps c t sleeptime = None) ->
  api_wp c (gns3utils_api.start_listed server project sleeptime (item_of listed) tt)
    (fun r es =>
       r = inr tt /\
       posts es = [start_request server project (snd listed)] /\
       pauses es = [sleeptime]).
Proof.
  intros Hs Hsleeps.
  unfold gns3utils_api.start_listed. listing_walk. repeat split.
Qed.

Lemma start_each_wp (sleeptime : Z) (started : list (string * json)) :
  (0 <= sleeptime)%Z -> (forall t, sleeps c t sleeptime = None) ->
  api_wp c
    (for_each (map item_of started) (gns3utils_api.start_listed server project sleeptime) tt)
    (fun r es =>
       r = inr tt /\
       posts es = map (fun listed => start_request server project (snd listed)) started /\
       pauses es = repeat sleeptime (length started)).
Proof.
  intros Hs Hsleeps. induction started as [|listed started IH].
  - apply api_wp_ret. repeat split.
  - cbn [map for_each]. apply api_wp_bind.
    eapply api_wp_mono; [apply start_listed_wp; assumption|].
    intros r es (-> & Hposts & Hpauses).
    eapply api_wp_mono; [apply IH|].
    intros r' es' (-> & Hposts' & Hpauses').
    split; [reflexivity|].
    rewrite posts_app, Hposts, Hposts', pauses_app, Hpauses, Hpauses'.
    split; reflexivity.
Qed.

Lemma start_all_wp (pattern : Pattern) (sleeptime : Z) :
  (0 <= sleeptime)%Z -> (forall t, sleeps c t sleeptime = None) ->
  api_wp c (gns3utils_api.start_all_nodes_by_name_regexp server project pattern sleeptime)
    (fun r es =>
       r = inr tt /\
       posts es =
         map (fun listed => start_request server project (snd listed))
           (List.filter (fun listed => pattern (fst listed)) listing) /\
       pauses es =
         repeat sleeptime
           (length (List.filter (fun listed => pattern (fst listed)) listing))).
Proof.
  intros Hs Hsleeps. unfold gns3utils_api.start_all_nodes_by_name_regexp.
  apply api_wp_bind. eapply api_wp_mono; [apply get_nodes_wp|].
  intros r es (-> & Hposts & Hpauses).
  destruct (List.filter (fun listed => pattern (fst listed)) listing) as [|listed started]
    eqn:Hfilter.
  - cbn [map]. apply api_wp_ret. rewrite app_nil_r. auto.
  - rewrite <- Hfilter at 1. rewrite Hfilter.
    change (map item_of (listed :: started))
      with (item_of listed :: map item_of started) at 1.
    cbv beta iota. apply api_wp_bind. listing_walk.
    eapply api_wp_mono;
      [apply (start_each_wp sleeptime (listed :: started)); assumption|].
    intros r' es' (-> & Hposts' & Hpauses').
    split; [reflexivity|].
    rewrite !posts_app, !pauses_app, Hposts, Hpauses, Hposts', Hpauses'.
    split; reflexivity.
Qed.

End Listing.

Lemma listing_server_lists (server : Server) (project : Project) :
  listing_nodes listing_server server project some_nodes.
Proof. constructor; intros; cbn; eexists; repeat split. Qed.

(** X13: [start_all_nodes_by_name_regexp] starts the nodes whose name
    matches, and only them.  When the server lists the nodes of the
    project, each with a [name] that is a string and a [node_id], and
    accepts every start, and [time.sleep(sleeptime)] returns ([sleeptime]
    is not negative, and the clock accepts it: a pause of some 9.2e9
    seconds or more raises [OverflowError] or [OSError]), the function
    returns and has sent one start request per listed node whose name the
    pattern matches, in the order of the server's list (a node listed
    twice is started twice), each followed by a pause of [sleeptime]; no
    other [POST] is sent, and none at all when no name matches. *)
Theorem matching_nodes_started
    (c : Controller) (server : Server) (project : Project)
    (listing : list (string * json)) (node_pattern : Pattern) (sleeptime : Z) :
  listing_nodes c server project listing ->
  (0 <= sleeptime)%Z -> (forall t, sleeps c t sleeptime = None) ->
  fst (api_run (gns3utils_api.start_all_nodes_by_name_regexp server project node_pattern
                  sleeptime) c) = inr tt /\
  posts (snd (api_run (gns3utils_api.start_all_nodes_by_name_regexp server project
                         node_pattern sleeptime) c))
    = map (fun listed => start_request server project (snd listed))
        (List.filter (fun listed => node_pattern (fst listed)) listing) /\
  pauses (snd (api_run (gns3utils_api.start_all_nodes_by_name_regexp server project
                          node_pattern sleeptime) c))
    = repeat sleeptime
        (length (List.filter (fun listed => node_pattern (fst listed)) listing)).
Proof.
  intros Hlist Hs Hsleeps.
  apply (api_wp_run c _ _
           (start_all_wp c server project listing Hlist node_pattern sleeptime Hs Hsleeps)).
Qed.

Lemma matching_nodes_started_witness :
  fst (api_run (gns3utils_api.start_all_nodes_by_name_regexp local_server iot_project
                  switches_pattern 1000) listing_server) = inr tt /\
  posts (snd (api_run (gns3utils_api.start_all_nodes_by_name_regexp local_server iot_project
                         switches_pattern 1000) listing_server))
    = map (fun listed => start_request local_server iot_project (snd listed))
        (List.filter (fun listed => switches_pattern (fst listed)) some_nodes) /\
  pauses (snd (api_run (gns3utils_api.start_all_nodes_by_name_regexp local_server iot_project
                          switches_pattern 1000) listing_server))
    = repeat 1000%Z
        (length (List.filter (fun listed => switches_pattern (fst listed)) some_nodes)).
Proof.
  apply (matching_nodes_started listing_server local_server iot_project some_nodes
           switches_pattern 1000).
  - apply listing_server_lists.
  - lia.
  - reflexivity.
Defined.

(** ** The interface file of a node *)

Lemma full_netmask (i : IPv4Interface) :
  (0 <= prefixlen i <= 32)%Z ->
  (netmask i =? all_ones)%Z = (prefixlen i =? 32)%Z.
Proof.
  intros Hp. unfold netmask. destruct (Z.eqb_spec (prefixlen i) 32) as [->|Hne].
  - reflexivity.
  - apply Z.eqb_neq.
    assert (1 < 2 ^ (32 - prefixlen i))%Z by (apply Z.pow_gt_1; lia). lia.
Qed.

(** X14: [set_node_network_interfaces] of [gns3utils.py] on a server that
    takes the file.  For a prefix length between 0 and 32 the function
    warns exactly when the prefix length is 32 (the netmask is
    [255.255.255.255]), and the warning does not stop it: in both cases
    it sends one request, the interface file with the address and the
    netmask of the interface, the gateway, and as name server the one
    given or, when none is given, the gateway. *)
Theorem interface_file_sent
    (c : Controller) (server : Server) (project : Project) (node_id : json)
    (iface_name : string) (ip_iface : IPv4Interface) (gateway : string)
    (nameserver : option string) :
  accepting c server project ->
  (0 <= prefixlen ip_iface <= 32)%Z ->
  fst (api_run (gns3utils_api.set_node_network_interfaces server project node_id
                  iface_name ip_iface gateway nameserver) c) = inr tt /\
  posts (snd (api_run (gns3utils_api.set_node_network_interfaces server project node_id
                         iface_name ip_iface gateway nameserver) c))
    = [([Text (project_url server project "/nodes/"); Value node_id;
         Text "/files/etc/network/interfaces"],
        TextData (static_config iface_name (dotted (iface_ip ip_iface))
                    (dotted (netmask ip_iface)) gateway (default gateway nameserver)))] /\
  cautions (snd (api_run (gns3utils_api.set_node_network_interfaces server project node_id
                            iface_name ip_iface gateway nameserver) c))
    = if (prefixlen ip_iface =? 32)%Z
      then ["Interface netmask is set to " ++ dotted (netmask ip_iface)]
      else [].
Proof.
  intros Hacc Hp. pose proof (full_netmask ip_iface Hp) as Hfull.
  apply (api_wp_run c
           (gns3utils_api.set_node_network_interfaces server project node_id iface_name
              ip_iface gateway nameserver)
           (fun r es =>
              r = inr tt /\
              posts es =
                [([Text (project_url server project "/nodes/"); Value node_id;
                   Text "/files/etc/network/interfaces"],
                  TextData (static_config iface_name (dotted (iface_ip ip_iface))
                              (dotted (netmask ip_iface)) gateway
                              (default gateway nameserver)))] /\
              cautions es =
                if (prefixlen ip_iface =? 32)%Z
                then ["Interface netmask is set to " ++ dotted (netmask ip_iface)]
                else [])).
  unfold gns3utils_api.set_node_network_interfaces,
    gns3utils_api.get_static_interface_config_file.
  destruct (prefixlen ip_iface =? 32)%Z; destruct nameserver as [ns|];
    accepting_walk Hacc; repeat split.
Qed.

Lemma interface_file_sent_witness :
  fst (api_run (gns3utils_api.set_node_network_interfaces local_server iot_project
                  (JStr "node-7") "eth0" {| iface_ip := first_address; prefixlen := 32 |}
                  "192.168.0.1" None) grid_server) = inr tt /\
  posts (snd (api_run (gns3utils_api.set_node_network_interfaces local_server iot_project
                         (JStr "node-7") "eth0"
                         {| iface_ip := first_address; prefixlen := 32 |}
                         "192.168.0.1" None) grid_server))
    = [([Text (project_url local_server iot_project "/nodes/"); Value (JStr "node-7");
         Text "/files/etc/network/interfaces"],
        TextData (static_config "eth0"
                    (dotted (iface_ip {| iface_ip := first_address; prefixlen := 32 |}))
                    (dotted (netmask {| iface_ip := first_address; prefixlen := 32 |}))
                    "192.168.0.1" (default "192.168.0.1" None)))] /\
  cautions (snd (api_run (gns3utils_api.set_node_network_interfaces local_server iot_project
                            (JStr "node-7") "eth0"
                            {| iface_ip := first_address; prefixlen := 32 |}
                            "192.168.0.1" None) grid_server))
    = if (prefixlen {| iface_ip := first_address; prefixlen := 32 |} =? 32)%Z
      then ["Interface netmask is set to "
            ++ dotted (netmask {| iface_ip := first_address; prefixlen := 32 |})]
      else [].
Proof.
  apply (interface_file_sent grid_server local_server iot_project (JStr "node-7") "eth0"
           {| iface_ip := first_address; prefixlen := 32 |} "192.168.0.1" None).
  - apply grid_server_accepting.
  - cbn. lia.
Defined.

(** ** Opening the project *)

Lemma not_opened (r : response) (fields : gmap string json) (status : json) :
  body r = Some (JDict fields) -> fields !! "status" = Some status ->
  json_eq_str status "opened" = false -> ~ reports_opened (inr r).
Proof.
  intros Hb Hs Hn (r' & fields' & [= <-] & Hb' & Hs').
  rewrite Hb in Hb'. injection Hb' as <-. rewrite Hs in Hs'. injection Hs' as ->.
  discriminate Hn.
Qed.

Lemma is_opened (r : response) (fields : gmap string json) (status : json) :
  body r = Some (JDict fields) -> fields !! "status" = Some status ->
  json_eq_str status "opened" = true -> reports_opened (inr r).
Proof.
  intros Hb Hs Hy. apply json_eq_str_spec in Hy as ->. exists r, fields. auto.
Qed.

Lemma open_project_wp (c : Controller) (server : Server) (project : Project) :
  api_wp c (gns3utils_api.open_project_if_closed server project)
    (fun r es =>
       (posts es = [] \/
        posts es = [([Text (project_url server project "/open")], NoData)] /\
        exists first, head (answers es) = Some first /\ ~ reports_opened first) /\
       (r = inr tt -> exists final, last (answers es) = Some final /\ reports_opened final)).
Proof.
  unfold gns3utils_api.open_project_if_closed. api_walk.
  all: split;
    [ first [ left; reflexivity
            | right; split; [reflexivity|]; eexists; split; [reflexivity|];
              eapply not_opened; eassumption ]
    | first [ discriminate
            | intros _; eexists; split; [reflexivity|]; eapply is_opened; eassumption ] ].
Qed.

(** X15: what [open_project_if_closed] guarantees, with any server.  The
    function sends at most one [POST], the request to open the project,
    and only after the server has answered that the status of the
    project is not [opened]; and it returns only when the last answer of
    the server (to the [GET] when the project was open already, to the
    [POST] otherwise) reports the status [opened]: in every other case
    it raises. *)
Theorem project_opened_on_return
    (c : Controller) (server : Server) (project : Project) :
  (posts (snd (api_run (gns3utils_api.open_project_if_closed server project) c)) = [] \/
   posts (snd (api_run (gns3utils_api.open_project_if_closed server project) c))
     = [([Text (project_url server project "/open")], NoData)] /\
   exists first,
     head (answers (snd (api_run (gns3utils_api.open_project_if_closed server project) c)))
       = Some first /\
     ~ reports_opened first) /\
  (fst (api_run (gns3utils_api.open_project_if_closed server project) c) = inr tt ->
   exists final,
     last (answers (snd (api_run (gns3utils_api.open_project_if_closed server project) c)))
       = Some final /\
     reports_opened final).
Proof.
  apply (api_wp_run c _ _ (open_project_wp c server project)).
Qed.

Lemma project_opened_on_return_witness :
  fst (api_run (gns3utils_api.open_project_if_closed local_server iot_project)
         opening_server) = inr tt /\
  exists final,
    last (answers (snd (api_run (gns3utils_api.open_project_if_closed local_server
                                   iot_project) opening_server)))
      = Some final /\
    reports_opened final.
Proof.
  split; [vm_compute; reflexivity|].
  apply (proj2 (project_opened_on_return opening_server local_server iot_project)).
  vm_compute. reflexivity.
Defined.

(** ** A row of no devices *)

Lemma zero_row_wp (c : Controller) (server : Server) (project : Project)
    (num_devices start_x start_y : Z) (switch_template_id device_template_id : json)
    (start_ip : Z) :
  accepting c server project ->
  (1 <= num_devices < 64)%Z ->
  api_wp c
    (gns3utils_api.create_cluster_of_devices server project num_devices start_x start_y
       switch_template_id device_template_id start_ip 0)
    (fun r es =>
       r = inl ZeroDivisionError /\
       posts es =
         [node_request server project switch_template_id start_x
            (start_y - grid_unit project)%Z]).
Proof.
  intros Hacc Hnum.
  assert (Hlt : (num_devices <? 64)%Z = true) by lia.
  assert (Hhalf : (Z.abs 0 < 2 ^ 53)%Z) by reflexivity.
  unfold gns3utils_api.create_cluster_of_devices. accepting_walk Hacc.
  unfold create_devices, range.
  destruct (Z.to_nat num_devices) as [|count] eqn:Hcount; [lia|].
  cbn [seq map for_each]. unfold create_device, py_mod.
  change (0 =? 0)%Z with true. cbv iota. accepting_walk Hacc.
  split; [reflexivity|]. unfold node_request, position.
  cbn [Z.quot Z.quotrem fst Z.mul]. rewrite Z.add_0_r. reflexivity.
Qed.

(** X16: [devices_per_row = 0] in [create_cluster_of_devices] of
    [gns3utils.py].  With a server that accepts every request and at
    least one device, the switch is created at
    [(start_x, start_y - grid)] and the first device then raises
    [ZeroDivisionError] at [i % devices_per_row]: the function leaves the
    switch in the project and creates nothing else. *)
Theorem zero_devices_per_row
    (c : Controller) (server : Server) (project : Project)
    (num_devices start_x start_y : Z) (switch_template_id device_template_id : json)
    (start_ip : Z) :
  accepting c server project ->
  (1 <= num_devices < 64)%Z ->
  fst (api_run (gns3utils_api.create_cluster_of_devices server project num_devices
                  start_x start_y switch_template_id device_template_id start_ip 0) c)
    = inl ZeroDivisionError /\
  posts (snd (api_run (gns3utils_api.create_cluster_of_devices server project num_devices
                         start_x start_y switch_template_id device_template_id start_ip 0)
                c))
    = [node_request server project switch_template_id start_x
         (start_y - grid_unit project)%Z].
Proof.
  intros Hacc Hnum.
  apply (api_wp_run c _ _
           (zero_row_wp c server project num_devices start_x start_y switch_template_id
              device_template_id start_ip Hacc Hnum)).
Qed.

Lemma zero_devices_per_row_witness :
  fst (api_run (gns3utils_api.create_cluster_of_devices local_server iot_project 5
                  (-1900) (-300) switch_template device_template first_address 0)
         grid_server)
    = inl ZeroDivisionError /\
  posts (snd (api_run (gns3utils_api.create_cluster_of_devices local_server iot_project 5
                         (-1900) (-300) switch_template device_template first_address 0)
                grid_server))
    = [node_request local_server iot_project switch_template (-1900)
         (-300 - grid_unit iot_project)%Z].
Proof.
  apply (zero_devices_per_row grid_server local_server iot_project 5 (-1900) (-300)
           switch_template device_template first_address).
  - apply grid_server_accepting.
  - lia.
Defined.
